(** * Playwriting RAG helper: formatter, metadata projection, query filter,
      result shaping, content extraction and the interactive step selector.

    The Python sources are embedded shallowly.  Strings are sequences of
    8-bit characters (the Latin-1 range of Python's [str]); JSON values are
    the values [json.loads] can produce; a Python exception is an explicit
    [Raise] result. *)

From Stdlib Require Import String Ascii List ZArith Lia Bool Arith.
From Stdlib Require Import DecimalString.
Import ListNotations.

Set Warnings "-register-all".

Open Scope string_scope.

(* ================================================================== *)
(** ** Characters and the string methods the sources call             *)
(* ================================================================== *)

Definition nl : ascii := "010"%char.
Definition cr : ascii := "013"%char.
Definition tab : ascii := "009"%char.
Definition squote : ascii := "039"%char.
Definition dquote : ascii := "034"%char.
Definition backslash : ascii := "092"%char.

(** [str.isspace] on one character, which is also the regex class [\s]:
    code points 9-13, 28-32, 0x85 and 0xa0. *)
Definition is_space (a : ascii) : bool :=
  let n := nat_of_ascii a in
  (((9 <=? n) && (n <=? 13)) || ((28 <=? n) && (n <=? 32))
   || (n =? 133) || (n =? 160))%nat.

(** The regex class [\w] of a [str] pattern: alphanumerics and underscore. *)
Definition is_word (a : ascii) : bool :=
  let n := nat_of_ascii a in
  (((48 <=? n) && (n <=? 57)) || ((65 <=? n) && (n <=? 90))
   || (n =? 95) || ((97 <=? n) && (n <=? 122))
   || (n =? 170) || (n =? 178) || (n =? 179) || (n =? 181)
   || ((185 <=? n) && (n <=? 186)) || ((188 <=? n) && (n <=? 190))
   || ((192 <=? n) && (n <=? 214)) || ((216 <=? n) && (n <=? 246))
   || (248 <=? n))%nat.

Definition is_empty (s : string) : bool :=
  match s with EmptyString => true | String _ _ => false end.

(** Removal of the leading and of the trailing characters of a class. *)
Fixpoint lstrip_by (cls : ascii -> bool) (s : string) : string :=
  match s with
  | EmptyString => EmptyString
  | String a s' => if cls a then lstrip_by cls s' else s
  end.

Fixpoint rstrip_by (cls : ascii -> bool) (s : string) : string :=
  match s with
  | EmptyString => EmptyString
  | String a s' =>
      let r := rstrip_by cls s' in
      if cls a && is_empty r then EmptyString else String a r
  end.

Definition lstrip : string -> string := lstrip_by is_space.
Definition rstrip : string -> string := rstrip_by is_space.

(** [s.strip()] *)
Definition strip (s : string) : string := rstrip (lstrip s).

(** [sep.join(parts)] *)
Definition join (sep : string) (parts : list string) : string :=
  String.concat sep parts.

Fixpoint drop (n : nat) (s : string) : string :=
  match n, s with
  | O, _ => s
  | S _, EmptyString => EmptyString
  | S k, String _ s' => drop k s'
  end.

(** [s.replace(old, new, count)] for a non-empty [old], as at every call
    site; [count = None] replaces every occurrence.  [skip] counts the
    characters of a matched occurrence still to be passed over. *)
Fixpoint replace_go (old new : string) (count : option nat) (skip : nat)
  (s : string) : string :=
  match s with
  | EmptyString => EmptyString
  | String a s' =>
      match skip with
      | S k => replace_go old new count k s'
      | O =>
          let allowed := match count with Some O => false | _ => true end in
          if allowed && prefix old s
          then new ++ replace_go old new (option_map pred count)
                        (String.length old - 1) s'
          else String a (replace_go old new count 0 s')
      end
  end.

Definition replace (old new : string) (count : option nat) (s : string)
  : string := replace_go old new count 0 s.

Fixpoint contains_char (c : ascii) (s : string) : bool :=
  match s with
  | EmptyString => false
  | String a s' => Ascii.eqb a c || contains_char c s'
  end.

(** [needle in s] *)
Fixpoint occurs (needle s : string) : bool :=
  prefix needle s ||
  match s with
  | EmptyString => false
  | String _ s' => occurs needle s'
  end.

(** [s.lower()]: the letters A-Z and the capital letters of Latin-1. *)
Definition lower_char (a : ascii) : ascii :=
  let n := nat_of_ascii a in
  if (((65 <=? n) && (n <=? 90))
      || ((192 <=? n) && (n <=? 222) && negb (n =? 215)))%nat
  then ascii_of_nat (n + 32) else a.

Fixpoint lower (s : string) : string :=
  match s with
  | EmptyString => EmptyString
  | String a s' => String (lower_char a) (lower s')
  end.

(* ================================================================== *)
(** ** Exceptions                                                     *)
(* ================================================================== *)

Inductive exn : Type :=
| TypeError
| AttributeError
| KeyError (key : string)
| IndexError
| ValueError (msg : string)
| JSONDecodeError
| EOFError
| OverflowError.

Inductive result (A : Type) : Type :=
| Ok (a : A)
| Raise (e : exn).

Arguments Ok {A} a.
Arguments Raise {A} e.

Definition bind {A B : Type} (r : result A) (k : A -> result B) : result B :=
  match r with
  | Ok a => k a
  | Raise e => Raise e
  end.

Notation "x <- r ;; k" := (bind r (fun x => k))
  (at level 61, r at next level, right associativity).

Definition is_ok {A : Type} (r : result A) : bool :=
  match r with Ok _ => true | Raise _ => false end.

(* ================================================================== *)
(** ** JSON values as Python objects                                  *)
(* ================================================================== *)

(** A float is identified by its [repr] text, which Python guarantees to
    determine the value; the sources only test floats for truth, print them
    and pass them on.  A [dict] keeps its insertion order. *)
Inductive pyval : Type :=
| VNone
| VBool (b : bool)
| VInt (z : Z)
| VFloat (repr : string)
| VStr (s : string)
| VList (l : list pyval)
| VDict (d : list (string * pyval)).

Definition dict : Type := list (string * pyval).

Definition truthy (v : pyval) : bool :=
  match v with
  | VNone => false
  | VBool b => b
  | VInt z => negb (z =? 0)%Z
  | VFloat r => negb ((r =? "0.0") || (r =? "-0.0"))
  | VStr s => negb (is_empty s)
  | VList l => match l with [] => false | _ :: _ => true end
  | VDict d => match d with [] => false | _ :: _ => true end
  end.

(** [a or b] *)
Definition py_or (a b : pyval) : pyval := if truthy a then a else b.

Fixpoint dict_get (k : string) (d : dict) : option pyval :=
  match d with
  | [] => None
  | (k', v) :: d' => if k' =? k then Some v else dict_get k d'
  end.

(** [d.get(k)] and [d.get(k, dflt)] *)
Definition get (d : dict) (k : string) : pyval :=
  match dict_get k d with Some v => v | None => VNone end.

Definition get_default (d : dict) (k : string) (dflt : pyval) : pyval :=
  match dict_get k d with Some v => v | None => dflt end.

(** [d[k] = v]: an existing key keeps its position. *)
Fixpoint dict_set (k : string) (v : pyval) (d : dict) : dict :=
  match d with
  | [] => [(k, v)]
  | (k', v') :: d' =>
      if k' =? k then (k, v) :: d' else (k', v') :: dict_set k v d'
  end.

(** [{**base, **extra}]: the entries of [extra] are written over [base]. *)
Definition dict_update (base extra : dict) : dict :=
  fold_left (fun acc kv => dict_set (fst kv) (snd kv) acc) extra base.

Definition keys (d : dict) : list string := map fst d.

(** [v[k]] for a mapping. *)
Definition subscript_key (v : pyval) (k : string) : result pyval :=
  match v with
  | VDict d =>
      match dict_get k d with Some x => Ok x | None => Raise (KeyError k) end
  | VStr _ | VList _ => Raise TypeError
  | _ => Raise TypeError
  end.

(** [v[i]] for a sequence and a non-negative index. *)
Definition subscript_index (v : pyval) (i : nat) : result pyval :=
  match v with
  | VList l =>
      match nth_error l i with Some x => Ok x | None => Raise IndexError end
  | VStr s =>
      match String.get i s with
      | Some a => Ok (VStr (String a EmptyString))
      | None => Raise IndexError
      end
  | VDict d => Raise (KeyError (NilZero.string_of_uint (Nat.to_uint i)))
  | _ => Raise TypeError
  end.

Fixpoint chars (s : string) : list pyval :=
  match s with
  | EmptyString => []
  | String a s' => VStr (String a EmptyString) :: chars s'
  end.

(** [for x in v]: the elements a loop or comprehension visits. *)
Definition iterate (v : pyval) : result (list pyval) :=
  match v with
  | VList l => Ok l
  | VStr s => Ok (chars s)
  | VDict d => Ok (map VStr (keys d))
  | _ => Raise TypeError
  end.

(** [len(v)] *)
Definition py_len (v : pyval) : result nat :=
  match v with
  | VList l => Ok (List.length l)
  | VStr s => Ok (String.length s)
  | VDict d => Ok (List.length d)
  | _ => Raise TypeError
  end.

(** *** [str] and [repr] *)

Definition str_of_Z (z : Z) : string := NilZero.string_of_int (Z.to_int z).

Definition hex_digit (n : nat) : ascii :=
  if (n <? 10)%nat then ascii_of_nat (48 + n) else ascii_of_nat (87 + n).

Definition printable (a : ascii) : bool :=
  let n := nat_of_ascii a in
  (((32 <=? n) && (n <? 127)) || ((161 <=? n) && negb (n =? 173)))%nat.

Definition escape_char (quote a : ascii) : string :=
  if Ascii.eqb a backslash then String backslash (String backslash EmptyString)
  else if Ascii.eqb a quote then String backslash (String quote EmptyString)
  else if Ascii.eqb a nl then String backslash "n"
  else if Ascii.eqb a cr then String backslash "r"
  else if Ascii.eqb a tab then String backslash "t"
  else if printable a then String a EmptyString
  else
    let n := nat_of_ascii a in
    String backslash
      (String "x" (String (hex_digit (n / 16))
                     (String (hex_digit (n mod 16)) EmptyString))).

Fixpoint escape (quote : ascii) (s : string) : string :=
  match s with
  | EmptyString => EmptyString
  | String a s' => escape_char quote a ++ escape quote s'
  end.

Definition repr_str (s : string) : string :=
  let q := if contains_char squote s && negb (contains_char dquote s)
           then dquote else squote in
  String q (escape q s ++ String q EmptyString).

Fixpoint repr (v : pyval) : string :=
  match v with
  | VNone => "None"
  | VBool true => "True"
  | VBool false => "False"
  | VInt z => str_of_Z z
  | VFloat r => r
  | VStr s => repr_str s
  | VList l => "[" ++ join ", " (map repr l) ++ "]"
  | VDict d =>
      "{" ++ join ", " (map (fun kv => repr_str (fst kv) ++ ": " ++ repr (snd kv)) d)
          ++ "}"
  end.

(** [str(v)], which is what an f-string field [{v}] renders. *)
Definition str (v : pyval) : string :=
  match v with
  | VStr s => s
  | _ => repr v
  end.

(* ================================================================== *)
(** ** chromadb_save.py: document formatter and metadata projection   *)
(* ================================================================== *)

Definition newline : string := String nl EmptyString.

(** [if card.get(key): parts.append(f"<label>: {card[key]}")] *)
Definition scalar_part (card : dict) (key label : string) : list string :=
  if truthy (get card key) then [label ++ ": " ++ str (get card key)] else [].

(** [xs = card.get(key) or []]
    [if xs: parts.append(header); parts.extend([f"- {x}" for x in xs])] *)
Definition list_part (card : dict) (key header : string)
  : result (list string) :=
  let xs := py_or (get card key) (VList []) in
  if truthy xs
  then elems <- iterate xs ;;
       Ok (header :: map (fun x => "- " ++ str x) elems)
  else Ok [].

Definition build_document (card : dict) : result string :=
  let parts := scalar_part card "title" "Title" in
  let parts := (parts ++ scalar_part card "content" "Content")%list in
  items <- list_part card "items" "Checklist Items:" ;;
  let parts := (parts ++ items)%list in
  symptoms <- list_part card "symptoms" "Symptoms:" ;;
  let parts := (parts ++ symptoms)%list in
  let parts := (parts ++ scalar_part card "root_cause" "Root cause")%list in
  fix_ <- list_part card "fix" "Fix:" ;;
  let parts := (parts ++ fix_)%list in
  Ok ("passage: " ++ strip (join newline parts)).

(** [v.get(k, dflt)], a method only mappings have. *)
Definition method_get (v : pyval) (k : string) (dflt : pyval)
  : result pyval :=
  match v with
  | VDict d => Ok (get_default d k dflt)
  | _ => Raise AttributeError
  end.

(** [[t for t in tags if isinstance(t, str)]] *)
Fixpoint only_strings (l : list pyval) : list string :=
  match l with
  | [] => []
  | VStr s :: l' => s :: only_strings l'
  | _ :: l' => only_strings l'
  end.

Definition build_metadata (card : dict) : result dict :=
  let src := py_or (get card "source") (VDict []) in
  let tags := py_or (get card "tags") (VList []) in
  elems <- iterate tags ;;
  let tags_str := join "," (only_strings elems) in
  source_name <- method_get src "name" (VStr EmptyString) ;;
  source_url <- method_get src "url" (VStr EmptyString) ;;
  Ok [ ("type", get_default card "type" (VStr EmptyString));
       ("category", get_default card "category" (VStr EmptyString));
       ("pipeline_step", get_default card "pipeline_step" (VStr EmptyString));
       ("source_name", source_name);
       ("source_url", source_url);
       ("tags", VStr tags_str) ].

(** *** The ingestion loop

    [json.loads], the embedding model and the collection are the external
    collaborators.  The collection is the log of the [add] calls it has
    received; an exception leaves that log as it was when it was raised. *)

Section Ingestion.

Variable embedding : Type.
Variable json_loads : string -> option pyval.
Variable e5_embed : list string -> list embedding.

Record add_call : Type := mk_add {
  add_ids : list pyval;
  add_documents : list string;
  add_metadatas : list dict;
  add_embeddings : list embedding
}.

Record loop_state : Type := mk_loop {
  ids : list pyval;
  docs : list string;
  metas : list dict;
  collection : list add_call
}.

Definition batch : nat := 200.

Definition init_state : loop_state := mk_loop [] [] [] [].

(** [collection.add(ids=ids, documents=docs, metadatas=metas, embeddings=embs)]
    followed by [ids, docs, metas = [], [], []] *)
Definition flush (st : loop_state) : loop_state :=
  let embs := e5_embed (docs st) in
  mk_loop [] [] []
    (collection st ++ [mk_add (ids st) (docs st) (metas st) embs])%list.

(** One turn of [for line in f]. *)
Definition loop_body (line : string) (st : loop_state)
  : result loop_state :=
  match json_loads line with
  | None => Raise JSONDecodeError
  | Some card =>
      id <- subscript_key card "id" ;;
      match card with
      | VDict c =>
          doc <- build_document c ;;
          meta <- build_metadata c ;;
          let st' := mk_loop (ids st ++ [id])%list (docs st ++ [doc])%list
                       (metas st ++ [meta])%list (collection st) in
          if (batch <=? List.length (ids st'))%nat
          then Ok (flush st') else Ok st'
      | _ => Raise AttributeError
      end
  end.

(** The loop: the state reached and the exception that ended it, if any. *)
Fixpoint loop (lines : list string) (st : loop_state)
  : loop_state * option exn :=
  match lines with
  | [] => (st, None)
  | line :: rest =>
      match loop_body line st with
      | Ok st' => loop rest st'
      | Raise e => (st, Some e)
      end
  end.

(** The whole script from [open(JSONL_PATH)] on: the collection it leaves
    behind and how it ended. *)
Definition ingest (lines : list string) : list add_call * result unit :=
  match loop lines init_state with
  | (st, Some e) => (collection st, Raise e)
  | (st, None) =>
      let st := match ids st with [] => st | _ :: _ => flush st end in
      (collection st, Ok tt)
  end.

Definition stored_documents (c : list add_call) : list string :=
  flat_map add_documents c.

Definition stored_ids (c : list add_call) : list pyval :=
  flat_map add_ids c.

End Ingestion.

Arguments mk_add {embedding}.
Arguments mk_loop {embedding}.
Arguments add_ids {embedding}.
Arguments add_documents {embedding}.
Arguments add_metadatas {embedding}.
Arguments add_embeddings {embedding}.
Arguments ids {embedding}.
Arguments docs {embedding}.
Arguments metas {embedding}.
Arguments collection {embedding}.
Arguments init_state {embedding}.
Arguments flush {embedding}.
Arguments loop_body {embedding}.
Arguments loop {embedding}.
Arguments ingest {embedding}.
Arguments stored_documents {embedding}.
Arguments stored_ids {embedding}.

(* ================================================================== *)
(** ** rag_chroma_query.py: query embedding, filter and result shaping *)
(* ================================================================== *)

(** [text or ""] for an [Optional[str]]. *)
Definition or_empty (text : option string) : string :=
  match text with
  | Some s => s
  | None => EmptyString
  end.

(** [RagChromaQuery._e5_query_prefix] *)
Definition e5_query_prefix (text : option string) : string :=
  let text := strip (or_empty text) in
  "query: " ++ text.

(** Truth of an [Optional[str]] and of an [Optional[Json]]. *)
Definition step_given (step : option string) : bool :=
  negb (is_empty (or_empty step)).

Definition extra_given (where_extra : option dict) : bool :=
  match where_extra with
  | Some (_ :: _) => true
  | _ => false
  end.

(** Lines 109-116 of [RagChromaQuery.query]: the [where] argument. *)
Definition query_where (step : option string) (where_extra : option dict)
  : option dict :=
  if step_given step && extra_given where_extra then
    Some (dict_update [("pipeline_step", VStr (or_empty step))]
            (match where_extra with Some extra => extra | None => [] end))
  else if step_given step then
    Some [("pipeline_step", VStr (or_empty step))]
  else if extra_given where_extra then
    where_extra
  else None.

(** An integer too large for [float]: its nearest double would be
    [2 ^ 1024] or more. *)
Definition float_overflows (z : Z) : bool :=
  (2 ^ 1024 - 2 ^ 970 <=? Z.abs z)%Z.

(** A float as a hit carries it: the sentinel of [float("nan")], or the
    conversion [float(v)] of a stored value, kept symbolic. *)
Inductive pyfloat : Type :=
| NaN
| FloatOf (v : pyval).

Record RagHit : Type := mk_hit {
  hit_id : pyval;
  hit_distance : pyfloat;
  hit_document : pyval;
  hit_metadata : pyval
}.

Fixpoint enumerate {A : Type} (i : nat) (l : list A) : list (nat * A) :=
  match l with
  | [] => []
  | x :: l' => (i, x) :: enumerate (S i) l'
  end.

(** [for x in xs: body(x)], stopping at the first exception. *)
Fixpoint for_each {A B : Type} (body : A -> result B) (xs : list A)
  : result (list B) :=
  match xs with
  | [] => Ok []
  | x :: xs' =>
      y <- body x ;;
      ys <- for_each body xs' ;;
      Ok (y :: ys)
  end.

Section Query.

Variable embedding : Type.

(** [self.model.encode(texts, normalize_embeddings=True)] *)
Variable encode : list string -> list embedding.

(** Whether [float(s)] accepts the text [s]. *)
Variable float_literal : string -> bool.

(** [self.collection.query(query_embeddings, n_results, where, include)] *)
Variable collection_query :
  list embedding -> Z -> option dict -> list string -> result pyval.

(** [RagChromaQuery.embed_query] *)
Definition embed_query (query : option string) : result embedding :=
  let q := e5_query_prefix query in
  let vec := encode [q] in
  match vec with
  | v :: _ => Ok v
  | [] => Raise IndexError
  end.

(** [float(v)] *)
Definition py_float (v : pyval) : result pyfloat :=
  match v with
  | VBool _ | VFloat _ => Ok (FloatOf v)
  | VInt z =>
      if float_overflows z then Raise OverflowError else Ok (FloatOf v)
  | VStr s =>
      if float_literal s then Ok (FloatOf v)
      else Raise (ValueError ("could not convert string to float: "
                              ++ repr_str s))
  | VNone | VList _ | VDict _ => Raise TypeError
  end.

(** [res.get(key, [[]])[0] if key in res else [dflt] * len(ids)] *)
Definition column (res : dict) (key : string) (dflt ids : pyval)
  : result pyval :=
  match dict_get key res with
  | Some _ =>
      subscript_index (get_default res key (VList [VList []])) 0
  | None =>
      n <- py_len ids ;;
      Ok (VList (repeat dflt n))
  end.

(** The body of [for i, _id in enumerate(ids)]. *)
Definition make_hit (dists docs metas : pyval) (entry : nat * pyval)
  : result RagHit :=
  let (i, _id) := entry in
  d <- subscript_index dists i ;;
  distance <- match d with
              | VNone => Ok NaN
              | _ => py_float d
              end ;;
  document <- (if truthy docs then subscript_index docs i else Ok VNone) ;;
  metadata <- (if truthy metas then subscript_index metas i
               else Ok (VDict [])) ;;
  Ok (mk_hit _id distance document metadata).

(** Lines 125-140 of [RagChromaQuery.query]: the result shaper. *)
Definition shape_hits (res : pyval) : result (list RagHit) :=
  match res with
  | VDict r =>
      ids <- subscript_index (get_default r "ids" (VList [VList []])) 0 ;;
      dists <- column r "distances" VNone ids ;;
      docs <- column r "documents" VNone ids ;;
      metas <- column r "metadatas" (VDict []) ids ;;
      elems <- iterate ids ;;
      for_each (make_hit dists docs metas) (enumerate 0 elems)
  | _ => Raise AttributeError
  end.

(** [RagChromaQuery.query] *)
Definition query (query : option string) (step : option string) (k : Z)
  (where_extra : option dict) (include : list string)
  : result (list RagHit) :=
  q_emb <- embed_query query ;;
  let where_ := query_where step where_extra in
  res <- collection_query [q_emb] k where_ include ;;
  shape_hits res.

End Query.

Arguments embed_query {embedding}.
Arguments query {embedding}.

(* ================================================================== *)
(** ** query_cli.py: content extraction                               *)
(* ================================================================== *)

(** The fragment of Python's [re] syntax that [CONTENT_RE] uses. *)
Inductive regex : Type :=
| Lit (s : string)                         (* literal text *)
| WordBoundary                             (* \b *)
| Star (greedy : bool) (cls : ascii -> bool) (* c* and c*? on a class *)
| Group (name : string) (r : regex)        (* (?P<name>r) *)
| Seq (r1 r2 : regex)
| Alt (r1 r2 : regex)
| EndOfString.                             (* $ without MULTILINE *)

(** The span of each named group. *)
Definition captures : Type := list (string * (nat * nat)).

(** A position in the subject: the character before it, the text after it
    and its index. *)
Definition cont : Type :=
  option ascii -> string -> nat -> captures -> option captures.

Definition word_before (prev : option ascii) : bool :=
  match prev with Some a => is_word a | None => false end.

Definition word_after (rest : string) : bool :=
  match rest with String a _ => is_word a | EmptyString => false end.

(** Match the literal [lit] at the front of [rest]. *)
Fixpoint match_lit (lit : string) (prev : option ascii) (rest : string)
  (pos : nat) : option (option ascii * string * nat) :=
  match lit with
  | EmptyString => Some (prev, rest, pos)
  | String c lit' =>
      match rest with
      | String a rest' =>
          if Ascii.eqb a c then match_lit lit' (Some a) rest' (S pos)
          else None
      | EmptyString => None
      end
  end.

(** [c*]: as many characters as possible first, giving back one at a time. *)
Fixpoint star_greedy (cls : ascii -> bool) (prev : option ascii)
  (rest : string) (pos : nat) (caps : captures) (k : cont)
  : option captures :=
  match rest with
  | String a rest' =>
      if cls a then
        match star_greedy cls (Some a) rest' (S pos) caps k with
        | Some r => Some r
        | None => k prev rest pos caps
        end
      else k prev rest pos caps
  | EmptyString => k prev rest pos caps
  end.

(** [c*?]: as few characters as possible first, taking one more at a time. *)
Fixpoint star_lazy (cls : ascii -> bool) (prev : option ascii)
  (rest : string) (pos : nat) (caps : captures) (k : cont)
  : option captures :=
  match k prev rest pos caps with
  | Some r => Some r
  | None =>
      match rest with
      | String a rest' =>
          if cls a then star_lazy cls (Some a) rest' (S pos) caps k
          else None
      | EmptyString => None
      end
  end.

(** Backtracking matcher: [k] is what remains to be matched. *)
Fixpoint rmatch (r : regex) (prev : option ascii) (rest : string)
  (pos : nat) (caps : captures) (k : cont) : option captures :=
  match r with
  | Lit s =>
      match match_lit s prev rest pos with
      | Some (prev', rest', pos') => k prev' rest' pos' caps
      | None => None
      end
  | WordBoundary =>
      if xorb (word_before prev) (word_after rest)
      then k prev rest pos caps else None
  | Star true cls => star_greedy cls prev rest pos caps k
  | Star false cls => star_lazy cls prev rest pos caps k
  | Group name r1 =>
      rmatch r1 prev rest pos caps
        (fun prev' rest' pos' caps' =>
           k prev' rest' pos' ((name, (pos, pos')) :: caps'))
  | Seq r1 r2 =>
      rmatch r1 prev rest pos caps
        (fun prev' rest' pos' caps' => rmatch r2 prev' rest' pos' caps' k)
  | Alt r1 r2 =>
      match rmatch r1 prev rest pos caps k with
      | Some c => Some c
      | None => rmatch r2 prev rest pos caps k
      end
  | EndOfString =>
      match rest with
      | EmptyString => k prev rest pos caps
      | String a EmptyString =>
          if Ascii.eqb a nl then k prev rest pos caps else None
      | _ => None
      end
  end.

Definition accept : cont := fun _ _ _ caps => Some caps.

(** [pattern.search(s)]: the match at the leftmost position that has one. *)
Fixpoint search_from (r : regex) (prev : option ascii) (rest : string)
  (pos : nat) : option captures :=
  match rmatch r prev rest pos [] accept with
  | Some caps => Some caps
  | None =>
      match rest with
      | String a rest' => search_from r (Some a) rest' (S pos)
      | EmptyString => None
      end
  end.

Definition search (r : regex) (s : string) : option captures :=
  search_from r None s 0.

Fixpoint lookup_group (name : string) (caps : captures)
  : option (nat * nat) :=
  match caps with
  | [] => None
  | (n, span) :: caps' =>
      if n =? name then Some span else lookup_group name caps'
  end.

(** [m.group(name)] for a group that took part in the match. *)
Definition group (s : string) (caps : captures) (name : string) : string :=
  match lookup_group name caps with
  | Some (i, j) => substring i (j - i) s
  | None => EmptyString
  end.

Definition any_char (a : ascii) : bool := true.

(** [(?:\n(?:Checklist Items:|Symptoms:|Root cause:|Fix:|$))] *)
Definition SECTION_END : regex :=
  Seq (Lit newline)
      (Alt (Lit "Checklist Items:")
      (Alt (Lit "Symptoms:")
      (Alt (Lit "Root cause:")
      (Alt (Lit "Fix:")
           EndOfString)))).

(** [\bContent:\s*(?P<content>.*?)(?:\n(?:Checklist Items:|Symptoms:|Root cause:|Fix:|$))]
    compiled with [re.DOTALL]. *)
Definition CONTENT_RE : regex :=
  Seq WordBoundary
 (Seq (Lit "Content:")
 (Seq (Star true is_space)
 (Seq (Group "content" (Star false any_char))
      SECTION_END))).

Definition crlf : string := String cr (String nl EmptyString).

Definition extract_content (document : option string) : string :=
  match document with
  | None => EmptyString
  | Some document =>
      if is_empty document then EmptyString
      else
        let doc := replace (String cr EmptyString) newline None
                     (replace crlf newline None document) in
        match search CONTENT_RE doc with
        | Some m => strip (group doc m "content")
        | None => strip (replace "passage: " EmptyString (Some 1) doc)
        end
  end.

(* ================================================================== *)
(** ** query_cli.py: the step selector and the prompt loop            *)
(* ================================================================== *)

Definition STEP_MAP : list (Z * string) :=
  [ (1, "Step1_Premise");
    (2, "Step2_Premise_Consistency");
    (3, "Step3_Act_Structure");
    (4, "Step4_Character_Arc");
    (5, "Step5_Conflict_Escalation");
    (6, "Step6_Details") ]%Z.

Fixpoint step_lookup (n : Z) (m : list (Z * string)) : option string :=
  match m with
  | [] => None
  | (i, tag) :: m' => if (i =? n)%Z then Some tag else step_lookup n m'
  end.

(** [STEP_MAP[n]] *)
Definition step_at (n : Z) : result string :=
  match step_lookup n STEP_MAP with
  | Some tag => Ok tag
  | None => Raise (KeyError (str_of_Z n))
  end.

(** *** [int(s)] on a string *)

(** The blanks [int] skips around a literal. *)
Definition is_int_space (a : ascii) : bool :=
  let n := nat_of_ascii a in
  (((9 <=? n) && (n <=? 13)) || (n =? 32) || (n =? 133) || (n =? 160))%nat.

Definition digit_value (a : ascii) : option Z :=
  let n := nat_of_ascii a in
  if ((48 <=? n) && (n <=? 57))%nat then Some (Z.of_nat (n - 48)) else None.

Inductive int_prev : Type := AtStart | AfterDigit | AfterUnderscore.

(** Decimal digits, single underscores allowed between two digits. *)
Fixpoint int_digits (s : string) (acc : Z) (prev : int_prev) : option Z :=
  match s with
  | EmptyString =>
      match prev with AfterDigit => Some acc | _ => None end
  | String a s' =>
      match digit_value a with
      | Some d => int_digits s' (10 * acc + d)%Z AfterDigit
      | None =>
          if Ascii.eqb a "_"%char then
            match prev with
            | AfterDigit => int_digits s' acc AfterUnderscore
            | _ => None
            end
          else None
      end
  end.

(** The most digits [int] accepts in a decimal literal. *)
Definition int_max_str_digits : Z := 4300%Z.

Fixpoint count_digits (s : string) : Z :=
  match s with
  | EmptyString => 0%Z
  | String a s' =>
      match digit_value a with
      | Some _ => (1 + count_digits s')%Z
      | None => count_digits s'
      end
  end.

(** [int(s)]; [None] stands for [ValueError], raised for a text that is no
    decimal literal and for one with more than 4300 digits. *)
Definition py_int (s : string) : option Z :=
  let literal := rstrip_by is_int_space (lstrip_by is_int_space s) in
  if (int_max_str_digits <? count_digits literal)%Z then None
  else
    match literal with
    | String "+"%char r => int_digits r 0%Z AtStart
    | String "-"%char r => option_map Z.opp (int_digits r 0%Z AtStart)
    | r => int_digits r 0%Z AtStart
    end.

Definition parse_step (step_input : option string) : result string :=
  let s := strip (or_empty step_input) in
  if is_empty s then step_at 1
  else
    match py_int s with
    | None => Raise (ValueError "Pipeline step must be an integer 1~6.")
    | Some n =>
        match step_lookup n STEP_MAP with
        | None => Raise (ValueError "Pipeline step must be in 1~6.")
        | Some tag => Ok tag
        end
    end.

(** What the session shows.  The step table printed by [print_step_help],
    the top-k warning line and the lines printed for one hit are named
    rather than spelled out; a hit is shown with the content extracted from
    its document. *)
Inductive event : Type :=
| Prompt (text : string)
| Print (text : string)
| StepHelp
| TopKWarning
| ResultsHeader (count : nat) (step : string)
| NoResults
| HitShown (rank : nat) (hit : RagHit) (content : string)
| ResultsEnd.

Definition trace : Type := (list event * result unit)%type.

Definition after (evs : list event) (t : trace) : trace :=
  ((evs ++ fst t)%list, snd t).

(** [extract_content(h.document)]: a document that is true and is not a
    text has no [replace] method. *)
Definition extract_content_of (document : pyval) : result string :=
  match document with
  | VStr s => Ok (extract_content (Some s))
  | _ =>
      if truthy document then Raise AttributeError
      else Ok EmptyString
  end.

(** The body of [for i, h in enumerate(hits, start=1)]: the content is
    extracted, then [h.metadata.get] is called, then the hit is printed. *)
Definition show_hit (entry : nat * RagHit) : result event :=
  let (i, h) := entry in
  content <- extract_content_of (hit_document h) ;;
  _ <- method_get (hit_metadata h) "title" VNone ;;
  Ok (HitShown i h content).

(** A loop that prints: what was shown before the first exception. *)
Fixpoint show_each {A : Type} (body : A -> result event) (xs : list A)
  : trace :=
  match xs with
  | [] => ([], Ok tt)
  | x :: xs' =>
      match body x with
      | Ok ev => after [ev] (show_each body xs')
      | Raise e => ([], Raise e)
      end
  end.

(** Lines 136-158 of [main]: the listing of the hits. *)
Definition show_hits (step : string) (hits : list RagHit) : trace :=
  after [ResultsHeader (List.length hits) step]
    match hits with
    | [] => ([NoResults], Ok tt)
    | _ :: _ =>
        let (shown, outcome) := show_each show_hit (enumerate 1 hits) in
        match outcome with
        | Ok _ => ((shown ++ [ResultsEnd])%list, Ok tt)
        | Raise e => (shown, Raise e)
        end
    end.

Definition default_k : Z := 6%Z.

Definition is_help (s : string) : bool :=
  (s =? "help") || (s =? "h") || (s =? "?").

(** Lines 121-125 of [main]. *)
Definition choose_step (step_raw : string) : list event * result string :=
  match parse_step (Some step_raw) with
  | Ok step => ([], Ok step)
  | Raise (ValueError e) =>
      ([Print ("Step input error: " ++ e ++ "  -> using default step=1"
               ++ newline)],
       step_at 1)
  | Raise e => ([], Raise e)
  end.

(** Lines 128-132 of [main]. *)
Definition choose_k (k_str : string) : list event * Z :=
  if is_empty k_str then ([], default_k)
  else
    match py_int k_str with
    | Some k => ([], k)
    | None => ([TopKWarning], default_k)
    end.

Definition step_prompt : string :=
  String.concat (String squote EmptyString)
    ["Pipeline step (1~6, default=1, type "; "help"; " to show steps): "].

Section Main.

Variable embedding : Type.
Variable encode : list string -> list embedding.
Variable float_literal : string -> bool.
Variable collection_query :
  list embedding -> Z -> option dict -> list string -> result pyval.

(** [rq.query(query=query, step=step, k=k)] *)
Definition rq_query (q step : string) (k : Z) : result (list RagHit) :=
  query encode float_literal collection_query (Some q) (Some step) k None
    ["documents"; "metadatas"; "distances"].

(** One turn of [while True] from the step input on: [step_raw] has been
    read, [k_line] answers the top-k prompt, [next] is the rest of the
    session. *)
Definition turn (q step_raw k_line : string) (next : trace) : trace :=
  let (warn_step, chosen) := choose_step step_raw in
  match chosen with
  | Raise e => (warn_step, Raise e)
  | Ok step =>
      let (warn_k, k) := choose_k (strip k_line) in
      let shown := (warn_step
                    ++ [Prompt ("Top-k (default " ++ str_of_Z default_k
                                ++ "): ")]
                    ++ warn_k)%list in
      match rq_query q step k with
      | Raise e => (shown, Raise e)
      | Ok hits =>
          let (listed, outcome) := show_hits step hits in
          match outcome with
          | Raise e => ((shown ++ listed)%list, Raise e)
          | Ok _ => after (shown ++ listed)%list next
          end
      end
  end.

Definition eof (shown : list event) : trace := (shown, Raise EOFError).

(** The [while True] loop of [main] over the lines typed at the prompts. *)
Fixpoint main_loop (inputs : list string) : trace :=
  match inputs with
  | [] => eof [Prompt "Query text: "]
  | line :: inputs1 =>
      let q := strip line in
      if is_empty q then ([Prompt "Query text: "; Print "Bye."], Ok tt)
      else
        after [Prompt "Query text: "; Prompt step_prompt]
          match inputs1 with
          | [] => eof []
          | line2 :: inputs2 =>
              if is_help (lower (strip line2)) then
                after [StepHelp; Prompt "Pipeline step (1~6, default=1): "]
                  match inputs2 with
                  | [] => eof []
                  | line3 :: inputs3 =>
                      match inputs3 with
                      | [] =>
                          let (warn_step, chosen) :=
                            choose_step (strip line3) in
                          match chosen with
                          | Raise e => (warn_step, Raise e)
                          | Ok _ =>
                              eof (warn_step
                                   ++ [Prompt ("Top-k (default "
                                        ++ str_of_Z default_k ++ "): ")])
                          end
                      | k_line :: rest =>
                          turn q (strip line3) k_line (main_loop rest)
                      end
                  end
              else
                match inputs2 with
                | [] =>
                    let (warn_step, chosen) := choose_step (strip line2) in
                    match chosen with
                    | Raise e => (warn_step, Raise e)
                    | Ok _ =>
                        eof (warn_step
                             ++ [Prompt ("Top-k (default "
                                  ++ str_of_Z default_k ++ "): ")])
                    end
                | k_line :: rest =>
                    turn q (strip line2) k_line (main_loop rest)
                end
          end
  end.

End Main.

Arguments rq_query {embedding}.
Arguments turn {embedding}.
Arguments main_loop {embedding}.

(* ================================================================== *)
(** ** Vocabulary of the specification                                *)
(* ================================================================== *)

(** *** Trimming *)

Fixpoint all_space (s : string) : bool :=
  match s with
  | EmptyString => true
  | String a s' => is_space a && all_space s'
  end.

Definition starts_with_space (s : string) : bool :=
  match s with
  | String a _ => is_space a
  | EmptyString => false
  end.

Fixpoint ends_with_space (s : string) : bool :=
  match s with
  | EmptyString => false
  | String a EmptyString => is_space a
  | String _ s' => ends_with_space s'
  end.

(** [t] is [s] without its leading and trailing whitespace. *)
Definition trimmed (s t : string) : Prop :=
  exists l r,
    s = l ++ t ++ r /\ all_space l = true /\ all_space r = true
    /\ starts_with_space t = false /\ ends_with_space t = false.

(** *** The AdviceCard of the data model and its document *)

Record AdviceCard : Type := mk_card {
  card_title : option string;
  card_content : option string;
  card_items : list string;
  card_symptoms : list string;
  card_root_cause : option string;
  card_fix : list string
}.

(** A text field of a JSON record holds the optional text [t]. *)
Definition text_repr (v : option pyval) (t : option string) : Prop :=
  match v with
  | None | Some VNone => t = None
  | Some (VStr s) => t = Some s
  | Some _ => False
  end.

(** A list field of a JSON record holds the texts [l]. *)
Definition list_repr (v : option pyval) (l : list string) : Prop :=
  match v with
  | None | Some VNone => l = []
  | Some (VList xs) => xs = map VStr l
  | Some _ => False
  end.

(** The JSON record [card] is the AdviceCard [c]. *)
Definition represents (card : dict) (c : AdviceCard) : Prop :=
  text_repr (dict_get "title" card) (card_title c)
  /\ text_repr (dict_get "content" card) (card_content c)
  /\ list_repr (dict_get "items" card) (card_items c)
  /\ list_repr (dict_get "symptoms" card) (card_symptoms c)
  /\ text_repr (dict_get "root_cause" card) (card_root_cause c)
  /\ list_repr (dict_get "fix" card) (card_fix c).

(** The line of a text field: nothing when absent or empty. *)
Definition text_lines (label : string) (t : option string) : list string :=
  match t with
  | None => []
  | Some EmptyString => []
  | Some s => [label ++ ": " ++ s]
  end.

(** The lines of a list field: a header and one bullet per element, nothing
    when the list is empty. *)
Definition bullet_lines (header : string) (l : list string) : list string :=
  match l with
  | [] => []
  | _ :: _ => header :: map (fun x => "- " ++ x) l
  end.

(** The lines of the Document of the data model, in its field order. *)
Definition document_lines (c : AdviceCard) : list string :=
  (text_lines "Title" (card_title c)
   ++ text_lines "Content" (card_content c)
   ++ bullet_lines "Checklist Items:" (card_items c)
   ++ bullet_lines "Symptoms:" (card_symptoms c)
   ++ text_lines "Root cause" (card_root_cause c)
   ++ bullet_lines "Fix:" (card_fix c))%list.

(** The line separator, character 10. *)
Definition line_feed : string := String (ascii_of_nat 10) EmptyString.

(** Whitespace by code point: tab to carriage return, the four separators
    28-31, the space, next-line and the no-break space. *)
Definition whitespace_codes : list nat :=
  [9; 10; 11; 12; 13; 28; 29; 30; 31; 32; 133; 160].

Definition is_blank (a : ascii) : bool :=
  existsb (Nat.eqb (nat_of_ascii a)) whitespace_codes.

Fixpoint blank_text (s : string) : bool :=
  match s with
  | EmptyString => true
  | String a s' => is_blank a && blank_text s'
  end.

Definition blank_at_start (s : string) : bool :=
  match s with
  | String a _ => is_blank a
  | EmptyString => false
  end.

Fixpoint blank_at_end (s : string) : bool :=
  match s with
  | EmptyString => false
  | String a EmptyString => is_blank a
  | String _ s' => blank_at_end s'
  end.

(** [t] is what remains of [s] once the whitespace around it is removed. *)
Definition stripped_of (s t : string) : Prop :=
  exists l r,
    s = String.append l (String.append t r)
    /\ blank_text l = true /\ blank_text r = true
    /\ blank_at_start t = false /\ blank_at_end t = false.

(** *** Shapes of loosely typed fields *)

Definition is_mapping (v : pyval) : bool :=
  match v with VDict _ => true | _ => false end.


Definition is_string (v : pyval) : bool :=
  match v with VStr _ => true | _ => false end.

Definition metadata_keys : list string :=
  ["type"; "category"; "pipeline_step"; "source_name"; "source_url"; "tags"].

(** The value of field [k], the empty string when the field is missing. *)
Definition field_or_empty (d : dict) (k : string) : pyval :=
  match dict_get k d with
  | Some v => v
  | None => VStr EmptyString
  end.

(** *** Section markers of a stored document *)

Definition section_markers : list string :=
  ["Checklist Items:"; "Symptoms:"; "Root cause:"; "Fix:"].

Definition starts_marker (s : string) : bool :=
  existsb (fun m => prefix m s) section_markers.

(** No line of [s] after the first begins with a section marker. *)
Fixpoint no_marker_line (s : string) : bool :=
  match s with
  | EmptyString => true
  | String a s' =>
      negb (Ascii.eqb a nl && starts_marker s') && no_marker_line s'
  end.

(** A section follows the content line in the document of [card]. *)
Definition has_later_section (card : dict) : bool :=
  truthy (get card "items") || truthy (get card "symptoms")
  || truthy (get card "root_cause") || truthy (get card "fix").

(** *** Line ends and words of a stored document *)

(** [Content:] begins a word of [s]: it stands at the start of [s], when a
    word may begin there, or behind a character that is no word character. *)
Fixpoint content_word_in (at_start : bool) (s : string) : bool :=
  (at_start && prefix "Content:" s)
  || match s with
     | EmptyString => false
     | String a s' => content_word_in (negb (is_word a)) s'
     end.

(** [s] with each carriage return, and the newline behind it if there is
    one, turned into one newline; [after_cr] tells that a carriage return
    came just before [s]. *)
Fixpoint unix_newlines (after_cr : bool) (s : string) : string :=
  match s with
  | EmptyString => EmptyString
  | String a s' =>
      if after_cr && Ascii.eqb a nl then unix_newlines false s'
      else if Ascii.eqb a cr then String nl (unix_newlines true s')
      else String a (unix_newlines false s')
  end.

(** [s] without the carriage return at its end, if it has one. *)
Fixpoint chop_cr (s : string) : string :=
  match s with
  | EmptyString => EmptyString
  | String a EmptyString =>
      if Ascii.eqb a cr then EmptyString else s
  | String a s' => String a (chop_cr s')
  end.


(** *** Equality filters *)

(** A stored metadata record satisfies an equality filter. *)
Definition satisfies (meta filter : dict) : Prop :=
  forall k v, dict_get k filter = Some v -> dict_get k meta = Some v.

(** *** Result shaping *)

(** The hit of an id for which the store returned nothing else. *)
Definition default_hit (id : pyval) : RagHit :=
  mk_hit id NaN VNone (VDict []).

(** A stored distance: nothing, or a number [float] converts. *)
Definition is_distance (v : pyval) : bool :=
  match v with
  | VNone | VBool _ | VFloat _ => true
  | VInt z => negb (float_overflows z)
  | _ => false
  end.

Definition distance_of (v : pyval) : pyfloat :=
  match v with
  | VNone => NaN
  | _ => FloatOf v
  end.

(** The hits of four parallel columns. *)
Fixpoint hits_of (ids dists docs metas : list pyval) : list RagHit :=
  match ids, dists, docs, metas with
  | id :: ids', d :: dists', doc :: docs', m :: metas' =>
      mk_hit id (distance_of d) doc m :: hits_of ids' dists' docs' metas'
  | _, _, _, _ => []
  end.

(** *** Ingestion *)

(** Records held by the loop, in the collection or in the pending batch. *)
Definition held {embedding : Type} (st : loop_state embedding) : nat :=
  List.length (stored_ids (collection st)) + List.length (ids st).

(** A stand-in for [json.loads] on sample lines: a line in braces is a
    record whose id is the line, any other line is rejected. *)
Definition toy_loads (line : string) : option pyval :=
  if prefix "{" line then Some (VDict [("id", VStr line)]) else None.

(** *** Records read by the ingestion loop *)

(** What one line contributes: [card["id"]], [build_document(card)] and
    [build_metadata(card)], in the order the loop computes them. *)
Definition record_of (json_loads : string -> option pyval) (line : string)
  : result (pyval * string * dict) :=
  match json_loads line with
  | None => Raise JSONDecodeError
  | Some card =>
      id <- subscript_key card "id" ;;
      match card with
      | VDict c =>
          doc <- build_document c ;;
          meta <- build_metadata c ;;
          Ok (id, doc, meta)
      | _ => Raise AttributeError
      end
  end.

Definition stored_metadatas {embedding : Type}
  (c : list (add_call embedding)) : list dict :=
  flat_map add_metadatas c.

(** An [add] call with parallel arrays of [n] records and the embeddings of
    its documents. *)
Definition well_formed_add {embedding : Type}
  (e5_embed : list string -> list embedding) (n : nat)
  (a : add_call embedding) : Prop :=
  List.length (add_ids a) = n
  /\ List.length (add_documents a) = n
  /\ List.length (add_metadatas a) = n
  /\ add_embeddings a = e5_embed (add_documents a).

(** The loop has read the records [recs]: they are in the collection or in
    the pending batch, in order; the pending batch is not full; every call
    made so far carried a full batch. *)
Definition loop_invariant {embedding : Type}
  (e5_embed : list string -> list embedding)
  (recs : list (pyval * string * dict)) (st : loop_state embedding) : Prop :=
  (stored_ids (collection st) ++ ids st = map (fun r => fst (fst r)) recs
   /\ stored_documents (collection st) ++ docs st
      = map (fun r => snd (fst r)) recs
   /\ stored_metadatas (collection st) ++ metas st = map snd recs)%list
  /\ List.length (ids st) < batch
  /\ List.length (docs st) = List.length (ids st)
  /\ List.length (metas st) = List.length (ids st)
  /\ Forall (well_formed_add e5_embed batch) (collection st).

(** *** Stage tags *)

(** The six tags of [STEP_MAP]. *)
Definition stage_tags : list string := map snd STEP_MAP.

(** *** A turn of the session at the default stage *)

Section DefaultStage.

Variable embedding : Type.
Variable encode : list string -> list embedding.
Variable float_literal : string -> bool.
Variable collection_query :
  list embedding -> Z -> option dict -> list string -> result pyval.

(** What the session shows for the query text [q] and the count [k] at the
    stage [Step1_Premise]: the text is embedded behind its role prefix, the
    store is asked for [k] entries of that stage, and the hits are listed. *)
Definition default_stage_listing (q : string) (k : Z) : trace :=
  match encode [String.append "query: " q] with
  | [] => ([], Raise IndexError)
  | v :: _ =>
      match collection_query [v] k
              (Some [("pipeline_step", VStr "Step1_Premise")])
              ["documents"; "metadatas"; "distances"] with
      | Raise e => ([], Raise e)
      | Ok res =>
          match shape_hits float_literal res with
          | Raise e => ([], Raise e)
          | Ok hits => show_hits "Step1_Premise" hits
          end
      end
  end.

End DefaultStage.

Arguments default_stage_listing {embedding}.

(** A part of the session followed by the rest of it, unless it raised. *)
Definition and_then (t next : trace) : trace :=
  match snd t with
  | Ok _ => after (fst t) next
  | Raise _ => t
  end.

(** *** Fields the loosely typed code accepts *)

(** Values a [for] loop accepts. *)
Definition can_iterate (v : pyval) : bool :=
  match v with
  | VList _ | VStr _ | VDict _ => true
  | _ => false
  end.

(** A field that [x = card.get(key) or []] followed by a loop over [x]
    accepts: false, or iterable. *)
Definition listable (v : pyval) : bool := negb (truthy v) || can_iterate v.

(** A field that [src = card.get(key) or {}] followed by [src.get] accepts:
    false, or a mapping. *)
Definition mappable (v : pyval) : bool := negb (truthy v) || is_mapping v.


(* ================================================================== *)
(** ** rag_chroma_query.py: querying several steps, quick printing    *)
(* ================================================================== *)

(** A [Dict[str, A]] in insertion order. *)
Fixpoint assoc_get {A : Type} (k : string) (d : list (string * A))
  : option A :=
  match d with
  | [] => None
  | (k', v) :: d' => if k' =? k then Some v else assoc_get k d'
  end.

(** [d[k] = v] *)
Fixpoint assoc_set {A : Type} (k : string) (v : A) (d : list (string * A))
  : list (string * A) :=
  match d with
  | [] => [(k, v)]
  | (k', v') :: d' =>
      if k' =? k then (k, v) :: d' else (k', v') :: assoc_set k v d'
  end.

Section ManySteps.

Variable embedding : Type.
Variable encode : list string -> list embedding.
Variable float_literal : string -> bool.
Variable collection_query :
  list embedding -> Z -> option dict -> list string -> result pyval.

(** The loop of [RagChromaQuery.query_many_steps] from a given [out]. *)
Fixpoint many_steps_from (q : option string) (steps : list string)
  (k_per_step : Z) (include : list string)
  (out : list (string * list RagHit))
  : result (list (string * list RagHit)) :=
  match steps with
  | [] => Ok out
  | step :: rest =>
      hits <- query encode float_literal collection_query q (Some step)
                k_per_step None include ;;
      many_steps_from q rest k_per_step include (assoc_set step hits out)
  end.

(** [RagChromaQuery.query_many_steps] *)
Definition query_many_steps (q : option string) (steps : list string)
  (k_per_step : Z) (include : list string)
  : result (list (string * list RagHit)) :=
  many_steps_from q steps k_per_step include [].

End ManySteps.

Arguments many_steps_from {embedding}.
Arguments query_many_steps {embedding}.

(** A hit the listing of [main] can show: its document is a text or false,
    its metadata a mapping. *)
Definition showable (h : RagHit) : bool :=
  (is_string (hit_document h) || negb (truthy (hit_document h)))
  && is_mapping (hit_metadata h).

(** The content shown for a hit. *)
Definition content_of (h : RagHit) : string :=
  match hit_document h with
  | VStr s => extract_content (Some s)
  | _ => EmptyString
  end.

(** [s[:n]] *)
Definition slice_to (n : Z) (s : string) : string :=
  if (0 <=? n)%Z then substring 0 (Z.to_nat n) s
  else substring 0 (Z.to_nat (Z.of_nat (String.length s) + n)) s.

Section PrettyPrint.

(** The text appended to a cut snippet.  The source spells it with three
    characters, one of them outside the 8-bit range. *)
Variable ellipsis : string.

(** Lines 173-175 of [pretty_print]. *)
Definition snippet_of (document : pyval) (max_chars : Z) : result string :=
  match py_or document (VStr EmptyString) with
  | VStr s =>
      let snippet := replace newline " " None s in
      if (max_chars <? Z.of_nat (String.length snippet))%Z
      then Ok (slice_to (max_chars - 1) snippet ++ ellipsis)
      else Ok snippet
  | _ => Raise AttributeError
  end.

(** What [pretty_print] prints for one hit: the rank, the hit, the title,
    category, step and source read from its metadata, and the snippet. *)
Record summary : Type := mk_summary {
  sum_rank : nat;
  sum_hit : RagHit;
  sum_title : pyval;
  sum_category : pyval;
  sum_step : pyval;
  sum_source : pyval;
  sum_snippet : string
}.

(** The body of [for rank, h in enumerate(hits, start=1)]. *)
Definition summarise (max_chars : Z) (entry : nat * RagHit)
  : result summary :=
  let (rank, h) := entry in
  title <- method_get (hit_metadata h) "title" VNone ;;
  cat <- method_get (hit_metadata h) "category" VNone ;;
  step <- method_get (hit_metadata h) "pipeline_step" VNone ;;
  src <- method_get (hit_metadata h) "source_name" VNone ;;
  snippet <- snippet_of (hit_document h) max_chars ;;
  Ok (mk_summary rank h (py_or title (VStr EmptyString))
        (py_or cat (VStr EmptyString)) (py_or step (VStr EmptyString))
        (py_or src (VStr EmptyString)) snippet).

(** [pretty_print]: what was printed before the first exception, and how it
    ended. *)
Fixpoint print_each (max_chars : Z) (entries : list (nat * RagHit))
  : list summary * result unit :=
  match entries with
  | [] => ([], Ok tt)
  | entry :: rest =>
      match summarise max_chars entry with
      | Ok s =>
          let (printed, outcome) := print_each max_chars rest in
          (s :: printed, outcome)
      | Raise e => ([], Raise e)
      end
  end.

Definition pretty_print (hits : list RagHit) (max_chars : Z)
  : list summary * result unit :=
  print_each max_chars (enumerate 1 hits).

End PrettyPrint.

Arguments snippet_of ellipsis document max_chars : assert.

(* ================================================================== *)
(** * Properties                                                      *)
(* ================================================================== *)

(** ** Strings *)

Lemma append_nil_r (s : string) : s ++ EmptyString = s.
Proof. induction s; simpl; congruence. Qed.

Lemma append_assoc (a b c : string) : (a ++ b) ++ c = a ++ b ++ c.
Proof. induction a; simpl; congruence. Qed.

Lemma is_empty_true (s : string) : is_empty s = true -> s = EmptyString.
Proof. destruct s; simpl; congruence. Qed.

Lemma lstrip_split (s : string) :
  exists l, s = l ++ lstrip s /\ all_space l = true
            /\ starts_with_space (lstrip s) = false.
Proof.
  unfold lstrip.
  induction s as [|a s IH]; simpl.
  - exists EmptyString. auto.
  - destruct (is_space a) eqn:Ha.
    + destruct IH as (l & Hs & Hl & Hst).
      exists (String a l). simpl. rewrite Ha, Hl. repeat split; auto.
      congruence.
    + exists EmptyString. simpl. auto.
Qed.

Lemma rstrip_split (s : string) :
  exists r, s = rstrip s ++ r /\ all_space r = true
            /\ ends_with_space (rstrip s) = false.
Proof.
  unfold rstrip.
  induction s as [|a s IH]; simpl.
  - exists EmptyString. auto.
  - destruct IH as (r & Hs & Hr & He).
    destruct (is_space a && is_empty (rstrip_by is_space s)) eqn:Hc.
    + apply andb_prop in Hc. destruct Hc as [Ha Hn].
      apply is_empty_true in Hn. rewrite Hn in Hs. simpl in Hs. subst r.
      exists (String a s). simpl. rewrite Ha, Hr. auto.
    + exists r. simpl. repeat split; auto.
      * congruence.
      * destruct (rstrip_by is_space s) eqn:Hrs; auto.
        simpl in Hc. rewrite andb_true_r in Hc. exact Hc.
Qed.

Lemma rstrip_keeps_start (s : string) :
  starts_with_space s = false -> starts_with_space (rstrip s) = false.
Proof.
  unfold rstrip. destruct s as [|a s]; simpl; auto.
  intros Ha. rewrite Ha. simpl. exact Ha.
Qed.

(** [strip] removes whitespace from both ends, and nothing else. *)
Lemma strip_trimmed (s : string) : trimmed s (strip s).
Proof.
  unfold trimmed, strip.
  destruct (lstrip_split s) as (l & Hs & Hl & Hst).
  destruct (rstrip_split (lstrip s)) as (r & Hu & Hr & He).
  exists l, r. repeat split; auto.
  - rewrite <- Hu. exact Hs.
  - apply rstrip_keeps_start. exact Hst.
Qed.

(** ** The metadata filter of a query *)

Lemma query_where_absent (step : option string) (where_extra : option dict) :
  step_given step = false -> extra_given where_extra = false ->
  query_where step where_extra = None.
Proof. intros Hs He. unfold query_where. rewrite Hs, He. reflexivity. Qed.

Lemma query_where_step_only (s : string) (where_extra : option dict) :
  s <> EmptyString -> extra_given where_extra = false ->
  query_where (Some s) where_extra = Some [("pipeline_step", VStr s)].
Proof.
  intros Hs He. unfold query_where. rewrite He.
  destruct s; [congruence | reflexivity].
Qed.

Lemma dict_get_set (k k' : string) (v : pyval) (d : dict) :
  dict_get k' (dict_set k v d)
  = if k =? k' then Some v else dict_get k' d.
Proof.
  induction d as [|[k0 v0] d IH]; simpl.
  - reflexivity.
  - destruct (k0 =? k) eqn:E0; simpl.
    + apply String.eqb_eq in E0. subst k0.
      destruct (k =? k'); reflexivity.
    + rewrite IH. destruct (k0 =? k') eqn:E1; auto.
      destruct (k =? k') eqn:E2; auto.
      apply String.eqb_eq in E1, E2. subst. rewrite String.eqb_refl in E0.
      discriminate.
Qed.

(** Looking a key up after [{**base, **extra}], for an [extra] without
    repeated keys. *)
Lemma dict_get_update (extra base : dict) (k : string) :
  NoDup (keys extra) ->
  dict_get k (dict_update base extra)
  = match dict_get k extra with
    | Some v => Some v
    | None => dict_get k base
    end.
Proof.
  unfold dict_update. revert base.
  induction extra as [|[k0 v0] extra IH]; intros base Hnd; simpl.
  - reflexivity.
  - inversion Hnd as [|? ? Hnotin Hnd']; subst.
    rewrite IH by exact Hnd'.
    rewrite dict_get_set.
    destruct (k0 =? k) eqn:E.
    + apply String.eqb_eq in E. subst k0.
      destruct (dict_get k extra) eqn:G; auto.
      exfalso. apply Hnotin. clear - G.
      induction extra as [|[k1 v1] extra IH]; simpl in *; [discriminate|].
      destruct (k1 =? k) eqn:E1.
      * apply String.eqb_eq in E1. auto.
      * auto.
    + reflexivity.
Qed.

(** X10.  With a step and extra constraints on other fields, the filter is the
    conjunction of the stage constraint and every extra constraint. *)
Lemma query_where_conjunction (s : string) (extra : dict) (meta : dict) :
  s <> EmptyString -> extra <> [] -> NoDup (keys extra) ->
  dict_get "pipeline_step" extra = None ->
  exists w,
    query_where (Some s) (Some extra) = Some w
    /\ (satisfies meta w <->
        dict_get "pipeline_step" meta = Some (VStr s) /\ satisfies meta extra).
Proof.
  intros Hs He Hnd Hfree.
  unfold query_where.
  assert (Hsg : step_given (Some s) = true) by (destruct s; [congruence|reflexivity]).
  assert (Heg : extra_given (Some extra) = true) by (destruct extra; [congruence|reflexivity]).
  rewrite Hsg, Heg. simpl.
  eexists. split; [reflexivity|].
  unfold satisfies. split.
  - intros H. split.
    + apply H. rewrite dict_get_update by exact Hnd. rewrite Hfree.
      reflexivity.
    + intros k v Hk. apply H. rewrite dict_get_update by exact Hnd.
      rewrite Hk. reflexivity.
  - intros [Hstep Hex] k v Hk.
    rewrite dict_get_update in Hk by exact Hnd.
    destruct (dict_get k extra) eqn:G.
    + inversion Hk; subst. apply Hex. exact G.
    + cbn [dict_get] in Hk.
      destruct ("pipeline_step" =? k) eqn:E; [|discriminate].
      apply String.eqb_eq in E. subst k. inversion Hk; subst. exact Hstep.
Qed.

(** C1.  The filter is meant to be the AND of the stage constraint and the
    extra constraints.  When the extra constraints name [pipeline_step]
    themselves, the flattening lets them overwrite the stage: for step
    [Step1_Premise] and the extra constraint [pipeline_step = Step6_Details]
    the filter sent is the extra constraint alone, so a record of stage
    [Step6_Details] satisfies it and the requested stage is not enforced. *)
Theorem query_where_stage_overwritten :
  let extra := [("pipeline_step", VStr "Step6_Details")] in
  let meta := [("pipeline_step", VStr "Step6_Details")] in
  query_where (Some "Step1_Premise") (Some extra) = Some extra
  /\ satisfies meta extra
  /\ dict_get "pipeline_step" meta <> Some (VStr "Step1_Premise").
Proof.
  cbv zeta. split; [reflexivity|]. split.
  - intros k v H. exact H.
  - simpl. discriminate.
Qed.

(** C10.  A step that is [None] or the empty string puts no stage constraint
    in the filter: for any extra constraints the filter is the one built
    without a step, and with no extra constraints the store is queried with
    no filter at all. *)
Theorem query_where_empty_step :
  (forall where_extra,
      query_where (Some EmptyString) where_extra
      = query_where None where_extra)
  /\ query_where None None = None
  /\ query_where (Some EmptyString) None = None
  /\ query_where None (Some []) = None
  /\ query_where (Some EmptyString) (Some []) = None
  /\ (forall (embedding : Type) encode float_literal collection_query
             q k include,
         let unfiltered :=
           (q_emb <- embed_query encode q ;;
            res <- collection_query [q_emb] k None include ;;
            shape_hits float_literal res) in
         let run := @query embedding encode float_literal collection_query in
         run q None k None include = unfiltered
         /\ run q (Some EmptyString) k None include = unfiltered
         /\ run q None k (Some []) include = unfiltered
         /\ run q (Some EmptyString) k (Some []) include = unfiltered).
Proof.
  repeat split; reflexivity.
Qed.

(** C7.  The text handed to the embedding model is ["query: "] followed by
    the input without its leading and trailing whitespace; for a missing
    input it is the bare ["query: "]. *)
Theorem embed_query_text :
  forall (embedding : Type) (encode : list string -> list embedding)
         (query : option string),
  exists t,
    match query with
    | Some s => trimmed s t
    | None => t = EmptyString
    end
    /\ embed_query encode query
       = match encode [String.append "query: " t] with
         | v :: _ => Ok v
         | [] => Raise IndexError
         end.
Proof.
  intros embedding encode [s|].
  - exists (strip s). split; [apply strip_trimmed|reflexivity].
  - exists EmptyString. split; reflexivity.
Qed.

Lemma embed_query_sample :
  embed_query (fun texts : list string => texts) (Some "  premise ")
  = Ok "query: premise"
  /\ embed_query (fun texts : list string => texts) None = Ok "query: ".
Proof. split; reflexivity. Qed.

(** ** The step selector and the prompt loop *)

Lemma step_lookup_out_of_range (n : Z) :
  (n < 1 \/ 6 < n)%Z -> step_lookup n STEP_MAP = None.
Proof.
  intros Hn. unfold STEP_MAP. cbn [step_lookup].
  repeat match goal with
         | |- context [(?i =? n)%Z] =>
             destruct (Z.eqb_spec i n); [lia|]
         end.
  reflexivity.
Qed.

Lemma step_lookup_in_range (n : Z) :
  (1 <= n <= 6)%Z -> exists tag, step_lookup n STEP_MAP = Some tag.
Proof.
  intros Hn.
  assert (H : (n = 1 \/ n = 2 \/ n = 3 \/ n = 4 \/ n = 5 \/ n = 6)%Z)
    by lia.
  repeat (destruct H as [H|H]; [subst n; eexists; reflexivity|]).
  subst n. eexists. reflexivity.
Qed.

Lemma parse_step_blank (s : string) :
  strip s = EmptyString -> parse_step (Some s) = Ok "Step1_Premise".
Proof.
  intros Hs. unfold parse_step. cbn [or_empty]. rewrite Hs. reflexivity.
Qed.

Lemma not_empty_false (s : string) :
  s <> EmptyString -> is_empty s = false.
Proof. destruct s; [congruence | reflexivity]. Qed.

Lemma parse_step_not_integer (s : string) :
  strip s <> EmptyString -> py_int (strip s) = None ->
  parse_step (Some s)
  = Raise (ValueError "Pipeline step must be an integer 1~6.").
Proof.
  intros Hs Hi. unfold parse_step. cbn [or_empty].
  rewrite (not_empty_false _ Hs), Hi. reflexivity.
Qed.

Lemma parse_step_out_of_range (s : string) (n : Z) :
  py_int (strip s) = Some n -> (n < 1 \/ 6 < n)%Z ->
  parse_step (Some s) = Raise (ValueError "Pipeline step must be in 1~6.").
Proof.
  intros Hi Hn. unfold parse_step. cbn [or_empty].
  destruct (strip s) eqn:Hs; [discriminate Hi|].
  cbn [is_empty]. rewrite Hi, (step_lookup_out_of_range n Hn). reflexivity.
Qed.

Lemma parse_step_in_range (s : string) (n : Z) :
  py_int (strip s) = Some n -> (1 <= n <= 6)%Z ->
  parse_step (Some s) = step_at n /\ is_ok (step_at n) = true.
Proof.
  intros Hi Hn. unfold parse_step, step_at. cbn [or_empty].
  destruct (strip s) eqn:Hs; [discriminate Hi|].
  cbn [is_empty]. rewrite Hi.
  destruct (step_lookup_in_range n Hn) as [tag Ht]. rewrite Ht.
  split; reflexivity.
Qed.

(** A help word is no integer. *)
Lemma lower_char_h (a : ascii) :
  lower_char a = "h"%char -> a = "h"%char \/ a = "H"%char.
Proof.
  destruct a as [[] [] [] [] [] [] [] []]; cbv; intros H;
    try discriminate H; auto.
Qed.
Lemma lower_char_e (a : ascii) :
  lower_char a = "e"%char -> a = "e"%char \/ a = "E"%char.
Proof.
  destruct a as [[] [] [] [] [] [] [] []]; cbv; intros H;
    try discriminate H; auto.
Qed.
Lemma lower_char_l (a : ascii) :
  lower_char a = "l"%char -> a = "l"%char \/ a = "L"%char.
Proof.
  destruct a as [[] [] [] [] [] [] [] []]; cbv; intros H;
    try discriminate H; auto.
Qed.
Lemma lower_char_p (a : ascii) :
  lower_char a = "p"%char -> a = "p"%char \/ a = "P"%char.
Proof.
  destruct a as [[] [] [] [] [] [] [] []]; cbv; intros H;
    try discriminate H; auto.
Qed.
Lemma lower_char_question (a : ascii) :
  lower_char a = "?"%char -> a = "?"%char.
Proof.
  destruct a as [[] [] [] [] [] [] [] []]; cbv; intros H;
    try discriminate H; auto.
Qed.

Lemma lower_nil (s : string) : lower s = EmptyString -> s = EmptyString.
Proof. destruct s; [reflexivity|discriminate]. Qed.

Lemma is_help_not_integer (s : string) :
  is_help (lower s) = true -> s <> EmptyString /\ py_int s = None.
Proof.
  unfold is_help. intros H.
  apply orb_true_iff in H. destruct H as [H|H];
    [apply orb_true_iff in H; destruct H as [H|H]|];
    apply String.eqb_eq in H.
  - destruct s as [|a [|b [|c [|d s]]]]; try discriminate H.
    cbn [lower] in H. injection H as Ha Hb Hc Hd Hs.
    apply lower_nil in Hs. subst s.
    destruct (lower_char_h _ Ha), (lower_char_e _ Hb), (lower_char_l _ Hc),
      (lower_char_p _ Hd); subst; split; (discriminate || reflexivity).
  - destruct s as [|a s]; try discriminate H.
    cbn [lower] in H. injection H as Ha Hs.
    apply lower_nil in Hs. subst s.
    destruct (lower_char_h _ Ha); subst; split;
      (discriminate || reflexivity).
  - destruct s as [|a s]; try discriminate H.
    cbn [lower] in H. injection H as Ha Hs.
    apply lower_nil in Hs. subst s.
    rewrite (lower_char_question _ Ha). split;
      (discriminate || reflexivity).
Qed.

Section TurnLemmas.

Variable embedding : Type.
Variable encode : list string -> list embedding.
Variable float_literal : string -> bool.
Variable collection_query :
  list embedding -> Z -> option dict -> list string -> result pyval.

Local Abbreviation session :=
  (main_loop encode float_literal collection_query).
Local Abbreviation one_turn :=
  (turn encode float_literal collection_query).
Local Abbreviation listing :=
  (default_stage_listing encode float_literal collection_query).

(** A turn whose step is settled to [Step1_Premise]: the warnings, the
    top-k prompt, the listing, then the rest of the session. *)
Lemma turn_default_stage
  (q step_raw k_line : string) (w wk : list event) (k : Z) (next : trace) :
  choose_step step_raw = (w, Ok "Step1_Premise") ->
  choose_k (strip k_line) = (wk, k) ->
  one_turn q step_raw k_line next
  = after (w ++ [Prompt "Top-k (default 6): "] ++ wk)%list
      (and_then (listing (strip q) k) next).
Proof.
  intros Hs Hk. unfold turn. rewrite Hs, Hk.
  change ("Top-k (default " ++ str_of_Z default_k ++ "): ")
    with "Top-k (default 6): ".
  set (shown := (w ++ [Prompt "Top-k (default 6): "] ++ wk)%list).
  unfold rq_query, query, embed_query, e5_query_prefix, default_stage_listing.
  cbn [or_empty].
  change (query_where (Some "Step1_Premise") None)
    with (Some [("pipeline_step", VStr "Step1_Premise")]).
  destruct (encode ["query: " ++ strip q]) as [|v vs].
  { unfold and_then, after. cbn. rewrite app_nil_r. reflexivity. }
  cbn [bind].
  destruct (collection_query [v] k _ _) as [res|e].
  2:{ unfold and_then, after. cbn. rewrite app_nil_r. reflexivity. }
  cbn [bind].
  destruct (shape_hits float_literal res) as [hits|e].
  2:{ unfold and_then, after. cbn. rewrite app_nil_r. reflexivity. }
  destruct (show_hits "Step1_Premise" hits) as [listed [[]|e]];
    unfold and_then, after; cbn [fst snd].
  - rewrite app_assoc. reflexivity.
  - reflexivity.
Qed.

Lemma choose_step_rejected (s msg : string) :
  parse_step (Some s) = Raise (ValueError msg) ->
  choose_step s
  = ([Print ("Step input error: " ++ msg ++ "  -> using default step=1"
             ++ newline)], Ok "Step1_Premise").
Proof. intros H. unfold choose_step. rewrite H. reflexivity. Qed.

End TurnLemmas.

Lemma main_loop_turn
  (embedding : Type) (encode : list string -> list embedding)
  (float_literal : string -> bool)
  (collection_query :
     list embedding -> Z -> option dict -> list string -> result pyval)
  (q_line step_line k_line : string) (rest : list string) :
  strip q_line <> EmptyString ->
  is_help (lower (strip step_line)) = false ->
  main_loop encode float_literal collection_query
    (q_line :: step_line :: k_line :: rest)
  = after [Prompt "Query text: "; Prompt step_prompt]
      (turn encode float_literal collection_query (strip q_line)
         (strip step_line) k_line
         (main_loop encode float_literal collection_query rest)).
Proof.
  intros Hq Hh. cbn [main_loop].
  rewrite (not_empty_false _ Hq), Hh. reflexivity.
Qed.

(** ** The result shaper *)

Section Shaper.

Variable float_literal : string -> bool.

Lemma make_hit_defaults (n : nat) (l : list pyval) (i : nat) :
  i + List.length l <= n ->
  for_each
    (make_hit float_literal (VList (repeat VNone n))
       (VList (repeat VNone n)) (VList (repeat (VDict []) n)))
    (enumerate i l)
  = Ok (map default_hit l).
Proof.
  revert i. induction l as [|x l IH]; intros i Hi.
  - reflexivity.
  - cbn [List.length] in Hi. assert (Hlt : i < n) by lia.
    cbn [enumerate for_each make_hit map subscript_index].
    rewrite (nth_error_repeat VNone Hlt).
    rewrite (nth_error_repeat (VDict []) Hlt).
    assert (Ht1 : truthy (VList (repeat VNone n)) = true)
      by (destruct n; [lia|reflexivity]).
    assert (Ht2 : truthy (VList (repeat (VDict []) n)) = true)
      by (destruct n; [lia|reflexivity]).
    rewrite Ht1, Ht2. cbn [bind]. rewrite IH by lia. reflexivity.
Qed.

(** X12.  A result that carries only its ids gives one hit per id, with the
    not-a-number distance, no document and empty metadata. *)
Lemma shape_hits_defaults (found : list pyval) :
  shape_hits float_literal (VDict [("ids", VList [VList found])])
  = Ok (map default_hit found).
Proof.
  unfold shape_hits, column. simpl.
  apply make_hit_defaults. simpl. lia.
Qed.

Lemma nth_error_middle {A : Type} (pre : list A) (x : A) (post : list A) :
  nth_error (pre ++ x :: post) (List.length pre) = Some x.
Proof. induction pre; simpl; auto. Qed.

Lemma truthy_middle (pre : list pyval) (x : pyval) (post : list pyval) :
  truthy (VList (pre ++ x :: post)) = true.
Proof. destruct pre; reflexivity. Qed.

Lemma make_hit_columns (ids dists docs metas pd pdoc pm : list pyval)
  (i : nat) :
  List.length dists = List.length ids ->
  List.length docs = List.length ids ->
  List.length metas = List.length ids ->
  List.length pd = i -> List.length pdoc = i -> List.length pm = i ->
  forallb is_distance dists = true ->
  for_each
    (make_hit float_literal (VList (pd ++ dists)) (VList (pdoc ++ docs))
       (VList (pm ++ metas)))
    (enumerate i ids)
  = Ok (hits_of ids dists docs metas).
Proof.
  revert dists docs metas pd pdoc pm i.
  induction ids as [|id ids IH]; intros dists docs metas pd pdoc pm i
    Hd Hdoc Hm Hpd Hpdoc Hpm Hnum.
  - reflexivity.
  - destruct dists as [|d dists]; [discriminate|].
    destruct docs as [|doc docs]; [discriminate|].
    destruct metas as [|m metas]; [discriminate|].
    cbn [forallb] in Hnum. apply andb_prop in Hnum.
    destruct Hnum as [Hd1 Hnum].
    cbn [enumerate for_each make_hit subscript_index hits_of].
    subst i. rewrite nth_error_middle.
    rewrite <- Hpdoc, nth_error_middle.
    rewrite Hpdoc, <- Hpm, nth_error_middle. rewrite Hpm.
    rewrite !truthy_middle.
    assert (Hdist : match d with
                    | VNone => Ok NaN
                    | _ => py_float float_literal d
                    end = Ok (distance_of d))
      by (destruct d; try discriminate Hd1; try reflexivity;
          cbn [is_distance] in Hd1; apply negb_true_iff in Hd1;
          cbn [py_float]; rewrite Hd1; reflexivity).
    cbn [bind]. rewrite Hdist. cbn [bind].
    specialize (IH dists docs metas (pd ++ [d])%list (pdoc ++ [doc])%list
                  (pm ++ [m])%list (S (List.length pd))).
    rewrite <- !app_assoc in IH. cbn [app] in IH.
    rewrite IH; [reflexivity|..]; try (simpl in *; lia);
      try (rewrite length_app; simpl; lia).
    exact Hnum.
Qed.

(** X11.  A result whose four columns are present and as long as the ids,
    with every distance null or a number that [float] converts, gives one
    hit per id, in order; a null distance becomes not-a-number. *)
Lemma shape_hits_columns (res : dict) (ids dists docs metas : list pyval)
  (r1 r2 r3 r4 : list pyval) :
  dict_get "ids" res = Some (VList (VList ids :: r1)) ->
  dict_get "distances" res = Some (VList (VList dists :: r2)) ->
  dict_get "documents" res = Some (VList (VList docs :: r3)) ->
  dict_get "metadatas" res = Some (VList (VList metas :: r4)) ->
  List.length dists = List.length ids ->
  List.length docs = List.length ids ->
  List.length metas = List.length ids ->
  forallb is_distance dists = true ->
  shape_hits float_literal (VDict res) = Ok (hits_of ids dists docs metas)
  /\ List.length (hits_of ids dists docs metas) = List.length ids.
Proof.
  intros Hi Hd Hdoc Hm Ld Ldoc Lm Hnum. split.
  - unfold shape_hits, column, get_default.
    rewrite Hi, Hd, Hdoc, Hm. cbn [subscript_index nth_error bind iterate].
    apply (make_hit_columns ids dists docs metas [] [] [] 0); auto.
  - clear - Ld Ldoc Lm. revert dists docs metas Ld Ldoc Lm.
    induction ids as [|id ids IH]; intros [|d dists] [|doc docs] [|m metas]
      Ld Ldoc Lm; try discriminate; cbn [hits_of List.length]; auto.
Qed.

End Shaper.

(** C5.  The shaper is meant to turn any store result into one hit per id.
    It does so when the [distances] key is absent, but a [distances] entry
    that is present and null, as the store reports a column it was not asked
    for, makes [res.get("distances", [[]])[0]] raise; and an empty distance
    row raises where an empty document or metadata row is tolerated. *)
Theorem shape_hits_null_distances :
  forall float_literal : string -> bool,
    shape_hits float_literal
      (VDict [ ("ids", VList [VList [VStr "c1"]]);
               ("distances", VNone);
               ("documents", VList [VList [VStr "passage: Title: T"]]);
               ("metadatas", VList [VList [VDict []]]) ])
    = Raise TypeError
    /\ shape_hits float_literal
         (VDict [ ("ids", VList [VList [VStr "c1"]]);
                  ("distances", VList [VList []]);
                  ("documents", VList [VList []]);
                  ("metadatas", VList [VList []]) ])
       = Raise IndexError
    /\ shape_hits float_literal
         (VDict [ ("ids", VList [VList [VStr "c1"]]);
                  ("distances", VList [VList [VNone]]);
                  ("documents", VList [VList []]);
                  ("metadatas", VList [VList []]) ])
       = Ok [mk_hit (VStr "c1") NaN VNone (VDict [])].
Proof. intros fl. repeat split; reflexivity. Qed.

(** An integer distance beyond the range of [float] makes the shaper
    raise. *)
Lemma shape_hits_distance_overflow (float_literal : string -> bool) :
  shape_hits float_literal
    (VDict [ ("ids", VList [VList [VStr "c1"]]);
             ("distances", VList [VList [VInt (10 ^ 400)]]) ])
  = Raise OverflowError.
Proof. reflexivity. Qed.

(** ** The metadata projection *)





(** ** The ingestion loop *)

Section IngestionProperties.

Variable embedding : Type.
Variable json_loads : string -> option pyval.
Variable e5_embed : list string -> list embedding.

Local Abbreviation state := (loop_state embedding).
Local Abbreviation run_loop := (loop json_loads e5_embed).

Lemma loop_app (pre rest : list string) (st : state) :
  run_loop (pre ++ rest) st
  = match run_loop pre st with
    | (st', None) => run_loop rest st'
    | (st', Some e) => (st', Some e)
    end.
Proof.
  revert st.
  induction pre as [|line pre IH]; intros st; simpl.
  - reflexivity.
  - destruct (loop_body json_loads e5_embed line st) as [st1|e].
    + apply IH.
    + reflexivity.
Qed.

(** The loop stops on the spot at a line [json.loads] rejects. *)
Lemma loop_bad_line (bad : string) (post : list string) (st : state) :
  json_loads bad = None ->
  run_loop (bad :: post) st = (st, Some JSONDecodeError).
Proof.
  intros Hbad. simpl. unfold loop_body. rewrite Hbad.
  reflexivity.
Qed.

Lemma stored_ids_snoc (c : list (add_call embedding))
  (a : add_call embedding) :
  stored_ids (c ++ [a]) = (stored_ids c ++ add_ids a)%list.
Proof.
  unfold stored_ids. rewrite flat_map_app. simpl.
  rewrite app_nil_r. reflexivity.
Qed.

Lemma loop_body_held (line : string) (st st' : state) :
  loop_body json_loads e5_embed line st = Ok st' ->
  held st' = S (held st).
Proof.
  unfold loop_body.
  destruct (json_loads line) as [card|]; [|discriminate].
  destruct (subscript_key card "id") as [id|]; [|discriminate].
  cbn [bind].
  destruct card; try discriminate.
  destruct (build_document d) as [doc|]; [|discriminate].
  destruct (build_metadata d) as [meta|]; [|discriminate].
  cbn [bind ids].
  destruct (batch <=? List.length (ids st ++ [id]))%nat;
    intros H; inversion H; subst; clear H; unfold held, flush; cbn [ids collection].
  - rewrite stored_ids_snoc. cbn [add_ids ids].
    rewrite !length_app. simpl. lia.
  - rewrite length_app. simpl. lia.
Qed.

Lemma loop_held (lines : list string) (st : state) :
  held (fst (run_loop lines st)) <= held st + List.length lines.
Proof.
  revert st.
  induction lines as [|line lines IH]; intros st; simpl.
  - lia.
  - destruct (loop_body json_loads e5_embed line st) as [st1|e] eqn:Hb.
    + apply loop_body_held in Hb. specialize (IH st1). lia.
    + simpl. lia.
Qed.

(** C8.  When a line is rejected by [json.loads], the run ends in an
    exception there: the collection is the one the loop had built from the
    lines before it, whatever the rejected line and the lines after it
    hold, so it has at most as many records as lines came before; the
    exception is the parse error unless an earlier line had already ended
    the run. *)
Theorem ingest_aborts_at_bad_line :
  forall (pre : list string) (bad : string) (post : list string),
    json_loads bad = None ->
    let before := run_loop pre init_state in
    ingest json_loads e5_embed (pre ++ bad :: post)
    = (collection (fst before),
       Raise (match snd before with
              | Some e => e
              | None => JSONDecodeError
              end))
    /\ List.length (stored_ids (collection (fst before)))
       <= List.length pre.
Proof.
  intros pre bad post Hbad before. split.
  - unfold ingest. rewrite loop_app. fold before.
    destruct before as [st [e|]]; cbn [fst snd].
    + reflexivity.
    + rewrite (loop_bad_line bad post st Hbad). reflexivity.
  - pose proof (loop_held pre init_state) as H. fold before in H.
    unfold held in H. simpl in H. lia.
Qed.

End IngestionProperties.

Lemma ingest_aborts_at_bad_line_witness :
  let e5 := fun texts : list string => map String.length texts in
  let before := loop toy_loads e5 ["{1}"; "{2}"] init_state in
  toy_loads "oops" = None
  /\ ingest toy_loads e5 (["{1}"; "{2}"] ++ "oops" :: ["{3}"])
     = (collection (fst before),
        Raise (match snd before with
               | Some e => e
               | None => JSONDecodeError
               end))
  /\ List.length (stored_ids (collection (fst before)))
     <= List.length ["{1}"; "{2}"].
Proof.
  intros e5 before. split; [reflexivity|].
  apply (ingest_aborts_at_bad_line nat toy_loads e5
           ["{1}"; "{2}"] "oops" ["{3}"]).
  reflexivity.
Defined.

(** ** The document formatter *)

Lemma scalar_part_text (card : dict) (key label : string)
  (t : option string) :
  text_repr (dict_get key card) t ->
  scalar_part card key label = text_lines label t.
Proof.
  unfold text_repr, scalar_part, get.
  destruct (dict_get key card) as [v|]; [|intros ->; reflexivity].
  destruct v; try contradiction; intros ->; try reflexivity.
  destruct s; reflexivity.
Qed.

Lemma list_part_bullets (card : dict) (key header : string)
  (l : list string) :
  list_repr (dict_get key card) l ->
  list_part card key header = Ok (bullet_lines header l).
Proof.
  unfold list_repr, list_part, get.
  destruct (dict_get key card) as [v|]; [|intros ->; reflexivity].
  destruct v; try contradiction; intros H; subst; try reflexivity.
  destruct l as [|x l]; [reflexivity|].
  unfold py_or. cbn [map truthy iterate bind bullet_lines].
  rewrite map_map. reflexivity.
Qed.

Lemma is_blank_space (a : ascii) : is_blank a = is_space a.
Proof.
  destruct a as [[] [] [] [] [] [] [] []]; reflexivity.
Qed.

Lemma blank_text_all_space (s : string) : blank_text s = all_space s.
Proof.
  induction s as [|a s IH]; [reflexivity|].
  cbn [blank_text all_space]. rewrite is_blank_space, IH. reflexivity.
Qed.

Lemma blank_at_end_space (s : string) : blank_at_end s = ends_with_space s.
Proof.
  induction s as [|a s IH]; [reflexivity|].
  cbn [blank_at_end ends_with_space]. rewrite is_blank_space, IH.
  reflexivity.
Qed.

(** What [strip] returns is the text with the whitespace around it
    removed. *)
Lemma strip_stripped_of (s : string) : stripped_of s (strip s).
Proof.
  destruct (strip_trimmed s) as (l & r & Hs & Hl & Hr & Hst & He).
  exists l, r. rewrite !blank_text_all_space, blank_at_end_space.
  repeat split; try assumption.
  destruct (strip s); [reflexivity|].
  cbn [blank_at_start]. rewrite is_blank_space. exact Hst.
Qed.

(** C3.  On a record that is an AdviceCard, the formatter returns the
    prefix ["passage: "] followed by the body of the document: the lines of
    the non-empty fields in the order Title, Content, Checklist Items,
    Symptoms, Root cause, Fix, one bullet line per list element, joined with
    line feeds, without the whitespace around the whole.  It raises nothing,
    and any two records that are the same AdviceCard get the same
    document. *)
Theorem build_document_format :
  forall (card : dict) (c : AdviceCard),
    represents card c ->
    exists body,
      build_document card = Ok (String.append "passage: " body)
      /\ stripped_of (String.concat line_feed (document_lines c)) body
      /\ forall card' : dict,
           represents card' c -> build_document card' = build_document card.
Proof.
  assert (H : forall card c, represents card c ->
                build_document card
                = Ok (String.append "passage: "
                        (strip (String.concat line_feed
                                  (document_lines c))))).
  { intros card c (Ht & Hc & Hi & Hs & Hr & Hf).
    unfold build_document, document_lines.
    rewrite (scalar_part_text card "title" "Title" _ Ht).
    rewrite (scalar_part_text card "content" "Content" _ Hc).
    rewrite (list_part_bullets card "items" "Checklist Items:" _ Hi).
    rewrite (list_part_bullets card "symptoms" "Symptoms:" _ Hs).
    rewrite (scalar_part_text card "root_cause" "Root cause" _ Hr).
    rewrite (list_part_bullets card "fix" "Fix:" _ Hf).
    cbn [bind]. rewrite <- !app_assoc. reflexivity. }
  intros card c Hc. eexists. split; [apply H; exact Hc|].
  split; [apply strip_stripped_of|].
  intros card' Hc'. rewrite (H card c Hc), (H card' c Hc'). reflexivity.
Qed.

Lemma build_document_format_witness :
  let card :=
    [ ("id", VStr "c1"); ("title", VStr "T"); ("content", VStr "Hello");
      ("symptoms", VNone); ("fix", VList [VStr "do X"; VStr "do Y "]) ] in
  let c := mk_card (Some "T") (Some "Hello") [] [] None ["do X"; "do Y "] in
  represents card c
  /\ build_document card
     = Ok (String.concat line_feed
             [ "passage: Title: T"; "Content: Hello"; "Fix:"; "- do X";
               "- do Y" ])
  /\ exists body,
       build_document card = Ok (String.append "passage: " body)
       /\ stripped_of (String.concat line_feed (document_lines c)) body
       /\ forall card' : dict,
            represents card' c -> build_document card' = build_document card.
Proof.
  intros card c.
  assert (Hc : represents card c) by (repeat split; reflexivity).
  split; [exact Hc|]. split; [reflexivity|].
  apply (build_document_format card c Hc).
Defined.

(** ** The regular expression [CONTENT_RE] *)

Lemma prefix_through_sep (m t : string) (sep : ascii) (b : string) :
  contains_char sep m = false ->
  prefix m (t ++ String sep b) = true -> prefix m t = true.
Proof.
  revert t. induction m as [|a m IH]; intros t Hsep Hp; simpl in *.
  - destruct t; reflexivity.
  - apply orb_false_iff in Hsep. destruct Hsep as [Ha Hm].
    destruct t as [|x t]; simpl in *.
    + destruct (ascii_dec a sep) as [E|E]; [|discriminate].
      subst. rewrite Ascii.eqb_refl in Ha. discriminate.
    + destruct (ascii_dec a x); [|discriminate]. apply IH; assumption.
Qed.

Lemma match_lit_no_prefix (lit : string) (prev : option ascii)
  (rest : string) (pos : nat) :
  prefix lit rest = false -> match_lit lit prev rest pos = None.
Proof.
  revert prev rest pos.
  induction lit as [|c lit IH]; intros prev rest pos Hp.
  - destruct rest; discriminate.
  - destruct rest as [|a rest]; [reflexivity|].
    cbn [match_lit]. cbn [prefix] in Hp.
    destruct (ascii_dec c a) as [E|E].
    + subst. rewrite Ascii.eqb_refl. apply IH. exact Hp.
    + destruct (Ascii.eqb_spec a c); [congruence|reflexivity].
Qed.

(** No match starts where the text does not read [Content:]. *)
Lemma content_re_needs_marker (prev : option ascii) (rest : string)
  (pos : nat) (k : cont) :
  prefix "Content:" rest = false ->
  rmatch CONTENT_RE prev rest pos [] k = None.
Proof.
  intros Hp. unfold CONTENT_RE. cbn [rmatch].
  destruct (xorb (word_before prev) (word_after rest)); [|reflexivity].
  rewrite (match_lit_no_prefix _ prev rest pos Hp). reflexivity.
Qed.

Lemma occurs_false_prefix (m s : string) :
  occurs m s = false -> prefix m s = false.
Proof.
  destruct s; simpl; intros H; apply orb_false_iff in H; tauto.
Qed.

Lemma occurs_false_tail (m : string) (a : ascii) (s : string) :
  occurs m (String a s) = false -> occurs m s = false.
Proof. simpl. intros H. apply orb_false_iff in H. tauto. Qed.

(** The search passes over a stretch in which [Content:] does not occur and
    which ends in a character foreign to that word. *)
Lemma search_skips (a : string) (sep : ascii) (b : string)
  (prev : option ascii) (pos : nat) :
  occurs "Content:" a = false ->
  contains_char sep "Content:" = false ->
  search_from CONTENT_RE prev (a ++ String sep b) pos
  = search_from CONTENT_RE (Some sep) b (pos + String.length a + 1).
Proof.
  intros Ha Hsep. revert prev pos.
  induction a as [|x a IH]; intros prev pos.
  - cbn [append search_from String.length].
    rewrite content_re_needs_marker.
    + f_equal. lia.
    + destruct (prefix "Content:" (String sep b)) eqn:Hp; [|reflexivity].
      apply (prefix_through_sep _ EmptyString sep b Hsep) in Hp.
      discriminate Hp.
  - cbn [append search_from String.length].
    rewrite content_re_needs_marker.
    + rewrite (IH (occurs_false_tail _ _ _ Ha)). f_equal. lia.
    + destruct (prefix "Content:" (String x (a ++ String sep b))) eqn:Hp;
        [|reflexivity].
      apply (prefix_through_sep _ (String x a) sep b Hsep) in Hp.
      rewrite (occurs_false_prefix _ _ Ha) in Hp. discriminate Hp.
Qed.

(** Without any [Content:] in the text the search finds nothing. *)
Lemma search_no_marker (s : string) (prev : option ascii) (pos : nat) :
  occurs "Content:" s = false -> search_from CONTENT_RE prev s pos = None.
Proof.
  revert prev pos. induction s as [|x s IH]; intros prev pos Hs.
  - cbn [search_from].
    rewrite content_re_needs_marker by (apply occurs_false_prefix; exact Hs).
    reflexivity.
  - cbn [search_from].
    rewrite content_re_needs_marker by (apply occurs_false_prefix; exact Hs).
    apply IH. exact (occurs_false_tail _ _ _ Hs).
Qed.

Lemma marker_not_across_newline (t b : string) :
  starts_marker t = false -> starts_marker (t ++ String nl b) = false.
Proof.
  unfold starts_marker, section_markers. cbn [existsb].
  intros H.
  repeat (apply orb_false_iff in H; destruct H as [?H H]).
  repeat (apply orb_false_iff; split); try reflexivity;
    match goal with
    | |- prefix ?m _ = false =>
        destruct (prefix m (t ++ String nl b)) eqn:Hp; [|reflexivity];
        apply (prefix_through_sep m t nl b eq_refl) in Hp; congruence
    end.
Qed.

Lemma no_marker_after (t : string) (prev : option ascii) (pos : nat)
  (caps : captures) (k : cont) :
  starts_marker t = false ->
  t <> EmptyString -> t <> newline ->
  rmatch (Alt (Lit "Checklist Items:")
         (Alt (Lit "Symptoms:")
         (Alt (Lit "Root cause:")
         (Alt (Lit "Fix:") EndOfString)))) prev t pos caps k = None.
Proof.
  unfold starts_marker, section_markers. cbn [existsb].
  intros H Hne Hnl.
  repeat (apply orb_false_iff in H; destruct H as [?H H]).
  cbn [rmatch].
  rewrite !match_lit_no_prefix by assumption.
  destruct t as [|a [|b t]]; try reflexivity.
  - congruence.
  - destruct (Ascii.eqb_spec a nl); [|reflexivity].
    subst a. exfalso. apply Hnl. reflexivity.
Qed.

(** Inside the content the section end does not match. *)
Lemma section_end_fails (x : ascii) (c mk tail : string)
  (prev : option ascii) (pos : nat) (caps : captures) (k : cont) :
  no_marker_line (String x c) = true ->
  In mk section_markers ->
  rmatch SECTION_END prev (String x (c ++ String nl (mk ++ tail))) pos caps k
  = None.
Proof.
  intros Hc Hmk. unfold SECTION_END.
  cbn [rmatch append match_lit newline].
  destruct (Ascii.eqb_spec x nl) as [E|E]; [|reflexivity].
  subst x. cbn [no_marker_line] in Hc.
  rewrite Ascii.eqb_refl in Hc. cbn [andb] in Hc.
  apply andb_prop in Hc. destruct Hc as [Hm _].
  apply negb_true_iff in Hm.
  apply no_marker_after.
  - apply marker_not_across_newline. exact Hm.
  - destruct c; discriminate.
  - destruct c as [|y c]; cbn [append].
    + unfold newline. intros H. inversion H as [H1].
      destruct mk; [|discriminate].
      cbn in Hmk. intuition discriminate.
    + unfold newline. intros H. inversion H as [[H1 H2]].
      destruct c; discriminate.
Qed.

(** At the newline before a section marker it matches. *)
Lemma section_end_matches (mk tail : string) (prev : option ascii)
  (pos : nat) (caps : captures) :
  In mk section_markers ->
  rmatch SECTION_END prev (String nl (mk ++ tail)) pos caps accept
  = Some caps.
Proof.
  intros Hmk. cbn in Hmk.
  destruct Hmk as [H|[H|[H|[H|[]]]]]; subst mk; reflexivity.
Qed.

(** The lazy scan stops at the end of the content. *)
Lemma lazy_scan (c mk tail : string) (prev : option ascii) (start pos : nat)
  (caps : captures) :
  no_marker_line c = true ->
  In mk section_markers ->
  star_lazy any_char prev (c ++ String nl (mk ++ tail)) pos caps
    (fun prev' rest' pos' caps' =>
       rmatch SECTION_END prev' rest' pos'
         (("content", (start, pos')) :: caps') accept)
  = Some (("content", (start, pos + String.length c)) :: caps).
Proof.
  intros Hc Hmk. revert prev pos.
  induction c as [|x c IH]; intros prev pos.
  - cbn [append star_lazy String.length].
    rewrite section_end_matches by exact Hmk.
    rewrite Nat.add_0_r. reflexivity.
  - cbn [append star_lazy].
    rewrite section_end_fails by assumption.
    cbn [any_char String.length].
    cbn [no_marker_line] in Hc. apply andb_prop in Hc.
    rewrite IH by tauto.
    rewrite Nat.add_succ_r. reflexivity.
Qed.

(** The whole pattern at a [Content:] line that a section follows. *)
Lemma content_re_matches (x : ascii) (c mk tail : string)
  (prev : option ascii) (pos : nat) :
  word_before prev = false ->
  is_space x = false ->
  no_marker_line (String x c) = true ->
  In mk section_markers ->
  rmatch CONTENT_RE prev
    ("Content: " ++ String x c ++ String nl (mk ++ tail)) pos [] accept
  = Some [("content", (9 + pos, 9 + pos + String.length (String x c)))].
Proof.
  intros Hprev Hx Hc Hmk. unfold CONTENT_RE.
  cbn [rmatch append match_lit word_after]. rewrite Hprev.
  change (is_word "C") with true. cbn [xorb].
  change (Ascii.eqb "C" "C") with true. change (Ascii.eqb "o" "o") with true.
  change (Ascii.eqb "n" "n") with true. change (Ascii.eqb "t" "t") with true.
  change (Ascii.eqb "e" "e") with true. change (Ascii.eqb ":" ":") with true.
  cbv iota.
  cbn [star_greedy]. change (is_space " ") with true. cbv iota.
  rewrite Hx.
  change (String x (c ++ String nl (mk ++ tail)))
    with (String x c ++ String nl (mk ++ tail)).
  rewrite (lazy_scan (String x c) mk tail _ _ _ [] Hc Hmk).
  reflexivity.
Qed.

Lemma length_append (a b : string) :
  String.length (a ++ b) = String.length a + String.length b.
Proof. induction a; simpl; congruence. Qed.

Lemma substring_front (c b : string) :
  substring 0 (String.length c) (c ++ b) = c.
Proof.
  induction c as [|x c IH]; simpl.
  - destruct b; reflexivity.
  - rewrite IH. reflexivity.
Qed.

Lemma substring_mid (a c b : string) :
  substring (String.length a) (String.length c) (a ++ c ++ b) = c.
Proof.
  induction a as [|x a IH]; simpl.
  - apply substring_front.
  - exact IH.
Qed.

Lemma search_from_hit (r : regex) (prev : option ascii) (rest : string)
  (pos : nat) (m : captures) :
  rmatch r prev rest pos [] accept = Some m ->
  search_from r prev rest pos = Some m.
Proof. intros H. destruct rest; cbn [search_from]; rewrite H; reflexivity. Qed.

(** The leftmost match in a document whose first [Content:] opens a content
    line that a section follows, and the text of its group. *)
Lemma search_finds_content (a : string) (sep x : ascii) (c mk tail : string) :
  occurs "Content:" a = false ->
  contains_char sep "Content:" = false ->
  is_word sep = false ->
  is_space x = false ->
  no_marker_line (String x c) = true ->
  In mk section_markers ->
  let doc := a ++ String sep
                    ("Content: " ++ String x c ++ String nl (mk ++ tail)) in
  exists m,
    search CONTENT_RE doc = Some m /\ group doc m "content" = String x c.
Proof.
  intros Ha Hsep Hw Hx Hc Hmk doc.
  unfold search, doc. rewrite (search_skips a sep _ None 0 Ha Hsep).
  rewrite (search_from_hit _ _ _ _ _
             (content_re_matches x c mk tail (Some sep) _ Hw Hx Hc Hmk)).
  eexists. split; [reflexivity|].
  unfold group. cbn [lookup_group]. change ("content" =? "content") with true.
  cbv iota.
  replace (9 + (0 + String.length a + 1) + String.length (String x c)
           - (9 + (0 + String.length a + 1)))
    with (String.length (String x c)) by lia.
  replace (9 + (0 + String.length a + 1))
    with (String.length (a ++ String sep "Content: "))
    by (rewrite length_append; simpl; lia).
  replace (a ++ String sep
             ("Content: " ++ String x c ++ String nl (mk ++ tail)))
    with ((a ++ String sep "Content: ")
            ++ String x c ++ String nl (mk ++ tail))
    by (rewrite append_assoc; reflexivity).
  apply substring_mid.
Qed.

Lemma replace_absent (a : ascii) (old new : string) (count : option nat)
  (s : string) :
  contains_char a s = false -> replace (String a old) new count s = s.
Proof.
  unfold replace. induction s as [|x s IH]; intros Hs; [reflexivity|].
  cbn [contains_char] in Hs. apply orb_false_iff in Hs.
  destruct Hs as [Hx Hs].
  cbn [replace_go prefix].
  destruct (ascii_dec a x) as [E|E].
  - subst. rewrite Ascii.eqb_refl in Hx. discriminate.
  - rewrite andb_false_r. rewrite IH by exact Hs. reflexivity.
Qed.

(** The helper on a document whose first [Content:] opens a content line
    that a section follows: the content, stripped. *)
Lemma extract_content_before_marker (a : string) (sep x : ascii)
  (c mk tail : string) :
  let doc := a ++ String sep
                    ("Content: " ++ String x c ++ String nl (mk ++ tail)) in
  occurs "Content:" a = false ->
  contains_char sep "Content:" = false ->
  is_word sep = false ->
  is_space x = false ->
  no_marker_line (String x c) = true ->
  In mk section_markers ->
  contains_char cr doc = false ->
  extract_content (Some doc) = strip (String x c).
Proof.
  intros doc Ha Hsep Hw Hx Hc Hmk Hcr.
  destruct (search_finds_content a sep x c mk tail Ha Hsep Hw Hx Hc Hmk)
    as (m & Hsearch & Hgroup).
  fold doc in Hsearch, Hgroup.
  assert (Hne : is_empty doc = false) by (unfold doc; destruct a; reflexivity).
  unfold extract_content. rewrite Hne.
  unfold crlf. rewrite (replace_absent cr _ _ None doc Hcr).
  rewrite (replace_absent cr _ _ None doc Hcr).
  rewrite Hsearch, Hgroup. reflexivity.
Qed.

(** ** Stripping a document body *)

Lemma ends_with_space_app (x y : string) :
  y <> EmptyString -> ends_with_space (x ++ y) = ends_with_space y.
Proof.
  intros Hy. induction x as [|a x IH]; [reflexivity|].
  cbn [append ends_with_space]. rewrite IH.
  destruct (x ++ y) eqn:E; [|reflexivity].
  destruct x; [simpl in E; congruence | discriminate].
Qed.

Lemma rstrip_app (a b : string) :
  a <> EmptyString -> ends_with_space a = false ->
  rstrip (a ++ b) = a ++ rstrip b.
Proof.
  unfold rstrip. induction a as [|x a IH]; intros Hne He; [congruence|].
  cbn [append rstrip_by].
  destruct a as [|y a].
  - cbn [ends_with_space] in He. cbn [append]. rewrite He. reflexivity.
  - rewrite IH; [|discriminate|exact He].
    cbn [append is_empty]. rewrite andb_false_r. reflexivity.
Qed.

Lemma lstrip_nonspace (x : ascii) (s : string) :
  is_space x = false -> lstrip (String x s) = String x s.
Proof. intros H. unfold lstrip. cbn [lstrip_by]. rewrite H. reflexivity. Qed.

(** Stripping a body that opens with a visible character and whose part [a]
    closes with one only touches what follows [a]. *)
Lemma strip_app (x : ascii) (a b : string) :
  is_space x = false -> ends_with_space (String x a) = false ->
  strip (String x a ++ b) = String x a ++ rstrip b.
Proof.
  intros Hx He. unfold strip. cbn [append].
  rewrite (lstrip_nonspace x _ Hx).
  change (String x (a ++ b)) with (String x a ++ b).
  apply rstrip_app; [discriminate|exact He].
Qed.

Lemma strip_fixed_start (c : string) :
  c <> EmptyString -> strip c = c ->
  exists x c', c = String x c' /\ is_space x = false.
Proof.
  intros Hne Hs.
  destruct (strip_trimmed c) as (l & r & _ & _ & _ & Hst & _).
  rewrite Hs in Hst. destruct c as [|x c']; [congruence|].
  exists x, c'. split; [reflexivity|exact Hst].
Qed.

(** ** The layout of a document *)

Lemma join_cons (sep x y : string) (l : list string) :
  join sep (x :: y :: l) = x ++ sep ++ join sep (y :: l).
Proof. reflexivity. Qed.

Lemma join_head (sep x : string) (l : list string) :
  exists rest, join sep (x :: l) = x ++ rest.
Proof.
  destruct l as [|y l].
  - exists EmptyString. simpl. rewrite append_nil_r. reflexivity.
  - eexists. apply join_cons.
Qed.

Lemma truthy_or_empty_list (v : pyval) :
  truthy (py_or v (VList [])) = truthy v.
Proof. unfold py_or. destruct (truthy v) eqn:E; [exact E|reflexivity]. Qed.

Lemma list_part_shape (card : dict) (key header : string)
  (l : list string) :
  list_part card key header = Ok l ->
  (truthy (get card key) = true /\ exists bullets, l = header :: bullets)
  \/ (truthy (get card key) = false /\ l = []).
Proof.
  unfold list_part. rewrite truthy_or_empty_list.
  destruct (truthy (get card key)) eqn:E.
  - destruct (iterate (py_or (get card key) (VList []))) as [elems|e];
      cbn [bind]; intros H; inversion H; subst.
    left. split; [reflexivity|]. eexists. reflexivity.
  - intros H. inversion H. right. split; reflexivity.
Qed.

Lemma scalar_part_shape (card : dict) (key label : string) :
  (truthy (get card key) = true
   /\ scalar_part card key label = [label ++ ": " ++ str (get card key)])
  \/ (truthy (get card key) = false /\ scalar_part card key label = []).
Proof.
  unfold scalar_part. destruct (truthy (get card key)); [left|right];
    split; reflexivity.
Qed.

(** The first line after the content line opens with a section marker. *)
Lemma later_sections_head (card : dict)
  (items symptoms fix_ : list string) :
  list_part card "items" "Checklist Items:" = Ok items ->
  list_part card "symptoms" "Symptoms:" = Ok symptoms ->
  list_part card "fix" "Fix:" = Ok fix_ ->
  has_later_section card = true ->
  exists mk h more,
    (items ++ symptoms ++ scalar_part card "root_cause" "Root cause"
       ++ fix_)%list = (mk ++ h) :: more
    /\ In mk section_markers.
Proof.
  intros Hi Hs Hf Hl. unfold has_later_section in Hl.
  apply list_part_shape in Hi, Hs, Hf.
  destruct Hi as [[_ [bi ->]]|[Ti ->]].
  { exists "Checklist Items:", EmptyString. eexists. split.
    - cbn [app]. rewrite append_nil_r. reflexivity.
    - cbn. tauto. }
  destruct Hs as [[_ [bs ->]]|[Ts ->]].
  { exists "Symptoms:", EmptyString. eexists. split.
    - cbn [app]. rewrite append_nil_r. reflexivity.
    - cbn. tauto. }
  destruct (scalar_part_shape card "root_cause" "Root cause")
    as [[_ ->]|[Tr ->]].
  { exists "Root cause:", (" " ++ str (get card "root_cause")). eexists.
    split.
    - cbn [app]. reflexivity.
    - cbn. tauto. }
  destruct Hf as [[_ [bf ->]]|[Tf ->]].
  { exists "Fix:", EmptyString. eexists. split.
    - cbn [app]. rewrite append_nil_r. reflexivity.
    - cbn. tauto. }
  rewrite Ti, Ts, Tr, Tf in Hl. discriminate.
Qed.

Lemma marker_shape (mk : string) :
  In mk section_markers ->
  mk <> EmptyString /\ ends_with_space mk = false.
Proof.
  cbn. intros [H|[H|[H|[H|[]]]]]; subst mk; split;
    (discriminate || reflexivity).
Qed.

Ltac flatten_append :=
  repeat (progress (repeat rewrite append_assoc; cbn [append newline])).

(** A document with a content line that a section follows: the text before
    [Content:] is the prefix, with the title line if there is one, and the
    content is closed by a newline and a section marker. *)
Lemma build_document_layout (card : dict) (doc c : string) :
  build_document card = Ok doc ->
  get card "content" = VStr c ->
  c <> EmptyString ->
  has_later_section card = true ->
  exists (a : string) (sep : ascii) (mk tail : string),
    doc = a ++ String sep ("Content: " ++ c ++ String nl (mk ++ tail))
    /\ In mk section_markers
    /\ ((a = "passage:" /\ sep = " "%char)
        \/ (a = "passage: Title: " ++ str (get card "title") /\ sep = nl)).
Proof.
  intros Hdoc Hc Hne Hlater. unfold build_document in Hdoc.
  destruct (list_part card "items" "Checklist Items:") as [items|] eqn:Hi;
    [|discriminate].
  destruct (list_part card "symptoms" "Symptoms:") as [symptoms|] eqn:Hs;
    [|discriminate].
  destruct (list_part card "fix" "Fix:") as [fix_|] eqn:Hf; [|discriminate].
  cbn [bind] in Hdoc. injection Hdoc as Hd. subst doc.
  destruct (later_sections_head card items symptoms fix_ Hi Hs Hf Hlater)
    as (mk & h & more & Hlines & Hmk).
  destruct (marker_shape mk Hmk) as [Hmk_ne Hmk_end].
  assert (Hcontent : scalar_part card "content" "Content"
                     = ["Content: " ++ c]).
  { unfold scalar_part. rewrite Hc. cbn [truthy str].
    rewrite (not_empty_false c Hne). reflexivity. }
  rewrite Hcontent. rewrite <- !app_assoc. rewrite Hlines.
  destruct (join_head newline (mk ++ h) more) as [rest Hrest].
  assert (Hend : forall p : string,
             ends_with_space (p ++ c ++ String nl mk) = false).
  { intros p.
    replace (p ++ c ++ String nl mk) with ((p ++ c ++ newline) ++ mk)
      by (flatten_append; reflexivity).
    rewrite ends_with_space_app by exact Hmk_ne. exact Hmk_end. }
  destruct (scalar_part_shape card "title" "Title") as [[_ Ht]|[_ Ht]];
    rewrite Ht; cbn [app].
  - exists ("passage: Title: " ++ str (get card "title")), nl, mk,
      (rstrip (h ++ rest)).
    split; [|split; [exact Hmk|right; split; reflexivity]].
    rewrite !join_cons, Hrest.
    replace (("Title" ++ ": " ++ str (get card "title")) ++ newline
             ++ ("Content: " ++ c) ++ newline ++ (mk ++ h) ++ rest)
      with (String "T" ("itle: " ++ str (get card "title") ++ newline
                        ++ "Content: " ++ c ++ String nl mk)
            ++ (h ++ rest))
      by (flatten_append; reflexivity).
    rewrite strip_app.
    + flatten_append. reflexivity.
    + reflexivity.
    + replace (String "T" ("itle: " ++ str (get card "title") ++ newline
                           ++ "Content: " ++ c ++ String nl mk))
        with (("Title: " ++ str (get card "title") ++ newline ++ "Content: ")
              ++ c ++ String nl mk)
        by (flatten_append; reflexivity).
      apply Hend.
  - exists "passage:", " "%char, mk, (rstrip (h ++ rest)).
    split; [|split; [exact Hmk|left; split; reflexivity]].
    rewrite !join_cons, Hrest.
    replace (("Content: " ++ c) ++ newline ++ (mk ++ h) ++ rest)
      with (String "C" ("ontent: " ++ c ++ String nl mk) ++ (h ++ rest))
      by (flatten_append; reflexivity).
    rewrite strip_app.
    + flatten_append. reflexivity.
    + reflexivity.
    + change (String "C" ("ontent: " ++ c ++ String nl mk))
        with ("Content: " ++ c ++ String nl mk).
      apply Hend.
Qed.

(** ** Line ends of a stored document *)

Lemma replace_cr_step (a : ascii) (s : string) :
  replace (String cr EmptyString) newline None (String a s)
  = String (if Ascii.eqb a cr then nl else a)
      (replace (String cr EmptyString) newline None s).
Proof.
  unfold replace, newline. cbn [replace_go prefix andb].
  destruct (ascii_dec cr a) as [E|E].
  - subst a. rewrite Ascii.eqb_refl.
    replace (prefix EmptyString s) with true by (destruct s; reflexivity).
    reflexivity.
  - destruct (Ascii.eqb_spec a cr); [congruence|reflexivity].
Qed.

Lemma unix_newlines_no_newline (s : string) :
  prefix newline s = false -> unix_newlines true s = unix_newlines false s.
Proof.
  destruct s as [|a s]; [reflexivity|].
  unfold newline. cbn [prefix unix_newlines andb].
  destruct (ascii_dec nl a) as [E|E].
  - destruct s; discriminate.
  - intros _. destruct (Ascii.eqb_spec a nl); [congruence|reflexivity].
Qed.

(** The two replacements of [extract_content] in one pass. *)
Lemma normalised_line_ends (s : string) :
  replace (String cr EmptyString) newline None (replace crlf newline None s)
  = unix_newlines false s.
Proof.
  unfold replace at 2.
  enough (H : replace (String cr EmptyString) newline None
                (replace_go crlf newline None 0 s)
              = unix_newlines false s
              /\ replace (String cr EmptyString) newline None
                   (replace_go crlf newline None 1 s)
                 = match s with
                   | EmptyString => EmptyString
                   | String _ s' => unix_newlines false s'
                   end) by apply H.
  induction s as [|a s [IH0 IH1]]; [split; reflexivity|].
  split; [|exact IH0].
  destruct (prefix crlf (String a s)) eqn:Hp.
  - unfold crlf in Hp. cbn [prefix] in Hp.
    destruct (ascii_dec cr a) as [<-|]; [|discriminate Hp].
    destruct s as [|b s]; [cbn in Hp; discriminate Hp|].
    cbn [prefix] in Hp.
    destruct (ascii_dec nl b) as [<-|]; [|discriminate Hp].
    assert (E : replace_go crlf newline None 0 (String cr (String nl s))
                = String nl (replace_go crlf newline None 0 s))
      by (destruct s; reflexivity).
    rewrite E, replace_cr_step. change (Ascii.eqb nl cr) with false.
    cbv iota. cbn [replace_go] in IH1. rewrite IH1. reflexivity.
  - cbn [replace_go andb]. rewrite Hp.
    rewrite replace_cr_step, IH0. cbn [unix_newlines andb].
    destruct (Ascii.eqb_spec a cr) as [->|]; [|reflexivity].
    rewrite unix_newlines_no_newline; [reflexivity|].
    unfold crlf in Hp. cbn [prefix] in Hp.
    destruct (ascii_dec cr cr); [|congruence].
    destruct s as [|b s]; [reflexivity|].
    unfold newline. cbn [prefix] in *.
    destruct (ascii_dec nl b); [|reflexivity].
    destruct s; discriminate Hp.
Qed.

Lemma unix_newlines_clean (s : string) :
  contains_char cr s = false -> unix_newlines false s = s.
Proof.
  induction s as [|a s IH]; [reflexivity|].
  cbn [contains_char unix_newlines andb]. intros H.
  apply orb_false_iff in H. destruct H as [Ha Hs].
  rewrite Ha, (IH Hs). reflexivity.
Qed.

Lemma chop_cr_clean (s : string) :
  contains_char cr s = false -> chop_cr s = s.
Proof.
  induction s as [|a s IH]; [reflexivity|].
  cbn [contains_char chop_cr]. intros H.
  apply orb_false_iff in H. destruct H as [Ha Hs].
  rewrite Ha, (IH Hs). destruct s; reflexivity.
Qed.

(** Line ends before a newline: a carriage return in front of it goes. *)
Lemma unix_newlines_before_newline (a z : string) (b : bool) :
  a <> EmptyString \/ b = false ->
  unix_newlines b (a ++ String nl z)
  = unix_newlines b (chop_cr a) ++ String nl (unix_newlines false z).
Proof.
  revert b. induction a as [|y a IH]; intros b Hb.
  - destruct Hb as [Hb | ->]; [congruence|]. reflexivity.
  - destruct (string_dec a EmptyString) as [->|Hne].
    + cbn [append chop_cr].
      destruct (Ascii.eqb_spec y cr) as [->|Hy].
      * cbn [unix_newlines]. change (Ascii.eqb cr nl) with false.
        rewrite andb_false_r. change (Ascii.eqb cr cr) with true. cbv iota.
        cbn [andb]. change (Ascii.eqb nl nl) with true. cbv iota.
        reflexivity.
      * cbn [unix_newlines]. destruct (Ascii.eqb_spec y cr); [congruence|].
        destruct (b && Ascii.eqb y nl); cbn [andb append];
          change (Ascii.eqb nl cr) with false; reflexivity.
    + assert (Hc : chop_cr (String y a) = String y (chop_cr a))
        by (destruct a; [congruence|reflexivity]).
      rewrite Hc. cbn [append unix_newlines].
      destruct (b && Ascii.eqb y nl).
      * apply (IH false). right. reflexivity.
      * destruct (Ascii.eqb y cr); cbn [append]; f_equal.
        -- apply (IH true). left. exact Hne.
        -- apply (IH false). right. reflexivity.
Qed.

Lemma prefix_app (m p q : string) :
  prefix m p = true -> prefix m (p ++ q) = true.
Proof.
  revert p. induction m as [|c m IH]; intros p H;
    [destruct (p ++ q); reflexivity|].
  destruct p as [|y p]; [discriminate|].
  cbn [append prefix] in *. destruct (ascii_dec c y); [|discriminate].
  apply IH. exact H.
Qed.

Lemma content_word_in_app (b : bool) (p q : string) :
  content_word_in b (p ++ q) = false -> content_word_in b p = false.
Proof.
  revert b. induction p as [|y p IH]; intros b H.
  - cbn [append] in H. cbn [content_word_in].
    destruct b; [|reflexivity]. reflexivity.
  - cbn [append content_word_in] in *.
    apply orb_false_iff in H. destruct H as [H1 H2].
    apply orb_false_iff. split; [|apply IH; exact H2].
    destruct b; [|reflexivity]. cbn [andb] in *.
    destruct (prefix "Content:" (String y p)) eqn:Hp; [|reflexivity].
    pose proof (prefix_app _ (String y p) q Hp) as Hq.
    cbn [append] in Hq. rewrite Hq in H1. discriminate H1.
Qed.

Lemma chop_cr_prefix (s : string) :
  exists r, s = chop_cr s ++ r.
Proof.
  induction s as [|a s [r IH]]; [exists EmptyString; reflexivity|].
  destruct s as [|a' s'].
  - cbn [chop_cr]. destruct (Ascii.eqb a cr).
    + exists (String a EmptyString). reflexivity.
    + exists EmptyString. reflexivity.
  - exists r. change (chop_cr (String a (String a' s')))
      with (String a (chop_cr (String a' s'))).
    cbn [append]. rewrite <- IH. reflexivity.
Qed.

Lemma content_word_in_weaken (b : bool) (s : string) :
  content_word_in true s = false -> content_word_in b s = false.
Proof.
  destruct b; [auto|]. destruct s as [|a s]; [reflexivity|].
  cbn [content_word_in andb orb]. intros H.
  apply orb_false_iff in H. apply H.
Qed.

Lemma prefix_unix_newlines (m s : string) :
  contains_char nl m = false ->
  prefix m (unix_newlines false s) = true -> prefix m s = true.
Proof.
  revert s. induction m as [|c m IH]; intros s Hm H;
    [destruct s; reflexivity|].
  cbn [contains_char] in Hm. apply orb_false_iff in Hm.
  destruct Hm as [Hc Hm].
  destruct s as [|y s]; [discriminate H|].
  cbn [unix_newlines andb] in H.
  destruct (Ascii.eqb_spec y cr) as [->|Hy].
  - cbn [prefix] in H. destruct (ascii_dec c nl) as [->|]; [|discriminate].
    rewrite Ascii.eqb_refl in Hc. discriminate.
  - cbn [prefix] in *. destruct (ascii_dec c y); [|discriminate].
    apply IH; [exact Hm|exact H].
Qed.

Lemma content_word_in_unix_newlines (s : string) :
  forall b k : bool,
    content_word_in b s = false ->
    content_word_in b (unix_newlines k s) = false.
Proof.
  induction s as [|y s IH]; intros b k H.
  - exact H.
  - cbn [content_word_in] in H. apply orb_false_iff in H.
    destruct H as [H1 H2]. cbn [unix_newlines].
    destruct (k && Ascii.eqb y nl) eqn:Hk.
    + apply andb_prop in Hk. destruct Hk as [_ Hy].
      apply Ascii.eqb_eq in Hy. subst y.
      apply content_word_in_weaken. apply IH. exact H2.
    + destruct (Ascii.eqb_spec y cr) as [->|Hy].
      * cbn [content_word_in prefix].
        destruct (ascii_dec "C" nl); [discriminate|].
        rewrite andb_false_r. cbn [orb]. apply IH. exact H2.
      * cbn [content_word_in]. apply orb_false_iff.
        split; [|apply IH; exact H2].
        destruct b; [|reflexivity]. cbn [andb] in *.
        destruct (prefix "Content:" (String y (unix_newlines false s)))
          eqn:Hp; [|reflexivity].
        assert (Hn : unix_newlines false (String y s)
                     = String y (unix_newlines false s)).
        { cbn [unix_newlines andb].
          destruct (Ascii.eqb_spec y cr); [congruence|reflexivity]. }
        rewrite <- Hn in Hp.
        apply prefix_unix_newlines in Hp; [|reflexivity].
        congruence.
Qed.

Lemma unix_newlines_app_clean (p q : string) :
  contains_char cr p = false ->
  unix_newlines false (p ++ q) = p ++ unix_newlines false q.
Proof.
  induction p as [|y p IH]; [reflexivity|].
  cbn [contains_char append unix_newlines andb]. intros H.
  apply orb_false_iff in H. destruct H as [Hy Hp].
  rewrite Hy, (IH Hp). reflexivity.
Qed.

Lemma marker_clean (mk : string) :
  In mk section_markers -> contains_char cr mk = false.
Proof.
  cbn. intros [H|[H|[H|[H|[]]]]]; subst mk; reflexivity.
Qed.

(** The line ends of a content line that a section follows: the content
    line stays as it is. *)
Lemma unix_newlines_content_line (k mk tail : string) :
  contains_char cr k = false ->
  In mk section_markers ->
  unix_newlines false (k ++ String nl (mk ++ tail))
  = k ++ String nl (mk ++ unix_newlines false tail).
Proof.
  intros Hk Hmk. rewrite (unix_newlines_app_clean _ _ Hk).
  change (String nl (mk ++ tail)) with (newline ++ mk ++ tail).
  rewrite (unix_newlines_app_clean newline) by reflexivity.
  rewrite (unix_newlines_app_clean _ _ (marker_clean _ Hmk)).
  reflexivity.
Qed.

Lemma contains_char_app (a : ascii) (p q : string) :
  contains_char a (p ++ q) = contains_char a p || contains_char a q.
Proof.
  induction p as [|y p IH]; [reflexivity|].
  cbn [append contains_char]. rewrite IH, orb_assoc. reflexivity.
Qed.

Lemma content_word_in_skip (b : bool) (y : ascii) (s : string) :
  y <> "C"%char ->
  content_word_in b (String y s) = content_word_in (negb (is_word y)) s.
Proof.
  intros Hy. cbn [content_word_in prefix].
  destruct (ascii_dec "C" y); [congruence|].
  rewrite andb_false_r. reflexivity.
Qed.

Lemma content_word_in_title (t : string) :
  content_word_in true ("passage: Title: " ++ t) = content_word_in true t.
Proof.
  cbn [append].
  repeat (rewrite content_word_in_skip by discriminate).
  reflexivity.
Qed.

(** No match starts behind a word character. *)
Lemma content_re_needs_boundary (prev : option ascii) (rest : string)
  (pos : nat) (k : cont) :
  word_before prev = true -> prefix "Content:" rest = true ->
  rmatch CONTENT_RE prev rest pos [] k = None.
Proof.
  intros Hprev Hp. unfold CONTENT_RE. cbn [rmatch]. rewrite Hprev.
  destruct rest as [|x rest]; [discriminate Hp|].
  cbn [prefix] in Hp. destruct (ascii_dec "C" x) as [<-|]; [|discriminate Hp].
  reflexivity.
Qed.

(** The search passes over a text in which [Content:] begins no word. *)
Lemma search_skips_words (a : string) (sep : ascii) (b : string)
  (prev : option ascii) (pos : nat) :
  content_word_in (negb (word_before prev)) a = false ->
  contains_char sep "Content:" = false ->
  search_from CONTENT_RE prev (a ++ String sep b) pos
  = search_from CONTENT_RE (Some sep) b (pos + String.length a + 1).
Proof.
  intros Ha Hsep. revert prev pos Ha.
  induction a as [|x a IH]; intros prev pos Ha.
  - cbn [append search_from String.length].
    rewrite content_re_needs_marker.
    + f_equal. lia.
    + destruct (prefix "Content:" (String sep b)) eqn:Hp; [|reflexivity].
      apply (prefix_through_sep _ EmptyString sep b Hsep) in Hp.
      discriminate Hp.
  - cbn [content_word_in] in Ha. apply orb_false_iff in Ha.
    destruct Ha as [Hhere Hlater].
    cbn [append search_from String.length].
    assert (Hnone : rmatch CONTENT_RE prev (String x (a ++ String sep b))
                      pos [] accept = None).
    { destruct (prefix "Content:" (String x (a ++ String sep b))) eqn:Hp.
      - apply content_re_needs_boundary; [|exact Hp].
        apply (prefix_through_sep _ (String x a) sep b Hsep) in Hp.
        rewrite Hp, andb_true_r in Hhere.
        apply negb_false_iff in Hhere. exact Hhere.
      - apply content_re_needs_marker. exact Hp. }
    rewrite Hnone. rewrite (IH (Some x) (S pos) Hlater). f_equal. lia.
Qed.

(** The leftmost match in a document in which [Content:] begins no word
    before the content line, and the text of its group. *)
Lemma search_finds_content_line (a : string) (sep x : ascii)
  (c mk tail : string) :
  content_word_in true a = false ->
  contains_char sep "Content:" = false ->
  is_word sep = false ->
  is_space x = false ->
  no_marker_line (String x c) = true ->
  In mk section_markers ->
  let doc := a ++ String sep
                    ("Content: " ++ String x c ++ String nl (mk ++ tail)) in
  exists m,
    search CONTENT_RE doc = Some m /\ group doc m "content" = String x c.
Proof.
  intros Ha Hsep Hw Hx Hc Hmk doc.
  unfold search, doc. rewrite (search_skips_words a sep _ None 0 Ha Hsep).
  rewrite (search_from_hit _ _ _ _ _
             (content_re_matches x c mk tail (Some sep) _ Hw Hx Hc Hmk)).
  eexists. split; [reflexivity|].
  unfold group. cbn [lookup_group]. change ("content" =? "content") with true.
  cbv iota.
  replace (9 + (0 + String.length a + 1) + String.length (String x c)
           - (9 + (0 + String.length a + 1)))
    with (String.length (String x c)) by lia.
  replace (9 + (0 + String.length a + 1))
    with (String.length (a ++ String sep "Content: "))
    by (rewrite length_append; simpl; lia).
  replace (a ++ String sep
             ("Content: " ++ String x c ++ String nl (mk ++ tail)))
    with ((a ++ String sep "Content: ")
            ++ String x c ++ String nl (mk ++ tail))
    by (rewrite append_assoc; reflexivity).
  apply substring_mid.
Qed.

(** The document of [extract_content] after its two replacements, when the
    content has no carriage return and [Content:] begins no word of the
    title. *)
Lemma normalised_document_layout (card : dict) (doc : string) (x : ascii)
  (c : string) :
  build_document card = Ok doc ->
  get card "content" = VStr (String x c) ->
  contains_char cr (String x c) = false ->
  content_word_in true (str (get card "title")) = false ->
  has_later_section card = true ->
  exists (a : string) (sep : ascii) (mk tail : string),
    unix_newlines false doc
    = a ++ String sep ("Content: " ++ String x c ++ String nl (mk ++ tail))
    /\ In mk section_markers
    /\ content_word_in true a = false
    /\ contains_char sep "Content:" = false
    /\ is_word sep = false.
Proof.
  intros Hdoc Hc Hcr Htitle Hlater.
  destruct (build_document_layout card doc (String x c) Hdoc Hc
              ltac:(discriminate) Hlater)
    as (a & sep & mk & tail & Hshape & Hmk & Ha).
  assert (Hk : contains_char cr ("Content: " ++ String x c) = false).
  { rewrite contains_char_app, Hcr. reflexivity. }
  destruct Ha as [[-> ->]|[-> ->]]; subst doc.
  - exists "passage:", " "%char, mk, (unix_newlines false tail).
    split; [|repeat split; (exact Hmk || reflexivity)].
    change ("passage:" ++ String " "
              ("Content: " ++ String x c ++ String nl (mk ++ tail)))
      with ("passage: " ++ ("Content: " ++ String x c)
            ++ String nl (mk ++ tail)).
    rewrite (unix_newlines_app_clean "passage: ") by reflexivity.
    rewrite (unix_newlines_content_line _ _ _ Hk Hmk). reflexivity.
  - set (t := str (get card "title")) in *.
    exists ("passage: Title: " ++ unix_newlines false (chop_cr t)), nl, mk,
      (unix_newlines false tail).
    split; [|split; [exact Hmk|split; [|split; reflexivity]]].
    + rewrite !append_assoc.
      rewrite (unix_newlines_app_clean "passage: Title: ") by reflexivity.
      rewrite unix_newlines_before_newline by (right; reflexivity).
      change ("Content: " ++ String x c ++ String nl (mk ++ tail))
        with (("Content: " ++ String x c) ++ String nl (mk ++ tail)).
      rewrite (unix_newlines_content_line _ _ _ Hk Hmk).
      reflexivity.
    + rewrite content_word_in_title.
      apply content_word_in_unix_newlines.
      destruct (chop_cr_prefix t) as [r Hr].
      rewrite Hr in Htitle. exact (content_word_in_app _ _ _ Htitle).
Qed.

(** C4, as the code has it.  When the content is a non-empty text free of
    surrounding whitespace, without a carriage return, in which no line
    opens with a section marker, [Content:] begins no word of the title and
    a section follows the content line, the extraction helper returns the
    content field from the formatted document. *)
Theorem extract_content_roundtrip :
  forall (card : dict) (doc c : string),
    build_document card = Ok doc ->
    get card "content" = VStr c ->
    c <> EmptyString ->
    strip c = c ->
    no_marker_line c = true ->
    contains_char cr c = false ->
    content_word_in true (str (get card "title")) = false ->
    has_later_section card = true ->
    extract_content (Some doc) = c.
Proof.
  intros card doc c Hdoc Hc Hne Hstrip Hlines Hcr Htitle Hlater.
  destruct (strip_fixed_start c Hne Hstrip) as (x & c' & Hx & Hspace).
  subst c.
  destruct (normalised_document_layout card doc x c' Hdoc Hc Hcr Htitle
              Hlater)
    as (a & sep & mk & tail & Hshape & Hmk & Ha & Hsep & Hw).
  destruct (search_finds_content_line a sep x c' mk tail Ha Hsep Hw Hspace
              Hlines Hmk) as (m & Hsearch & Hgroup).
  assert (Hdne : is_empty doc = false).
  { destruct doc; [|reflexivity].
    destruct a; discriminate Hshape. }
  unfold extract_content. rewrite Hdne.
  unfold crlf in *. rewrite normalised_line_ends, Hshape.
  rewrite Hsearch, Hgroup. exact Hstrip.
Qed.

Lemma extract_content_roundtrip_witness :
  let card :=
    [ ("id", VStr "c1");
      ("title", VStr (String.append "MyContent: X" (String cr EmptyString)));
      ("content", VStr "Hello");
      ("fix", VList [VStr (String.append "do" (String cr "X"))]) ] in
  let doc :=
    String.concat line_feed
      [ String.append "passage: Title: MyContent: X" (String cr EmptyString);
        "Content: Hello"; "Fix:";
        String.append "- do" (String cr "X") ] in
  build_document card = Ok doc /\ extract_content (Some doc) = "Hello".
Proof.
  intros card doc. split; [reflexivity|].
  apply (extract_content_roundtrip card doc "Hello").
  - reflexivity.
  - reflexivity.
  - discriminate.
  - reflexivity.
  - reflexivity.
  - reflexivity.
  - reflexivity.
  - reflexivity.
Defined.

(** C4 as stated fails.  The helper strips the content, ends it at a line
    that opens with a section marker, starts at the first [Content:] of the
    document and turns carriage returns into newlines: none of these four
    contents comes back as it was written. *)
Lemma extract_content_not_exact :
  (exists doc,
      build_document [("content", VStr " Hello"); ("fix", VList [VStr "x"])]
      = Ok doc
      /\ extract_content (Some doc) = "Hello")
  /\ (exists doc,
         build_document
           [ ("content", VStr ("a" ++ newline ++ "Fix: b"));
             ("fix", VList [VStr "x"]) ] = Ok doc
         /\ extract_content (Some doc) = "a")
  /\ (exists doc,
         build_document
           [ ("title", VStr "Content: X"); ("content", VStr "Y");
             ("fix", VList [VStr "x"]) ] = Ok doc
         /\ extract_content (Some doc) = "X" ++ newline ++ "Content: Y")
  /\ (exists doc,
         build_document
           [ ("content", VStr ("a" ++ String cr "b"));
             ("fix", VList [VStr "x"]) ] = Ok doc
         /\ extract_content (Some doc) = "a" ++ newline ++ "b").
Proof.
  repeat split; eexists; split; reflexivity.
Qed.

(** ** Documents without a content line, and content in last place *)

Lemma replace_exhausted (old new s : string) :
  replace_go old new (Some 0) 0 s = s.
Proof.
  induction s as [|x s IH]; [reflexivity|].
  cbn [replace_go andb]. rewrite IH. reflexivity.
Qed.

Lemma replace_passage_prefix (s : string) :
  replace "passage: " EmptyString (Some 1) ("passage: " ++ s) = s.
Proof.
  unfold replace. cbn.
  replace (prefix EmptyString s) with true by (destruct s; reflexivity).
  apply replace_exhausted.
Qed.

(** Without [Content:] in the text the helper removes the first
    ["passage: "] and strips the rest. *)
Lemma extract_content_no_marker (document : string) :
  document <> EmptyString ->
  let doc := replace (String cr EmptyString) newline None
               (replace crlf newline None document) in
  occurs "Content:" doc = false ->
  extract_content (Some document)
  = strip (replace "passage: " EmptyString (Some 1) doc).
Proof.
  intros Hne doc Hocc. unfold extract_content.
  rewrite (not_empty_false _ Hne). fold doc.
  unfold search. rewrite (search_no_marker doc None 0 Hocc). reflexivity.
Qed.

(** X20.  A stored document without [Content:] and without carriage return is
    returned without its prefix, stripped. *)
Lemma extract_content_no_marker_stored (body : string) :
  contains_char cr body = false ->
  occurs "Content:" body = false ->
  extract_content (Some ("passage: " ++ body)) = strip body.
Proof.
  intros Hcr Hocc.
  assert (Hcr' : contains_char cr ("passage: " ++ body) = false)
    by exact Hcr.
  rewrite extract_content_no_marker.
  - unfold crlf. rewrite !(replace_absent cr _ _ None _ Hcr').
    rewrite replace_passage_prefix. reflexivity.
  - discriminate.
  - unfold crlf. rewrite !(replace_absent cr _ _ None _ Hcr').
    exact Hocc.
Qed.

(** C6.  The helper returns the text between [Content:] and the next
    section marker, as on the sample document; but when the content line is
    the last of the document, so that the content runs to the end of the
    string, the pattern finds no match, because its end-of-string
    alternative sits behind a newline, and the helper returns the whole
    document without its prefix. *)
Theorem extract_content_at_end_of_document :
  extract_content
    (Some (join newline
             ["passage: Title: T"; "Content: Hello"; "Fix:"; "- do X"]))
  = "Hello"
  /\ build_document [("title", VStr "T"); ("content", VStr "Hello")]
     = Ok (join newline ["passage: Title: T"; "Content: Hello"])
  /\ extract_content
       (Some (join newline ["passage: Title: T"; "Content: Hello"]))
     = join newline ["Title: T"; "Content: Hello"]
  /\ extract_content (Some "passage: Content: Hello") = "Content: Hello"
  /\ search CONTENT_RE "passage: Content: Hello" = None.
Proof. repeat split; reflexivity. Qed.

(* ================================================================== *)
(** * Further properties of the code                                  *)
(* ================================================================== *)

(** ** Batches of the ingestion loop *)

Section IngestionBatches.

Variable embedding : Type.
Variable json_loads : string -> option pyval.
Variable e5_embed : list string -> list embedding.

Local Abbreviation state := (loop_state embedding).

Lemma loop_body_record (line : string) (st : state) :
  loop_body json_loads e5_embed line st
  = (r <- record_of json_loads line ;;
     let st' := mk_loop (ids st ++ [fst (fst r)])%list
                  (docs st ++ [snd (fst r)])%list
                  (metas st ++ [snd r])%list (collection st) in
     if (batch <=? List.length (ids st'))%nat
     then Ok (flush e5_embed st') else Ok st').
Proof.
  unfold loop_body, record_of.
  destruct (json_loads line) as [card|]; [|reflexivity].
  destruct (subscript_key card "id") as [id|]; [|reflexivity].
  cbn [bind]. destruct card; try reflexivity.
  destruct (build_document d) as [doc|]; [|reflexivity].
  destruct (build_metadata d) as [meta|]; reflexivity.
Qed.

Lemma flat_map_snoc {A B : Type} (f : A -> list B) (l : list A) (a : A) :
  flat_map f (l ++ [a]) = (flat_map f l ++ f a)%list.
Proof. rewrite flat_map_app. simpl. rewrite app_nil_r. reflexivity. Qed.

Lemma loop_body_invariant (line : string) (st : state)
  (recs : list (pyval * string * dict)) (r : pyval * string * dict) :
  loop_invariant e5_embed recs st ->
  record_of json_loads line = Ok r ->
  exists st',
    loop_body json_loads e5_embed line st = Ok st'
    /\ loop_invariant e5_embed (recs ++ [r]) st'.
Proof.
  intros ((Hi & Hd & Hm) & Hlt & Ld & Lm & Hall) Hr.
  rewrite loop_body_record, Hr. cbn [bind ids].
  destruct r as [[id doc] meta]. cbn [fst snd].
  destruct (batch <=? List.length (ids st ++ [id]))%nat eqn:Hfull.
  - eexists. split; [reflexivity|].
    apply Nat.leb_le in Hfull. rewrite length_app in Hfull.
    cbn [List.length] in Hfull.
    unfold loop_invariant, flush, stored_ids, stored_documents,
      stored_metadatas.
    cbn [ids docs metas collection].
    rewrite !flat_map_snoc. cbn [add_ids add_documents add_metadatas].
    rewrite !app_nil_r, !map_app. cbn [map fst snd].
    unfold stored_ids, stored_documents, stored_metadatas in Hi, Hd, Hm.
    rewrite !app_assoc, Hi, Hd, Hm.
    repeat split; try reflexivity.
    + unfold batch. cbn [List.length]. lia.
    + apply Forall_app. split; [exact Hall|].
      constructor; [|constructor].
      unfold well_formed_add. cbn [add_ids add_documents add_metadatas
                                     add_embeddings].
      rewrite !length_app. cbn [List.length]. repeat split; try lia.
  - eexists. split; [reflexivity|].
    apply Nat.leb_gt in Hfull.
    unfold loop_invariant. cbn [ids docs metas collection].
    rewrite !map_app. cbn [map fst snd].
    rewrite !app_assoc, Hi, Hd, Hm.
    rewrite !length_app in *. cbn [List.length] in *.
    repeat split; try reflexivity; try lia. exact Hall.
Qed.

Lemma loop_invariant_run (lines : list string) (st : state)
  (recs0 recs : list (pyval * string * dict)) :
  loop_invariant e5_embed recs0 st ->
  for_each (record_of json_loads) lines = Ok recs ->
  exists st',
    loop json_loads e5_embed lines st = (st', None)
    /\ loop_invariant e5_embed (recs0 ++ recs) st'.
Proof.
  revert st recs0 recs.
  induction lines as [|line lines IH]; intros st recs0 recs Hinv Hall.
  - cbn in Hall. injection Hall as <-. rewrite app_nil_r.
    exists st. split; [reflexivity|exact Hinv].
  - cbn [for_each] in Hall.
    destruct (record_of json_loads line) as [r|] eqn:Hr; [|discriminate].
    cbn [bind] in Hall.
    destruct (for_each (record_of json_loads) lines) as [rs|] eqn:Hrs;
      [|discriminate].
    cbn [bind] in Hall. injection Hall as <-.
    destruct (loop_body_invariant line st recs0 r Hinv Hr)
      as (st1 & Hb & Hinv1).
    destruct (IH st1 (recs0 ++ [r])%list rs Hinv1 eq_refl)
      as (st' & Hl & Hinv').
    exists st'. split.
    + cbn [loop]. rewrite Hb. exact Hl.
    + rewrite <- app_assoc in Hinv'. exact Hinv'.
Qed.

Lemma init_invariant : loop_invariant e5_embed [] (@init_state embedding).
Proof.
  unfold loop_invariant, init_state, batch. cbn.
  repeat split; try reflexivity; try lia. constructor.
Qed.

(** X1.  When every line yields a record, the run ends normally and the
    collection holds the ids, documents and metadata of all the lines, once
    each and in the order of the file. *)
Theorem ingest_stores_every_record :
  forall (lines : list string) (recs : list (pyval * string * dict)),
    for_each (record_of json_loads) lines = Ok recs ->
    exists c,
      ingest json_loads e5_embed lines = (c, Ok tt)
      /\ stored_ids c = map (fun r => fst (fst r)) recs
      /\ stored_documents c = map (fun r => snd (fst r)) recs
      /\ stored_metadatas c = map snd recs.
Proof.
  intros lines recs Hall.
  destruct (loop_invariant_run lines init_state [] recs init_invariant Hall)
    as (st & Hl & (Hi & Hd & Hm) & Hlt & Ld & Lm & Hfull).
  cbn [app] in Hi, Hd, Hm.
  unfold ingest. rewrite Hl.
  destruct (ids st) as [|i is_] eqn:Hids.
  - destruct (docs st); [|discriminate]. destruct (metas st); [|discriminate].
    rewrite !app_nil_r in *. eexists. repeat split; assumption.
  - eexists. split; [reflexivity|].
    unfold flush, stored_ids, stored_documents, stored_metadatas in *.
    cbn [collection]. rewrite !flat_map_snoc.
    cbn [add_ids add_documents add_metadatas]. rewrite Hids.
    repeat split; assumption.
Qed.

(** X2.  When every line yields a record, each [add] call carries between one
    and [batch] records in three arrays of one length, with the embeddings
    of its documents; every call before the last carries exactly [batch]. *)
Theorem ingest_batches_bounded :
  forall (lines : list string) (recs : list (pyval * string * dict)),
    for_each (record_of json_loads) lines = Ok recs ->
    exists c,
      ingest json_loads e5_embed lines = (c, Ok tt)
      /\ Forall (fun a => exists n, 1 <= n <= batch
                                    /\ well_formed_add e5_embed n a) c
      /\ Forall (well_formed_add e5_embed batch) (removelast c).
Proof.
  intros lines recs Hall.
  destruct (loop_invariant_run lines init_state [] recs init_invariant Hall)
    as (st & Hl & _ & Hlt & Ld & Lm & Hfull).
  assert (Hweak : Forall (fun a => exists n, 1 <= n <= batch
                            /\ well_formed_add e5_embed n a)
                    (collection st)).
  { eapply Forall_impl; [|exact Hfull]. intros a Ha. exists batch.
    split; [unfold batch; lia|exact Ha]. }
  unfold ingest. rewrite Hl.
  destruct (ids st) as [|i is_] eqn:Hids.
  - eexists. split; [reflexivity|]. split; [exact Hweak|].
    clear - Hfull. induction Hfull as [|a l Ha Hl IH]; [constructor|].
    destruct l; [constructor|]. cbn [removelast] in *.
    constructor; assumption.
  - eexists. split; [reflexivity|].
    unfold flush. cbn [collection]. split.
    + apply Forall_app. split; [exact Hweak|].
      constructor; [|constructor].
      exists (List.length (ids st)). rewrite Hids in *.
      cbn [List.length] in *. split; [lia|].
      unfold well_formed_add. cbn. repeat split; auto.
    + rewrite removelast_last. exact Hfull.
Qed.

End IngestionBatches.

(** ** More on stripping *)

Lemma lstrip_all_space (l s : string) :
  all_space l = true -> lstrip (l ++ s) = lstrip s.
Proof.
  unfold lstrip. induction l as [|a l IH]; intros Hl; [reflexivity|].
  cbn [all_space] in Hl. apply andb_prop in Hl. destruct Hl as [Ha Hl].
  cbn [append lstrip_by]. rewrite Ha. apply IH. exact Hl.
Qed.

Lemma lstrip_blank (r : string) : all_space r = true -> lstrip r = EmptyString.
Proof.
  intros Hr. rewrite <- (append_nil_r r).
  rewrite lstrip_all_space by exact Hr. reflexivity.
Qed.

Lemma rstrip_blank (r : string) : all_space r = true -> rstrip r = EmptyString.
Proof.
  unfold rstrip. induction r as [|a r IH]; intros Hr; [reflexivity|].
  cbn [all_space] in Hr. apply andb_prop in Hr. destruct Hr as [Ha Hr].
  cbn [rstrip_by]. rewrite (IH Hr), Ha. reflexivity.
Qed.

Lemma rstrip_all_space (s r : string) :
  all_space r = true -> rstrip (s ++ r) = rstrip s.
Proof.
  intros Hr. induction s as [|a s IH].
  - cbn [append]. rewrite rstrip_blank by exact Hr. reflexivity.
  - unfold rstrip in *. cbn [append rstrip_by]. rewrite IH. reflexivity.
Qed.

Lemma rstrip_fixed (t : string) :
  ends_with_space t = false -> rstrip t = t.
Proof.
  unfold rstrip. induction t as [|a t IH]; intros He; [reflexivity|].
  cbn [rstrip_by]. destruct t as [|b t].
  - cbn [ends_with_space] in He. cbn [rstrip_by]. rewrite He. reflexivity.
  - rewrite IH by exact He. cbn [is_empty]. rewrite andb_false_r.
    reflexivity.
Qed.

(** [strip] computes the trimmed text, which is therefore unique. *)
Lemma strip_of_trimmed (s t : string) : trimmed s t -> strip s = t.
Proof.
  intros (l & r & -> & Hl & Hr & Hst & He). unfold strip.
  rewrite lstrip_all_space by exact Hl.
  destruct t as [|x t].
  - cbn [append]. rewrite lstrip_blank by exact Hr. reflexivity.
  - cbn [starts_with_space] in Hst. cbn [append].
    rewrite (lstrip_nonspace x _ Hst).
    change (String x (t ++ r)) with (String x t ++ r).
    rewrite rstrip_all_space by exact Hr. apply rstrip_fixed. exact He.
Qed.

Lemma all_space_app (a b : string) :
  all_space a = true -> all_space b = true -> all_space (a ++ b) = true.
Proof.
  intros Ha Hb. induction a as [|x a IH]; [exact Hb|].
  cbn [all_space append] in *. apply andb_prop in Ha. destruct Ha as [Hx Ha].
  rewrite Hx, (IH Ha). reflexivity.
Qed.

Lemma strip_surrounding (l s r : string) :
  all_space l = true -> all_space r = true ->
  strip (l ++ s ++ r) = strip s.
Proof.
  intros Hl Hr. apply strip_of_trimmed.
  destruct (strip_trimmed s) as (l' & r' & Hs & Hl' & Hr' & Hst & He).
  exists (l ++ l'), (r' ++ r). repeat split; try assumption.
  - rewrite Hs at 1. rewrite !append_assoc. reflexivity.
  - apply all_space_app; assumption.
  - apply all_space_app; assumption.
Qed.

Lemma strip_idempotent (s : string) : strip (strip s) = strip s.
Proof.
  apply strip_of_trimmed.
  destruct (strip_trimmed s) as (l & r & _ & _ & _ & Hst & He).
  exists EmptyString, EmptyString. cbn [append all_space].
  rewrite append_nil_r. repeat split; assumption.
Qed.

(** ** Whitespace around a query text or a step input *)

(** X15.  Surrounding whitespace does not change the text embedded for a query,
    and a missing, empty or blank query embeds the bare prefix. *)
Theorem e5_query_prefix_ignores_blanks :
  forall l s r : string,
    all_space l = true -> all_space r = true ->
    e5_query_prefix (Some (l ++ s ++ r)) = e5_query_prefix (Some s)
    /\ e5_query_prefix (Some l) = "query: "
    /\ e5_query_prefix None = "query: ".
Proof.
  intros l s r Hl Hr. unfold e5_query_prefix. cbn [or_empty].
  rewrite strip_surrounding by assumption.
  split; [reflexivity|]. split; [|reflexivity].
  unfold strip. rewrite lstrip_blank by exact Hl. reflexivity.
Qed.

(** X23.  Surrounding whitespace does not change what a step input selects. *)
Theorem parse_step_ignores_blanks :
  forall l s r : string,
    all_space l = true -> all_space r = true ->
    parse_step (Some (l ++ s ++ r)) = parse_step (Some s)
    /\ parse_step (Some (strip s)) = parse_step (Some s).
Proof.
  intros l s r Hl Hr. unfold parse_step. cbn [or_empty].
  rewrite strip_surrounding by assumption. rewrite strip_idempotent.
  split; reflexivity.
Qed.

Lemma step_lookup_tag (n : Z) (tag : string) :
  step_lookup n STEP_MAP = Some tag -> In tag stage_tags.
Proof.
  unfold STEP_MAP, stage_tags. cbn [step_lookup map snd].
  repeat match goal with
         | |- context [(?i =? n)%Z] => destruct (i =? n)%Z
         end;
    intros H; inversion H; subst; cbn; tauto.
Qed.

Lemma parse_step_cases :
  forall step_input : option string,
    (exists tag, parse_step step_input = Ok tag /\ In tag stage_tags)
    \/ (exists msg, parse_step step_input = Raise (ValueError msg)).
Proof.
  intros step_input. unfold parse_step.
  destruct (is_empty (strip (or_empty step_input))).
  - left. eexists. split; [reflexivity|]. cbn. tauto.
  - destruct (py_int (strip (or_empty step_input))) as [n|].
    + destruct (step_lookup n STEP_MAP) as [tag|] eqn:Ht.
      * left. exists tag. split; [reflexivity|].
        exact (step_lookup_tag n tag Ht).
      * right. eexists. reflexivity.
    + right. eexists. reflexivity.
Qed.

(** X22.  [parse_step] returns one of the six stage tags or raises [ValueError],
    nothing else. *)
Theorem parse_step_outcomes :
  forall step_input : option string,
    (exists tag, parse_step step_input = Ok tag /\ In tag stage_tags)
    \/ (exists msg, parse_step step_input = Raise (ValueError msg)).
Proof. exact parse_step_cases. Qed.

(** X24.  The step selection of a turn cannot fail: whatever is typed, it yields
    one of the six stage tags, after at most one warning line. *)
Theorem choose_step_total :
  forall step_raw : string,
    exists (shown : list event) (tag : string),
      choose_step step_raw = (shown, Ok tag)
      /\ In tag stage_tags
      /\ List.length shown <= 1.
Proof.
  intros step_raw. unfold choose_step.
  destruct (parse_step_cases (Some step_raw))
    as [(tag & -> & Hin)|(msg & ->)].
  - exists [], tag. repeat split; auto.
  - eexists _, _. split; [reflexivity|]. split; [cbn; tauto|cbn; lia].
Qed.

(** X21.  What the helper returns never begins or ends with whitespace. *)
Theorem extract_content_trimmed :
  forall document : option string,
    starts_with_space (extract_content document) = false
    /\ ends_with_space (extract_content document) = false.
Proof.
  intros [document|]; [|split; reflexivity].
  unfold extract_content.
  destruct (is_empty document); [split; reflexivity|].
  match goal with
  | |- context [search CONTENT_RE ?d] => destruct (search CONTENT_RE d)
  end;
    match goal with
    | |- context [strip ?x] =>
        destruct (strip_trimmed x) as (l & r & _ & _ & _ & Hst & He)
    end; split; assumption.
Qed.


(** ** Outcomes of the formatter and of the projection *)

Lemma list_part_ok (card : dict) (key header : string) :
  is_ok (list_part card key header) = listable (get card key).
Proof.
  unfold list_part, listable. rewrite truthy_or_empty_list.
  unfold py_or. destruct (truthy (get card key)) eqn:E; [|reflexivity].
  destruct (get card key); try discriminate E; reflexivity.
Qed.

Lemma list_part_error (card : dict) (key header : string) (e : exn) :
  list_part card key header = Raise e -> e = TypeError.
Proof.
  unfold list_part. rewrite truthy_or_empty_list.
  unfold py_or. destruct (truthy (get card key)) eqn:E; [|discriminate].
  destruct (get card key); cbn; intros H; inversion H; reflexivity.
Qed.

(** X4.  The formatter succeeds exactly when each of [items], [symptoms] and
    [fix] is false or iterable, and the only exception it raises is
    [TypeError]. *)
Theorem build_document_outcome :
  forall card : dict,
    let fit := listable (get card "items") && listable (get card "symptoms")
               && listable (get card "fix") in
    match build_document card with
    | Ok _ => fit = true
    | Raise e => e = TypeError /\ fit = false
    end.
Proof.
  intros card fit. unfold fit, build_document.
  rewrite <- (list_part_ok card "items" "Checklist Items:").
  rewrite <- (list_part_ok card "symptoms" "Symptoms:").
  rewrite <- (list_part_ok card "fix" "Fix:").
  destruct (list_part card "items" "Checklist Items:") as [i|ei] eqn:Hi.
  2:{ cbn [bind]. split; [exact (list_part_error _ _ _ _ Hi)|reflexivity]. }
  destruct (list_part card "symptoms" "Symptoms:") as [s|es] eqn:Hs.
  2:{ cbn [bind]. split; [exact (list_part_error _ _ _ _ Hs)|reflexivity]. }
  destruct (list_part card "fix" "Fix:") as [f|ef] eqn:Hf.
  2:{ cbn [bind]. split; [exact (list_part_error _ _ _ _ Hf)|reflexivity]. }
  reflexivity.
Qed.

(** X5.  A document is the prefix followed by a body without whitespace at
    either end; a record none of whose six fields is true gets the bare
    prefix. *)
Theorem build_document_body :
  forall (card : dict) (doc : string),
    build_document card = Ok doc ->
    exists body,
      doc = "passage: " ++ body
      /\ starts_with_space body = false
      /\ ends_with_space body = false
      /\ (body = EmptyString
          \/ (truthy (get card "title") || truthy (get card "content")
              || has_later_section card) = true).
Proof.
  intros card doc H. unfold build_document in H.
  destruct (list_part card "items" "Checklist Items:") as [i|] eqn:Hi;
    [|discriminate].
  destruct (list_part card "symptoms" "Symptoms:") as [s|] eqn:Hs;
    [|discriminate].
  destruct (list_part card "fix" "Fix:") as [f|] eqn:Hf; [|discriminate].
  cbn [bind] in H. injection H as <-.
  eexists. split; [reflexivity|].
  match goal with
  | |- context [strip ?x] =>
      destruct (strip_trimmed x) as (l & r & _ & _ & _ & Hst & He)
  end.
  split; [exact Hst|]. split; [exact He|].
  destruct (truthy (get card "title")) eqn:Ht; [right; reflexivity|].
  destruct (truthy (get card "content")) eqn:Hc; [right; reflexivity|].
  destruct (has_later_section card) eqn:Hl; [right; reflexivity|].
  left. unfold has_later_section in Hl.
  apply orb_false_iff in Hl. destruct Hl as [Hl Hfix].
  apply orb_false_iff in Hl. destruct Hl as [Hl Hrc].
  apply orb_false_iff in Hl. destruct Hl as [Hit Hsy].
  apply list_part_shape in Hi, Hs, Hf.
  destruct Hi as [[Hi _]|[_ ->]]; [congruence|].
  destruct Hs as [[Hs _]|[_ ->]]; [congruence|].
  destruct Hf as [[Hf _]|[_ ->]]; [congruence|].
  unfold scalar_part. rewrite Ht, Hc, Hrc. reflexivity.
Qed.

Lemma iterate_ok (v : pyval) : is_ok (iterate v) = can_iterate v.
Proof. destruct v; reflexivity. Qed.

(** X6.  The projection succeeds exactly when [tags] is false or iterable and
    [source] is false or a mapping; unfit tags raise [TypeError], an unfit
    source with fit tags raises [AttributeError]. *)
Theorem build_metadata_outcome :
  forall card : dict,
    let fit_tags := listable (get card "tags") in
    let fit_source := mappable (get card "source") in
    match build_metadata card with
    | Ok _ => fit_tags && fit_source = true
    | Raise e =>
        e = (if fit_tags then AttributeError else TypeError)
        /\ fit_tags && fit_source = false
    end.
Proof.
  intros card. unfold build_metadata, listable, mappable, py_or.
  destruct (truthy (get card "tags")) eqn:Et;
    destruct (truthy (get card "source")) eqn:Es;
    destruct (get card "tags"); try discriminate Et;
    destruct (get card "source"); try discriminate Es;
    cbn; repeat split.
Qed.

Lemma build_metadata_entries (card m : dict) :
  build_metadata card = Ok m ->
  exists (source_name source_url : pyval) (tags_str : string),
    m = [ ("type", field_or_empty card "type");
          ("category", field_or_empty card "category");
          ("pipeline_step", field_or_empty card "pipeline_step");
          ("source_name", source_name);
          ("source_url", source_url);
          ("tags", VStr tags_str) ].
Proof.
  unfold build_metadata.
  destruct (iterate (py_or (get card "tags") (VList []))) as [elems|];
    [|discriminate].
  cbn [bind].
  destruct (method_get (py_or (get card "source") (VDict [])) "name"
              (VStr EmptyString)) as [sn|]; [|discriminate].
  destruct (method_get (py_or (get card "source") (VDict [])) "url"
              (VStr EmptyString)) as [su|]; [|discriminate].
  cbn [bind]. intros H. injection H as <-.
  eexists _, _, _. reflexivity.
Qed.

(** X7.  Whenever the projection succeeds the result has the six keys, in order,
    holds the record's own [type], [category] and [pipeline_step] (the empty
    string for a missing one) and a text under [tags]. *)
Theorem build_metadata_keys :
  forall card m : dict,
    build_metadata card = Ok m ->
    keys m = metadata_keys
    /\ dict_get "type" m = Some (field_or_empty card "type")
    /\ dict_get "category" m = Some (field_or_empty card "category")
    /\ dict_get "pipeline_step" m
       = Some (field_or_empty card "pipeline_step")
    /\ exists tags_str, dict_get "tags" m = Some (VStr tags_str).
Proof.
  intros card m H.
  destruct (build_metadata_entries card m H) as (sn & su & ts & ->).
  repeat split; try reflexivity. exists ts. reflexivity.
Qed.



(** X9.  Step gating end to end: the filter a query builds for a step alone is
    satisfied by the metadata of a record exactly when the record's
    [pipeline_step] is that step. *)
Theorem step_filter_selects_stage :
  forall (card m : dict) (step : string),
    build_metadata card = Ok m ->
    step <> EmptyString ->
    exists w,
      query_where (Some step) None = Some w
      /\ (satisfies m w <->
          dict_get "pipeline_step" card = Some (VStr step)).
Proof.
  intros card m step Hm Hstep.
  destruct (build_metadata_entries card m Hm) as (sn & su & ts & ->).
  rewrite (query_where_step_only step None Hstep eq_refl).
  eexists. split; [reflexivity|].
  unfold satisfies, field_or_empty. split.
  - intros H. specialize (H "pipeline_step" (VStr step) eq_refl).
    cbn in H. destruct (dict_get "pipeline_step" card) as [v|].
    + congruence.
    + inversion H. congruence.
  - intros Hc k v Hk. cbn [dict_get] in Hk.
    destruct ("pipeline_step" =? k) eqn:E; [|discriminate].
    apply String.eqb_eq in E. subst k. injection Hk as <-.
    cbn. rewrite Hc. reflexivity.
Qed.

(** ** Several steps at once *)

Lemma assoc_get_set {A : Type} (k k' : string) (v : A)
  (d : list (string * A)) :
  assoc_get k' (assoc_set k v d)
  = if k =? k' then Some v else assoc_get k' d.
Proof.
  induction d as [|[k0 v0] d IH]; cbn [assoc_set assoc_get].
  - reflexivity.
  - destruct (k0 =? k) eqn:E0; cbn [assoc_get].
    + apply String.eqb_eq in E0. subst k0.
      destruct (k =? k'); reflexivity.
    + rewrite IH. destruct (k0 =? k') eqn:E1; [|reflexivity].
      destruct (k =? k') eqn:E2; [|reflexivity].
      apply String.eqb_eq in E1, E2. subst. rewrite String.eqb_refl in E0.
      discriminate.
Qed.

Section ManyStepsProperties.

Variable embedding : Type.
Variable encode : list string -> list embedding.
Variable float_literal : string -> bool.
Variable collection_query :
  list embedding -> Z -> option dict -> list string -> result pyval.

Local Abbreviation run_query :=
  (query encode float_literal collection_query).

Lemma many_steps_from_entries (q : option string) (steps : list string)
  (k : Z) (include : list string) (out0 out : list (string * list RagHit)) :
  many_steps_from encode float_literal collection_query q steps k include
    out0 = Ok out ->
  forall step,
    (In step steps ->
     exists hits,
       run_query q (Some step) k None include = Ok hits
       /\ assoc_get step out = Some hits)
    /\ (~ In step steps -> assoc_get step out = assoc_get step out0).
Proof.
  revert out0. induction steps as [|s0 rest IH]; intros out0 H step.
  - cbn in H. injection H as <-. split; [intros []|reflexivity].
  - cbn [many_steps_from] in H.
    destruct (run_query q (Some s0) k None include) as [h0|] eqn:Hq;
      [|discriminate].
    cbn [bind] in H. specialize (IH _ H step). destruct IH as [IHin IHout].
    destruct (in_dec string_dec step rest) as [Hin|Hnin].
    + split; [intros _; exact (IHin Hin)|].
      intros Hn. exfalso. apply Hn. right. exact Hin.
    + specialize (IHout Hnin). rewrite assoc_get_set in IHout. split.
      * intros [->|Hin]; [|contradiction].
        rewrite String.eqb_refl in IHout. exists h0. split; assumption.
      * intros Hn. destruct (String.eqb_spec s0 step) as [->|_].
        -- exfalso. apply Hn. left. reflexivity.
        -- exact IHout.
Qed.

(** X13.  When [query_many_steps] returns, its result has an entry for each
    requested step and for no other key, and the entry of a step is what
    [query] returns for that step alone, with [k_per_step] results and no
    extra filter. *)
Theorem query_many_steps_entries :
  forall (q : option string) (steps : list string) (k_per_step : Z)
         (include : list string) (out : list (string * list RagHit))
         (step : string),
    query_many_steps encode float_literal collection_query q steps
      k_per_step include = Ok out ->
    match assoc_get step out with
    | Some hits =>
        In step steps
        /\ run_query q (Some step) k_per_step None include = Ok hits
    | None => ~ In step steps
    end.
Proof.
  intros q steps k include out step H.
  destruct (many_steps_from_entries q steps k include [] out H step)
    as [Hin Hout].
  destruct (in_dec string_dec step steps) as [Hi|Hn].
  - destruct (Hin Hi) as (hits & Hq & ->). split; assumption.
  - rewrite (Hout Hn). exact Hn.
Qed.

Lemma many_steps_from_app (q : option string) (pre post : list string)
  (k : Z) (include : list string) (out0 : list (string * list RagHit)) :
  many_steps_from encode float_literal collection_query q (pre ++ post) k
    include out0
  = (out1 <- many_steps_from encode float_literal collection_query q pre k
               include out0 ;;
     many_steps_from encode float_literal collection_query q post k include
       out1).
Proof.
  revert out0. induction pre as [|s pre IH]; intros out0; cbn.
  - reflexivity.
  - destruct (run_query q (Some s) k None include); cbn; [apply IH|].
    reflexivity.
Qed.

(** X14.  [query_many_steps] gives up at the first step whose query raises, with
    that exception; the results of the earlier steps are lost. *)
Theorem query_many_steps_first_failure :
  forall (q : option string) (pre : list string) (bad : string)
         (post : list string) (k_per_step : Z) (include : list string)
         (e : exn),
    Forall (fun s => is_ok (run_query q (Some s) k_per_step None include)
                     = true) pre ->
    run_query q (Some bad) k_per_step None include = Raise e ->
    query_many_steps encode float_literal collection_query q
      (pre ++ bad :: post) k_per_step include = Raise e.
Proof.
  intros q pre bad post k include e Hpre Hbad.
  unfold query_many_steps. rewrite many_steps_from_app.
  assert (Hok : forall out0, exists out1,
             many_steps_from encode float_literal collection_query q pre k
               include out0 = Ok out1).
  { induction Hpre as [|s pre Hs _ IH]; intros out0; cbn.
    - eexists. reflexivity.
    - destruct (run_query q (Some s) k None include); [|discriminate].
      cbn. apply IH. }
  destruct (Hok []) as [out1 ->]. cbn. rewrite Hbad. reflexivity.
Qed.

End ManyStepsProperties.

(** ** The listing of the hits *)

Lemma extract_content_of_text_or_false (d : pyval) :
  (is_string d || negb (truthy d)) = true ->
  extract_content_of d
  = Ok (match d with
        | VStr s => extract_content (Some s)
        | _ => EmptyString
        end).
Proof.
  unfold extract_content_of.
  destruct d; cbn [is_string orb]; intros H; try reflexivity;
    apply negb_true_iff in H; rewrite H; reflexivity.
Qed.

Lemma show_hit_showable (i : nat) (h : RagHit) :
  showable h = true ->
  show_hit (i, h) = Ok (HitShown i h (content_of h)).
Proof.
  unfold showable, show_hit, content_of. intros H.
  apply andb_prop in H. destruct H as [Hd Hm].
  rewrite (extract_content_of_text_or_false _ Hd). cbn [bind].
  destruct (hit_metadata h); try discriminate Hm. reflexivity.
Qed.

Lemma show_each_showable (hits : list RagHit) (i : nat) :
  forallb showable hits = true ->
  show_each show_hit (enumerate i hits)
  = (map (fun e => HitShown (fst e) (snd e) (content_of (snd e)))
       (enumerate i hits), Ok tt).
Proof.
  revert i. induction hits as [|h hits IH]; intros i Hall; [reflexivity|].
  cbn [forallb] in Hall. apply andb_prop in Hall. destruct Hall as [Hh Hall].
  cbn [enumerate show_each map fst snd]. rewrite (IH (S i) Hall).
  rewrite (show_hit_showable i h Hh). reflexivity.
Qed.

(** X27.  The listing of hits whose documents are texts or false and whose
    metadata are mappings cannot fail: it shows the count, then every hit in
    rank order from 1 with the content extracted from its document. *)
Theorem show_hits_showable :
  forall (step : string) (hits : list RagHit),
    forallb showable hits = true ->
    show_hits step hits
    = (ResultsHeader (List.length hits) step
         :: match hits with
            | [] => [NoResults]
            | _ :: _ =>
                map (fun e => HitShown (fst e) (snd e) (content_of (snd e)))
                  (enumerate 1 hits) ++ [ResultsEnd]
            end,
       Ok tt).
Proof.
  intros step hits Hall. unfold show_hits.
  destruct hits as [|h hits]; [reflexivity|].
  rewrite (show_each_showable (h :: hits) 1 Hall). reflexivity.
Qed.

(** X28.  A hit whose metadata is not a mapping, as when the store holds none for
    it, ends the listing with [AttributeError] once the hits before it have
    been shown. *)
Theorem show_hits_unshowable_metadata :
  forall (step : string) (before : list RagHit) (h : RagHit)
         (rest : list RagHit),
    forallb showable before = true ->
    (is_string (hit_document h) || negb (truthy (hit_document h))) = true ->
    is_mapping (hit_metadata h) = false ->
    show_hits step (before ++ h :: rest)
    = (ResultsHeader (List.length (before ++ h :: rest)) step
         :: map (fun e => HitShown (fst e) (snd e) (content_of (snd e)))
              (enumerate 1 before),
       Raise AttributeError).
Proof.
  intros step before h rest Hall Hd Hm. unfold show_hits.
  assert (Hgo : forall i,
             show_each show_hit (enumerate i (before ++ h :: rest))
             = (map (fun e => HitShown (fst e) (snd e) (content_of (snd e)))
                  (enumerate i before), Raise AttributeError)).
  { clear - Hall Hd Hm. induction before as [|b before IH]; intros i.
    - cbn [app enumerate show_each map]. unfold show_hit.
      rewrite (extract_content_of_text_or_false _ Hd). cbn [bind].
      destruct (hit_metadata h); try discriminate Hm; reflexivity.
    - cbn [forallb] in Hall. apply andb_prop in Hall.
      destruct Hall as [Hb Hall]. cbn [app enumerate show_each map fst snd].
      rewrite (IH Hall (S i)). rewrite (show_hit_showable i b Hb).
      reflexivity. }
  rewrite Hgo. destruct (before ++ h :: rest)%list eqn:E.
  - destruct before; discriminate.
  - reflexivity.
Qed.

(** ** Turns of the session *)

Section MainProperties.

Variable embedding : Type.
Variable encode : list string -> list embedding.
Variable float_literal : string -> bool.
Variable collection_query :
  list embedding -> Z -> option dict -> list string -> result pyval.

Local Abbreviation session :=
  (main_loop encode float_literal collection_query).
Local Abbreviation one_turn :=
  (turn encode float_literal collection_query).
Local Abbreviation listing :=
  (default_stage_listing encode float_literal collection_query).

(** X25.  The step table is shown once per turn: when a help word answers the
    second step prompt too, it is rejected as no integer, the warning is
    printed and the turn runs at [Step1_Premise]; here with a blank top-k
    answer, so with the count 6. *)
Theorem main_loop_help_turn :
  forall (q_line help_line again blank : string) (rest : list string),
    strip q_line <> EmptyString ->
    is_help (lower (strip help_line)) = true ->
    is_help (lower (strip again)) = true ->
    strip blank = EmptyString ->
    session (q_line :: help_line :: again :: blank :: rest)
    = after [ Prompt "Query text: ";
              Prompt "Pipeline step (1~6, default=1, type 'help' to show steps): ";
              StepHelp;
              Prompt "Pipeline step (1~6, default=1): ";
              Print (String.append
                       "Step input error: Pipeline step must be an integer 1~6.  -> using default step=1"
                       line_feed);
              Prompt "Top-k (default 6): " ]
        (and_then (listing (strip q_line) 6%Z) (session rest)).
Proof.
  intros q_line help_line again blank rest Hq Hh Ha Hb.
  cbn [main_loop]. rewrite (not_empty_false _ Hq), Hh.
  destruct (is_help_not_integer _ Ha) as [Hne Hint].
  rewrite <- (strip_idempotent again) in Hne, Hint.
  rewrite turn_default_stage
    with (1 := choose_step_rejected _ _ (parse_step_not_integer _ Hne Hint))
         (2 := f_equal choose_k Hb).
  rewrite strip_idempotent.
  unfold after. cbn [fst snd app]. reflexivity.
Qed.

Lemma turn_ends_well (q step_raw k_line : string) (next : trace) :
  snd (one_turn q step_raw k_line next) = Ok tt -> snd next = Ok tt.
Proof.
  unfold turn.
  destruct (choose_step step_raw) as [warn [step|e]]; [|discriminate].
  destruct (choose_k (strip k_line)) as [warn_k k].
  destruct (rq_query encode float_literal collection_query q step k)
    as [hits|e]; [|discriminate].
  destruct (show_hits step hits) as [listed [[]|e]]; [|discriminate].
  unfold after. cbn [snd]. auto.
Qed.

Lemma choose_step_eof (step_raw : string) (shown : list event) :
  snd (let (warn_step, chosen) := choose_step step_raw in
       match chosen with
       | Raise e => (warn_step, Raise e)
       | Ok _ => eof (warn_step ++ shown)
       end) <> Ok tt.
Proof.
  destruct (choose_step step_raw) as [w [s|e]]; cbn; discriminate.
Qed.

Lemma session_ends_well_bounded (n : nat) :
  forall inputs : list string,
    List.length inputs <= n ->
    snd (session inputs) = Ok tt ->
    Exists (fun line => strip line = EmptyString) inputs.
Proof.
  induction n as [|n IH]; intros inputs Hn Hok.
  - destruct inputs; [discriminate Hok|cbn in Hn; lia].
  - destruct inputs as [|line inputs1]; [discriminate Hok|].
    cbn [main_loop] in Hok.
    destruct (is_empty (strip line)) eqn:Hb.
    { apply Exists_cons_hd. apply is_empty_true. exact Hb. }
    apply Exists_cons_tl. cbn [after snd] in Hok.
    destruct inputs1 as [|line2 inputs2]; [discriminate Hok|].
    apply Exists_cons_tl.
    destruct (is_help (lower (strip line2))).
    + cbn [after snd] in Hok.
      destruct inputs2 as [|line3 inputs3]; [discriminate Hok|].
      apply Exists_cons_tl.
      destruct inputs3 as [|k_line rest].
      * exfalso. exact (choose_step_eof _ _ Hok).
      * apply Exists_cons_tl. apply turn_ends_well in Hok.
        apply IH; [cbn [List.length] in Hn; lia|exact Hok].
    + destruct inputs2 as [|k_line rest].
      * exfalso. exact (choose_step_eof _ _ Hok).
      * apply Exists_cons_tl. apply turn_ends_well in Hok.
        apply IH; [cbn [List.length] in Hn; lia|exact Hok].
Qed.

(** X26.  The session ends normally only when some line typed is blank: with
    no blank line it ends in an exception (the end of the input at the
    latest). *)
Theorem session_ends_only_at_blank_line :
  forall inputs : list string,
    snd (session inputs) = Ok tt ->
    Exists (fun line => strip line = EmptyString) inputs.
Proof.
  intros inputs. apply (session_ends_well_bounded (List.length inputs)).
  lia.
Qed.

End MainProperties.

(** ** Defaults of the prompt loop *)

(** C9, as the code has it.  A blank step input selects [Step1_Premise]; a
    non-blank input that [int] rejects raises the format error, and one that
    [int] reads as an integer outside 1..6 the range error.  In the session
    either error is printed in one warning line, and the turn goes on as it
    does on a blank step input: the store is asked for the entries of
    [Step1_Premise], the hits are listed and the session continues; a help
    word at the first step prompt is no step input, it asks for the step
    table.  A blank top-k input asks for 6 entries, and so does one that
    [int] rejects, after the top-k warning. *)
Theorem interactive_defaults :
  forall (embedding : Type) (encode : list string -> list embedding)
         (float_literal : string -> bool)
         (collection_query :
            list embedding -> Z -> option dict -> list string -> result pyval)
         (blank not_int out_of_range k_input q_line : string) (n : Z)
         (rest : list string),
    strip blank = EmptyString ->
    strip not_int <> EmptyString -> py_int (strip not_int) = None ->
    py_int (strip out_of_range) = Some n -> (n < 1 \/ 6 < n)%Z ->
    py_int (strip k_input) = None ->
    strip q_line <> EmptyString ->
    let session := main_loop encode float_literal collection_query in
    let prompts :=
      [ Prompt "Query text: ";
        Prompt "Pipeline step (1~6, default=1, type 'help' to show steps): " ] in
    let format_warning :=
      Print (String.append
               "Step input error: Pipeline step must be an integer 1~6.  -> using default step=1"
               line_feed) in
    let range_warning :=
      Print (String.append
               "Step input error: Pipeline step must be in 1~6.  -> using default step=1"
               line_feed) in
    let listing : trace :=
      match encode [String.append "query: " (strip q_line)] with
      | [] => ([], Raise IndexError)
      | v :: _ =>
          match collection_query [v] 6%Z
                  (Some [("pipeline_step", VStr "Step1_Premise")])
                  ["documents"; "metadatas"; "distances"] with
          | Raise e => ([], Raise e)
          | Ok res =>
              match shape_hits float_literal res with
              | Raise e => ([], Raise e)
              | Ok hits => show_hits "Step1_Premise" hits
              end
          end
      end in
    let goes_on : trace :=
      match snd listing with
      | Ok _ => after (fst listing) (session rest)
      | Raise _ => listing
      end in
    parse_step (Some blank) = Ok "Step1_Premise"
    /\ parse_step None = Ok "Step1_Premise"
    /\ parse_step (Some not_int)
       = Raise (ValueError "Pipeline step must be an integer 1~6.")
    /\ parse_step (Some out_of_range)
       = Raise (ValueError "Pipeline step must be in 1~6.")
    /\ session (q_line :: blank :: blank :: rest)
       = after (prompts ++ [Prompt "Top-k (default 6): "])%list goes_on
    /\ (is_help (lower (strip not_int)) = true
        \/ session (q_line :: not_int :: blank :: rest)
           = after (prompts
                    ++ [format_warning; Prompt "Top-k (default 6): "])%list
               goes_on)
    /\ session (q_line :: out_of_range :: k_input :: rest)
       = after (prompts ++ [range_warning; Prompt "Top-k (default 6): "]
                ++ match strip k_input with
                   | EmptyString => []
                   | String _ _ => [TopKWarning]
                   end)%list
           goes_on.
Proof.
  intros embedding encode fl cq blank not_int out_of_range k_input q_line n
    rest Hblank Hne Hnot Hout Hn Hk Hq session prompts format_warning
    range_warning listing goes_on.
  pose proof (parse_step_not_integer _ Hne Hnot) as H1.
  pose proof (parse_step_out_of_range _ _ Hout Hn) as H2.
  assert (Hoh : is_help (lower (strip out_of_range)) = false).
  { destruct (is_help (lower (strip out_of_range))) eqn:E; [|reflexivity].
    apply is_help_not_integer in E. destruct E as [_ E]. congruence. }
  assert (Hbh : is_help (lower (strip blank)) = false)
    by (rewrite Hblank; reflexivity).
  assert (Hk6 : choose_k (strip blank) = ([], 6%Z))
    by (rewrite Hblank; reflexivity).
  assert (Hkin : choose_k (strip k_input)
                 = (match strip k_input with
                    | EmptyString => []
                    | String _ _ => [TopKWarning]
                    end, 6%Z)).
  { unfold choose_k. rewrite Hk. destruct (strip k_input); reflexivity. }
  assert (Hgo : goes_on
                = and_then (default_stage_listing encode fl cq
                              (strip (strip q_line)) 6%Z) (session rest)).
  { rewrite strip_idempotent. reflexivity. }
  split; [apply parse_step_blank; exact Hblank|].
  split; [reflexivity|].
  split; [exact H1|]. split; [exact H2|].
  rewrite Hgo. subst session.
  rewrite <- (strip_idempotent not_int) in Hne, Hnot.
  rewrite <- (strip_idempotent out_of_range) in Hout.
  split; [|split].
  - rewrite main_loop_turn with (1 := Hq) (2 := Hbh).
    rewrite turn_default_stage
      with (1 := eq_trans (f_equal choose_step Hblank) eq_refl) (2 := Hk6).
    unfold after. cbn [fst snd app]. reflexivity.
  - destruct (is_help (lower (strip not_int))) eqn:Hnh; [left; reflexivity|].
    right. rewrite main_loop_turn with (1 := Hq) (2 := Hnh).
    rewrite turn_default_stage
      with (1 := choose_step_rejected _ _ (parse_step_not_integer _ Hne Hnot))
           (2 := Hk6).
    unfold after. cbn [fst snd app]. reflexivity.
  - rewrite main_loop_turn with (1 := Hq) (2 := Hoh).
    rewrite turn_default_stage
      with (1 := choose_step_rejected _ _
                   (parse_step_out_of_range _ _ Hout Hn))
           (2 := Hkin).
    unfold after. cbn [fst snd app]. reflexivity.
Qed.

Lemma interactive_defaults_witness :
  let encode := fun texts : list string => map String.length texts in
  let store :=
    fun (_ : list nat) (k : Z) (filter : option dict) (_ : list string) =>
      Ok (VDict [ ("ids", VList [VList [VInt k]]);
                  ("metadatas",
                   VList [VList [match filter with
                                 | Some d => VDict d
                                 | None => VNone
                                 end]]) ]) in
  let session := main_loop encode (fun _ => false) store in
  let prompts :=
    [ Prompt "Query text: ";
      Prompt "Pipeline step (1~6, default=1, type 'help' to show steps): " ] in
  let answer :=
    [ ResultsHeader 1 "Step1_Premise";
      HitShown 1
        (mk_hit (VInt 6) NaN VNone
           (VDict [("pipeline_step", VStr "Step1_Premise")]))
        EmptyString;
      ResultsEnd; Prompt "Query text: "; Print "Bye." ] in
  (strip "  " = EmptyString
   /\ strip "two" <> EmptyString /\ py_int (strip "two") = None
   /\ py_int (strip "9") = Some 9%Z /\ (9 < 1 \/ 6 < 9)%Z
   /\ py_int (strip "many") = None
   /\ strip "theme" <> EmptyString)
  /\ parse_step (Some "  ") = Ok "Step1_Premise"
  /\ parse_step None = Ok "Step1_Premise"
  /\ parse_step (Some "two")
     = Raise (ValueError "Pipeline step must be an integer 1~6.")
  /\ parse_step (Some "9")
     = Raise (ValueError "Pipeline step must be in 1~6.")
  /\ session ["theme"; "  "; "  "; " "]
     = ((prompts ++ [Prompt "Top-k (default 6): "] ++ answer)%list, Ok tt)
  /\ session ["theme"; "two"; "  "; " "]
     = ((prompts
         ++ [ Print (String.append
                       "Step input error: Pipeline step must be an integer 1~6.  -> using default step=1"
                       line_feed);
              Prompt "Top-k (default 6): " ]
         ++ answer)%list, Ok tt)
  /\ session ["theme"; "9"; "many"; " "]
     = ((prompts
         ++ [ Print (String.append
                       "Step input error: Pipeline step must be in 1~6.  -> using default step=1"
                       line_feed);
              Prompt "Top-k (default 6): "; TopKWarning ]
         ++ answer)%list, Ok tt).
Proof.
  intros encode store session prompts answer.
  assert (Hn : strip "two" <> EmptyString) by (vm_compute; discriminate).
  assert (Hq : strip "theme" <> EmptyString) by (vm_compute; discriminate).
  assert (Hr : (9 < 1 \/ 6 < 9)%Z) by (right; lia).
  split; [repeat split; (reflexivity || assumption)|].
  destruct (interactive_defaults nat encode (fun _ => false) store
              "  " "two" "9" "many" "theme" 9%Z [" "]
              eq_refl Hn eq_refl eq_refl Hr eq_refl Hq)
    as (H1 & H2 & H3 & H4 & H5 & [H6|H6] & H7).
  - discriminate H6.
  - repeat split; assumption.
Defined.

(** C9 as stated fails on long numerals.  [int] refuses a decimal literal of
    more than 4300 digits: the numeral 7 behind 4300 zeros is an integer
    outside 1..6, yet it raises the format error, not the range error.
    Behind 4299 zeros it raises the range error. *)
Lemma parse_step_long_numeral :
  let zeros := fun n : nat => String.concat EmptyString (repeat "0" n) in
  int_digits (String.append (zeros 4300) "7") 0%Z AtStart = Some 7%Z
  /\ parse_step (Some (String.append (zeros 4300) "7"))
     = Raise (ValueError "Pipeline step must be an integer 1~6.")
  /\ parse_step (Some (String.append (zeros 4299) "7"))
     = Raise (ValueError "Pipeline step must be in 1~6.").
Proof.
  vm_compute. repeat split; reflexivity.
Qed.


(** ** Snippets of [pretty_print] *)

Lemma replace_newline_step (a : ascii) (s : string) :
  replace newline " " None (String a s)
  = if Ascii.eqb a nl then String " " (replace newline " " None s)
    else String a (replace newline " " None s).
Proof.
  unfold replace, newline. cbn [replace_go prefix andb].
  destruct (ascii_dec nl a) as [E|E].
  - subst a. rewrite Ascii.eqb_refl.
    replace (prefix EmptyString s) with true by (destruct s; reflexivity).
    reflexivity.
  - destruct (Ascii.eqb_spec a nl); [congruence|reflexivity].
Qed.

Lemma replace_newline_clean (s : string) :
  contains_char nl (replace newline " " None s) = false.
Proof.
  induction s as [|a s IH]; [reflexivity|].
  rewrite replace_newline_step.
  destruct (Ascii.eqb a nl) eqn:E; cbn [contains_char].
  - rewrite IH. reflexivity.
  - rewrite E, IH. reflexivity.
Qed.

Lemma replace_newline_length (s : string) :
  String.length (replace newline " " None s) = String.length s.
Proof.
  induction s as [|a s IH]; [reflexivity|].
  rewrite replace_newline_step.
  destruct (Ascii.eqb a nl); cbn [String.length]; congruence.
Qed.

Lemma contains_char_take (c : ascii) (n : nat) (s : string) :
  contains_char c s = false -> contains_char c (substring 0 n s) = false.
Proof.
  revert n. induction s as [|x s IH]; intros n H.
  - destruct n; reflexivity.
  - destruct n as [|n]; [reflexivity|].
    cbn [contains_char] in H. apply orb_false_iff in H. destruct H as [Hx H].
    cbn [substring contains_char]. rewrite Hx. apply IH. exact H.
Qed.

Lemma length_take (n : nat) (s : string) :
  n <= String.length s -> String.length (substring 0 n s) = n.
Proof.
  revert n. induction s as [|x s IH]; intros n H.
  - destruct n; [reflexivity|cbn in H; lia].
  - destruct n as [|n]; [reflexivity|].
    cbn [substring String.length] in *. rewrite IH; lia.
Qed.

Section PrettyPrintProperties.

Variable ellipsis : string.

(** X16.  A snippet is one line: every newline of the document has become a
    space. *)
Theorem snippet_single_line :
  forall (document : pyval) (max_chars : Z) (snippet : string),
    contains_char nl ellipsis = false ->
    snippet_of ellipsis document max_chars = Ok snippet ->
    contains_char nl snippet = false.
Proof.
  intros document max_chars snippet He. unfold snippet_of.
  destruct (py_or document (VStr EmptyString)); try discriminate.
  destruct (max_chars <? _)%Z; intros H; injection H as <-.
  - rewrite contains_char_app, He, orb_false_r. unfold slice_to.
    destruct (0 <=? max_chars - 1)%Z;
      apply contains_char_take, replace_newline_clean.
  - apply replace_newline_clean.
Qed.

(** X17.  A text document no longer than [max_chars] is shown whole, newlines
    apart; a longer one is cut to its first [max_chars - 1] characters and
    the ellipsis text is appended, so the snippet then has
    [max_chars - 1] characters plus those of the ellipsis. *)
Theorem snippet_length :
  forall (s : string) (max_chars : Z),
    s <> EmptyString ->
    (1 <= max_chars)%Z ->
    let flat := replace newline " " None s in
    let cut := substring 0 (Z.to_nat (max_chars - 1)) flat ++ ellipsis in
    snippet_of ellipsis (VStr s) max_chars
    = Ok (if (Z.of_nat (String.length s) <=? max_chars)%Z then flat else cut)
    /\ ((Z.of_nat (String.length s) <= max_chars)%Z
        \/ Z.of_nat (String.length cut)
           = (max_chars - 1 + Z.of_nat (String.length ellipsis))%Z).
Proof.
  intros s max_chars Hs Hm flat cut. unfold snippet_of.
  assert (Hor : py_or (VStr s) (VStr EmptyString) = VStr s)
    by (destruct s; [congruence|reflexivity]).
  rewrite Hor. cbv zeta. rewrite replace_newline_length.
  destruct (Z.ltb_spec max_chars (Z.of_nat (String.length s))) as [Hlt|Hge].
  - destruct (Z.leb_spec (Z.of_nat (String.length s)) max_chars); [lia|].
    unfold slice_to.
    destruct (Z.leb_spec 0 (max_chars - 1)) as [_|Hneg]; [|lia].
    split; [reflexivity|]. right. unfold cut, flat.
    rewrite length_append, length_take.
    + lia.
    + rewrite replace_newline_length. lia.
  - destruct (Z.leb_spec (Z.of_nat (String.length s)) max_chars); [|lia].
    split; [reflexivity|]. left. exact Hge.
Qed.

End PrettyPrintProperties.

(** ** A record without an id *)

Section IngestionFailures.

Variable embedding : Type.
Variable json_loads : string -> option pyval.
Variable e5_embed : list string -> list embedding.

Lemma loop_failing_line (line : string) (post : list string)
  (st : loop_state embedding) (e : exn) :
  record_of json_loads line = Raise e ->
  loop json_loads e5_embed (line :: post) st = (st, Some e).
Proof.
  intros Hr. cbn [loop]. rewrite loop_body_record, Hr. reflexivity.
Qed.

(** X3.  A line that parses to an object without the key [id] ends the run with
    [KeyError]: neither it nor any later line reaches the collection, and
    the records of an unfinished batch before it are not stored either. *)
Theorem ingest_aborts_on_missing_id :
  forall (pre : list string) (line : string) (post : list string)
         (card : dict),
    json_loads line = Some (VDict card) ->
    dict_get "id" card = None ->
    let before := loop json_loads e5_embed pre init_state in
    ingest json_loads e5_embed (pre ++ line :: post)
    = (collection (fst before),
       Raise (match snd before with
              | Some e => e
              | None => KeyError "id"
              end)).
Proof.
  intros pre line post card Hline Hid before.
  assert (Hr : record_of json_loads line = Raise (KeyError "id")).
  { unfold record_of. rewrite Hline. cbn [subscript_key]. rewrite Hid.
    reflexivity. }
  unfold ingest. rewrite loop_app. fold before.
  destruct before as [st [e|]]; cbn [fst snd]; [reflexivity|].
  rewrite (loop_failing_line line post st _ Hr). reflexivity.
Qed.

End IngestionFailures.

(** ** Quick printing of showable hits *)

Section PrettyPrintHits.

Variable ellipsis : string.

Lemma summarise_showable (max_chars : Z) (rank : nat) (h : RagHit) :
  showable h = true ->
  exists s,
    summarise ellipsis max_chars (rank, h) = Ok s
    /\ sum_rank s = rank /\ sum_hit s = h.
Proof.
  unfold showable, summarise. intros H. apply andb_prop in H.
  destruct H as [Hd Hm].
  destruct (hit_metadata h); try discriminate Hm. cbn [method_get bind].
  assert (Hs : exists t, snippet_of ellipsis (hit_document h) max_chars
                         = Ok t).
  { unfold snippet_of, py_or.
    destruct (hit_document h); cbn [is_string orb] in Hd;
      try (apply negb_true_iff in Hd; rewrite Hd);
      try (destruct (truthy (VStr s)));
      cbv zeta;
      match goal with
      | |- context [(max_chars <? ?n)%Z] =>
          destruct (max_chars <? n)%Z
      end; eexists; reflexivity. }
  destruct Hs as [t ->]. cbn [bind]. eexists. repeat split.
Qed.

Lemma print_each_showable (max_chars : Z) (hits : list RagHit) (i : nat) :
  forallb showable hits = true ->
  exists printed,
    print_each ellipsis max_chars (enumerate i hits) = (printed, Ok tt)
    /\ map sum_rank printed = seq i (List.length hits)
    /\ map sum_hit printed = hits.
Proof.
  revert i. induction hits as [|h hits IH]; intros i Hall.
  - exists []. repeat split.
  - cbn [forallb] in Hall. apply andb_prop in Hall.
    destruct Hall as [Hh Hall].
    destruct (summarise_showable max_chars i h Hh) as (s & Hs & Hr & Hhit).
    destruct (IH (S i) Hall) as (printed & Hp & Hranks & Hhits).
    exists (s :: printed). cbn [enumerate print_each]. rewrite Hs, Hp.
    cbn [map List.length seq]. rewrite Hr, Hhit, Hranks, Hhits.
    repeat split.
Qed.

(** X18.  On hits whose documents are texts or false and whose metadata are
    mappings, [pretty_print] cannot fail and prints one summary per hit, in
    order, ranked from 1. *)
Theorem pretty_print_showable :
  forall (hits : list RagHit) (max_chars : Z),
    forallb showable hits = true ->
    exists printed,
      pretty_print ellipsis hits max_chars = (printed, Ok tt)
      /\ map sum_rank printed = seq 1 (List.length hits)
      /\ map sum_hit printed = hits.
Proof.
  intros hits max_chars Hall. unfold pretty_print.
  apply print_each_showable. exact Hall.
Qed.

End PrettyPrintHits.

(** ** The content of a stored document *)

(** X19.  In a document whose first [Content:] opens a content line that a line
    with a section marker follows, the helper returns the text between the
    two, stripped. *)
Theorem extract_content_between :
  forall (a : string) (sep x : ascii) (c mk tail : string),
    let doc := a ++ String sep
                      ("Content: " ++ String x c ++ String nl (mk ++ tail)) in
    occurs "Content:" a = false ->
    contains_char sep "Content:" = false ->
    is_word sep = false ->
    is_space x = false ->
    no_marker_line (String x c) = true ->
    In mk section_markers ->
    contains_char cr doc = false ->
    extract_content (Some doc) = strip (String x c).
Proof. exact extract_content_before_marker. Qed.

(** ** Instances *)

Lemma ingest_stores_every_record_witness :
  let e5 := fun texts : list string => map String.length texts in
  let lines := ["{1}"; "{2}"; "{3}"] in
  exists recs,
    for_each (record_of toy_loads) lines = Ok recs
    /\ exists c,
         ingest toy_loads e5 lines = (c, Ok tt)
         /\ stored_ids c = map (fun r => fst (fst r)) recs
         /\ stored_documents c = map (fun r => snd (fst r)) recs
         /\ stored_metadatas c = map snd recs.
Proof.
  intros e5 lines. eexists. split; [reflexivity|].
  apply (ingest_stores_every_record nat toy_loads e5 lines). reflexivity.
Defined.

Lemma ingest_batches_bounded_witness :
  let e5 := fun texts : list string => map String.length texts in
  let lines := ["{1}"; "{2}"; "{3}"] in
  exists recs,
    for_each (record_of toy_loads) lines = Ok recs
    /\ exists c,
         ingest toy_loads e5 lines = (c, Ok tt)
         /\ Forall (fun a => exists n, 1 <= n <= batch
                                       /\ well_formed_add e5 n a) c
         /\ Forall (well_formed_add e5 batch) (removelast c).
Proof.
  intros e5 lines. eexists. split; [reflexivity|].
  eapply (ingest_batches_bounded nat toy_loads e5 lines). reflexivity.
Defined.

Lemma ingest_aborts_on_missing_id_witness :
  let e5 := fun texts : list string => map String.length texts in
  let loads := fun line : string =>
                 if prefix "{" line
                 then Some (VDict [("title", VStr line)]) else None in
  let before := loop loads e5 [] init_state in
  loads "{1}" = Some (VDict [("title", VStr "{1}")])
  /\ dict_get "id" [("title", VStr "{1}")] = None
  /\ ingest loads e5 ([] ++ "{1}" :: ["{2}"])
     = (collection (fst before),
        Raise (match snd before with
               | Some e => e
               | None => KeyError "id"
               end)).
Proof.
  intros e5 loads before. split; [reflexivity|]. split; [reflexivity|].
  apply (ingest_aborts_on_missing_id nat loads e5 [] "{1}" ["{2}"]
           [("title", VStr "{1}")]); reflexivity.
Defined.

Lemma e5_query_prefix_ignores_blanks_witness :
  all_space " " = true /\ all_space "  " = true
  /\ e5_query_prefix (Some (" " ++ "premise" ++ "  "))
     = e5_query_prefix (Some "premise")
  /\ e5_query_prefix (Some " ") = "query: "
  /\ e5_query_prefix None = "query: ".
Proof.
  split; [reflexivity|]. split; [reflexivity|].
  apply (e5_query_prefix_ignores_blanks " " "premise" "  "); reflexivity.
Defined.

Lemma parse_step_ignores_blanks_witness :
  all_space " " = true /\ all_space "  " = true
  /\ parse_step (Some (" " ++ "3" ++ "  ")) = parse_step (Some "3")
  /\ parse_step (Some (strip "3")) = parse_step (Some "3").
Proof.
  split; [reflexivity|]. split; [reflexivity|].
  apply (parse_step_ignores_blanks " " "3" "  "); reflexivity.
Defined.

Lemma build_document_body_witness :
  let card := [("id", VStr "c1"); ("title", VStr "T")] in
  build_document card = Ok "passage: Title: T"
  /\ exists body,
       "passage: Title: T" = "passage: " ++ body
       /\ starts_with_space body = false
       /\ ends_with_space body = false
       /\ (body = EmptyString
           \/ (truthy (get card "title") || truthy (get card "content")
               || has_later_section card) = true).
Proof.
  intros card. split; [reflexivity|].
  apply (build_document_body card "passage: Title: T"). reflexivity.
Defined.

Lemma build_metadata_keys_witness :
  let card := [("id", VStr "c1"); ("tags", VStr "plot")] in
  exists m,
    build_metadata card = Ok m
    /\ keys m = metadata_keys
    /\ dict_get "type" m = Some (field_or_empty card "type")
    /\ dict_get "category" m = Some (field_or_empty card "category")
    /\ dict_get "pipeline_step" m
       = Some (field_or_empty card "pipeline_step")
    /\ exists tags_str, dict_get "tags" m = Some (VStr tags_str).
Proof.
  intros card. eexists. split; [reflexivity|].
  apply (build_metadata_keys card). reflexivity.
Defined.


Lemma step_filter_selects_stage_witness :
  let card := [("id", VStr "c1"); ("pipeline_step", VStr "Step1_Premise")] in
  exists m,
    build_metadata card = Ok m
    /\ "Step1_Premise" <> EmptyString
    /\ exists w,
         query_where (Some "Step1_Premise") None = Some w
         /\ (satisfies m w <->
             dict_get "pipeline_step" card = Some (VStr "Step1_Premise")).
Proof.
  intros card. eexists. split; [reflexivity|]. split; [discriminate|].
  apply (step_filter_selects_stage card _ "Step1_Premise").
  - reflexivity.
  - discriminate.
Defined.

Lemma query_where_conjunction_witness :
  let extra := [("category", VStr "theme")] in
  let meta := [("category", VStr "theme");
               ("pipeline_step", VStr "Step1_Premise")] in
  "Step1_Premise" <> EmptyString /\ extra <> []
  /\ NoDup (keys extra) /\ dict_get "pipeline_step" extra = None
  /\ exists w,
       query_where (Some "Step1_Premise") (Some extra) = Some w
       /\ (satisfies meta w <->
           dict_get "pipeline_step" meta = Some (VStr "Step1_Premise")
           /\ satisfies meta extra).
Proof.
  intros extra meta.
  assert (Hnd : NoDup (keys extra))
    by (repeat constructor; simpl; tauto).
  split; [discriminate|]. split; [discriminate|]. split; [exact Hnd|].
  split; [reflexivity|].
  apply (query_where_conjunction "Step1_Premise" extra meta).
  - discriminate.
  - discriminate.
  - exact Hnd.
  - reflexivity.
Defined.

Lemma shape_hits_columns_witness :
  let res :=
    [ ("ids", VList [VList [VStr "c1"; VStr "c2"]]);
      ("distances", VList [VList [VFloat "0.25"; VNone]]);
      ("documents", VList [VList [VStr "passage: Title: T"; VNone]]);
      ("metadatas", VList [VList [VDict []; VNone]]) ] in
  let ids := [VStr "c1"; VStr "c2"] in
  let dists := [VFloat "0.25"; VNone] in
  let docs := [VStr "passage: Title: T"; VNone] in
  let metas := [VDict []; VNone] in
  forallb is_distance dists = true
  /\ shape_hits (fun _ => false) (VDict res)
     = Ok (hits_of ids dists docs metas)
  /\ List.length (hits_of ids dists docs metas) = List.length ids.
Proof.
  intros res ids dists docs metas. split; [reflexivity|].
  apply (shape_hits_columns (fun _ => false) res ids dists docs metas
           [] [] [] []); reflexivity.
Defined.

Lemma query_many_steps_entries_witness :
  let encode := fun texts : list string => map String.length texts in
  let store := fun (_ : list nat) (_ : Z) (w : option dict)
                   (_ : list string) =>
                 Ok (VDict [("ids", VList [VList [VStr "c1"]])]) in
  let steps := ["Step1_Premise"; "Step6_Details"] in
  exists out,
    query_many_steps encode (fun _ => false) store (Some "theme") steps 4
      ["documents"] = Ok out
    /\ match assoc_get "Step6_Details" out with
       | Some hits =>
           In "Step6_Details" steps
           /\ query encode (fun _ => false) store (Some "theme")
                (Some "Step6_Details") 4 None ["documents"] = Ok hits
       | None => ~ In "Step6_Details" steps
       end.
Proof.
  intros encode store steps. eexists. split; [reflexivity|].
  apply (query_many_steps_entries nat encode (fun _ => false) store
           (Some "theme") steps 4%Z ["documents"]).
  reflexivity.
Defined.

Lemma query_many_steps_first_failure_witness :
  let encode := fun texts : list string => map String.length texts in
  let store := fun (_ : list nat) (_ : Z) (w : option dict)
                   (_ : list string) =>
                 match w with
                 | Some [(_, VStr "Step6_Details")] => Raise IndexError
                 | _ => Ok (VDict [("ids", VList [VList [VStr "c1"]])])
                 end in
  let run := query encode (fun _ => false) store (Some "theme") in
  is_ok (run (Some "Step1_Premise") 4%Z None ["documents"]) = true
  /\ run (Some "Step6_Details") 4%Z None ["documents"] = Raise IndexError
  /\ query_many_steps encode (fun _ => false) store (Some "theme")
       (["Step1_Premise"] ++ "Step6_Details" :: ["Step2_Premise_Consistency"])
       4 ["documents"] = Raise IndexError.
Proof.
  intros encode store run. split; [reflexivity|]. split; [reflexivity|].
  apply (query_many_steps_first_failure nat encode (fun _ => false) store
           (Some "theme") ["Step1_Premise"] "Step6_Details"
           ["Step2_Premise_Consistency"] 4%Z ["documents"] IndexError).
  - constructor; [reflexivity|constructor].
  - reflexivity.
Defined.

Lemma show_hits_showable_witness :
  let hits :=
    [ mk_hit (VStr "c1") NaN
        (VStr (join newline ["passage: Content: Hello"; "Fix:"; "- do X"]))
        (VDict []);
      mk_hit (VStr "c2") NaN VNone (VDict []) ] in
  forallb showable hits = true
  /\ show_hits "Step1_Premise" hits
     = (ResultsHeader (List.length hits) "Step1_Premise"
          :: map (fun e => HitShown (fst e) (snd e) (content_of (snd e)))
               (enumerate 1 hits) ++ [ResultsEnd],
        Ok tt).
Proof.
  intros hits. split; [reflexivity|].
  apply (show_hits_showable "Step1_Premise" hits). reflexivity.
Defined.

Lemma show_hits_unshowable_metadata_witness :
  let shown := mk_hit (VStr "c1") NaN (VStr "passage: Title: T") (VDict []) in
  let bare := mk_hit (VStr "c2") NaN (VStr "passage: Title: U") VNone in
  forallb showable [shown] = true
  /\ (is_string (hit_document bare) || negb (truthy (hit_document bare)))
     = true
  /\ is_mapping (hit_metadata bare) = false
  /\ show_hits "Step1_Premise" ([shown] ++ bare :: [shown])
     = (ResultsHeader (List.length ([shown] ++ bare :: [shown]))
          "Step1_Premise"
          :: map (fun e => HitShown (fst e) (snd e) (content_of (snd e)))
               (enumerate 1 [shown]),
        Raise AttributeError).
Proof.
  intros shown bare. split; [reflexivity|]. split; [reflexivity|].
  split; [reflexivity|].
  apply (show_hits_unshowable_metadata "Step1_Premise" [shown] bare [shown]);
    reflexivity.
Defined.

Lemma main_loop_help_turn_witness :
  let encode := fun texts : list string => map String.length texts in
  let store :=
    fun (_ : list nat) (k : Z) (filter : option dict) (_ : list string) =>
      Ok (VDict [ ("ids", VList [VList [VInt k]]);
                  ("metadatas",
                   VList [VList [match filter with
                                 | Some d => VDict d
                                 | None => VNone
                                 end]]) ]) in
  let session := main_loop encode (fun _ => false) store in
  (strip "theme" <> EmptyString
   /\ is_help (lower (strip " Help ")) = true
   /\ is_help (lower (strip "?")) = true
   /\ strip EmptyString = EmptyString)
  /\ session ["theme"; " Help "; "?"; EmptyString; " "]
     = ([ Prompt "Query text: ";
          Prompt "Pipeline step (1~6, default=1, type 'help' to show steps): ";
          StepHelp;
          Prompt "Pipeline step (1~6, default=1): ";
          Print (String.append
                   "Step input error: Pipeline step must be an integer 1~6.  -> using default step=1"
                   line_feed);
          Prompt "Top-k (default 6): ";
          ResultsHeader 1 "Step1_Premise";
          HitShown 1
            (mk_hit (VInt 6) NaN VNone
               (VDict [("pipeline_step", VStr "Step1_Premise")]))
            EmptyString;
          ResultsEnd; Prompt "Query text: "; Print "Bye." ], Ok tt).
Proof.
  intros encode store session.
  assert (Hq : strip "theme" <> EmptyString) by (vm_compute; discriminate).
  split; [repeat split; (reflexivity || assumption)|].
  exact (main_loop_help_turn nat encode (fun _ => false) store
           "theme" " Help " "?" EmptyString [" "]
           Hq eq_refl eq_refl eq_refl).
Defined.

Lemma session_ends_only_at_blank_line_witness :
  let session := main_loop (fun texts : list string =>
                              map String.length texts)
                   (fun _ => false)
                   (fun _ _ _ _ =>
                      Ok (VDict [("ids", VList [VList [VStr "c1"]])])) in
  snd (session ["theme"; "2"; "3"; " "]) = Ok tt
  /\ Exists (fun line => strip line = EmptyString) ["theme"; "2"; "3"; " "].
Proof.
  intros session. split; [reflexivity|].
  apply (session_ends_only_at_blank_line nat
           (fun texts : list string => map String.length texts)
           (fun _ => false)
           (fun _ _ _ _ => Ok (VDict [("ids", VList [VList [VStr "c1"]])]))
           ["theme"; "2"; "3"; " "]).
  reflexivity.
Defined.

Lemma snippet_single_line_witness :
  let document := VStr (join newline ["passage: Title: T"; "Content: Hello"]) in
  contains_char nl "..." = false
  /\ snippet_of "..." document 20 = Ok "passage: Title: T C..."
  /\ contains_char nl "passage: Title: T C..." = false.
Proof.
  intros document. split; [reflexivity|]. split; [reflexivity|].
  apply (snippet_single_line "..." document 20%Z "passage: Title: T C...");
    reflexivity.
Defined.

Lemma snippet_length_witness :
  let s := "passage: Title: T" in
  let flat := replace newline " " None s in
  let cut := substring 0 (Z.to_nat (10 - 1)) flat ++ "..." in
  s <> EmptyString /\ (1 <= 10)%Z
  /\ snippet_of "..." (VStr s) 10
     = Ok (if (Z.of_nat (String.length s) <=? 10)%Z then flat else cut)
  /\ ((Z.of_nat (String.length s) <= 10)%Z
      \/ Z.of_nat (String.length cut)
         = (10 - 1 + Z.of_nat (String.length "..."))%Z).
Proof.
  intros s flat cut. split; [discriminate|]. split; [lia|].
  apply (snippet_length "..." s 10%Z); [discriminate|lia].
Defined.

Lemma pretty_print_showable_witness :
  let hits :=
    [ mk_hit (VStr "c1") NaN (VStr "passage: Title: T") (VDict []);
      mk_hit (VStr "c2") NaN VNone (VDict [("title", VStr "U")]) ] in
  forallb showable hits = true
  /\ exists printed,
       pretty_print "..." hits 280 = (printed, Ok tt)
       /\ map sum_rank printed = seq 1 (List.length hits)
       /\ map sum_hit printed = hits.
Proof.
  intros hits. split; [reflexivity|].
  apply (pretty_print_showable "..." hits 280%Z). reflexivity.
Defined.

Lemma extract_content_between_witness :
  let doc := "passage:" ++ String " "
               ("Content: " ++ String "H" "ello"
                ++ String nl ("Fix:" ++ String nl "- do X")) in
  occurs "Content:" "passage:" = false
  /\ contains_char " " "Content:" = false
  /\ is_word " " = false
  /\ is_space "H" = false
  /\ no_marker_line (String "H" "ello") = true
  /\ In "Fix:" section_markers
  /\ contains_char cr doc = false
  /\ extract_content (Some doc) = strip (String "H" "ello").
Proof.
  intros doc.
  assert (Hin : In "Fix:" section_markers) by (simpl; tauto).
  repeat (split; [first [reflexivity | exact Hin]|]).
  apply (extract_content_between "passage:" " " "H" "ello" "Fix:"
           (String nl "- do X")); first [reflexivity | exact Hin].
Defined.

Lemma extract_content_no_marker_stored_witness :
  contains_char cr "Title: T " = false
  /\ occurs "Content:" "Title: T " = false
  /\ extract_content (Some ("passage: " ++ "Title: T ")) = strip "Title: T ".
Proof.
  split; [reflexivity|]. split; [reflexivity|].
  apply (extract_content_no_marker_stored "Title: T "); reflexivity.
Defined.
